(** * ParseHeaderTemplate: a shallow embedding of combo23/http-template

    The repository holds two near-duplicate Go files, [template.go]
    (package [headerloader]) and [parser.go] (package [http_template]),
    each with one function [ParseHeaderTemplate].  A Go [string] is a
    sequence of bytes and is modelled by [string] (a list of 8-bit
    [ascii]); a Go [int] index is a [Z]; [http.Header], a
    [map[string][]string], is a [gmap string (list string)].

    The function calls into [strings], [bufio], [fmt], [text/template]
    and fhttp.  [strings] and [bufio] are modelled on bytes as the Go
    library behaves, white space and line length included; the template
    engine and the Unicode case tables are parameters. *)

From Stdlib Require Import ZArith NArith Lia List Ascii String.
From stdpp Require Import base option list gmap strings.

Local Open Scope Z_scope.

(** ** Bytes and the [strings] package *)

Abbreviation bytes := list_ascii_of_string.
Abbreviation str := string_of_list_ascii.

Definition byte (c : ascii) : N := N_of_ascii c.

(** [len(s)] *)
Definition len (s : string) : Z := Z.of_nat (String.length s).

(** [s[:i]] and [s[i:]]; every index the program slices at comes from
    [IndexByte] on the same string, hence is in range. *)
Definition sliceTo (s : string) (i : Z) : string := str (take (Z.to_nat i) (bytes s)).
Definition sliceFrom (s : string) (i : Z) : string := str (drop (Z.to_nat i) (bytes s)).

(** [strings.IndexByte]: index of the first [c] in [s], or [-1]. *)
Fixpoint indexByte (l : list ascii) (c : ascii) : Z :=
  match l with
  | [] => -1
  | a :: l' =>
      if Ascii.eqb a c then 0
      else let i := indexByte l' c in if i =? -1 then -1 else i + 1
  end.

Definition IndexByte (s : string) (c : ascii) : Z := indexByte (bytes s) c.

(** [strings.HasPrefix] *)
Definition HasPrefix (s prefix : string) : bool := String.prefix prefix s.

(** White space as [unicode.IsSpace] defines it, on the UTF-8 encoding:
    the code points of [unicode.White_Space] are U+0009..U+000D, U+0020,
    U+0085, U+00A0, U+1680, U+2000..U+200A, U+2028, U+2029, U+202F,
    U+205F and U+3000.  UTF-8 is prefix-free and Go decodes a malformed
    byte as U+FFFD, which is no space, so a string starts (ends) with a
    white-space rune exactly when it starts (ends) with one of the
    encodings below. *)
Definition isSpace1 (a : N) : bool :=
  ((9 <=? a) && (a <=? 13) || (a =? 32))%N.

Definition isSpace2 (a b : N) : bool :=
  ((a =? 0xC2) && ((b =? 0x85) || (b =? 0xA0)))%N.

Definition isSpace3 (a b c : N) : bool :=
  ((a =? 0xE1) && (b =? 0x9A) && (c =? 0x80)
   || (a =? 0xE2) && (b =? 0x80)
      && ((0x80 <=? c) && (c <=? 0x8A) || (c =? 0xA8) || (c =? 0xA9) || (c =? 0xAF))
   || (a =? 0xE2) && (b =? 0x81) && (c =? 0x9F)
   || (a =? 0xE3) && (b =? 0x80) && (c =? 0x80))%N.

(** [strings.TrimLeftFunc(s, unicode.IsSpace)] *)
Fixpoint trimLeft (l : list ascii) : list ascii :=
  match l with
  | [] => []
  | a :: l1 =>
      if isSpace1 (byte a) then trimLeft l1
      else match l1 with
           | [] => l
           | b :: l2 =>
               if isSpace2 (byte a) (byte b) then trimLeft l2
               else match l2 with
                    | [] => l
                    | c :: l3 =>
                        if isSpace3 (byte a) (byte b) (byte c) then trimLeft l3 else l
                    end
           end
  end.

(** [strings.TrimRightFunc(s, unicode.IsSpace)], on the reversed bytes:
    the last rune is decoded backwards, so the encodings are matched
    from their last byte. *)
Fixpoint trimLeftRev (l : list ascii) : list ascii :=
  match l with
  | [] => []
  | a :: l1 =>
      if isSpace1 (byte a) then trimLeftRev l1
      else match l1 with
           | [] => l
           | b :: l2 =>
               if isSpace2 (byte b) (byte a) then trimLeftRev l2
               else match l2 with
                    | [] => l
                    | c :: l3 =>
                        if isSpace3 (byte c) (byte b) (byte a) then trimLeftRev l3 else l
                    end
           end
  end.

Definition trimRight (l : list ascii) : list ascii := rev (trimLeftRev (rev l)).

(** [strings.TrimSpace]: leading, then trailing white space removed. *)
Definition TrimSpace (s : string) : string := str (trimRight (trimLeft (bytes s))).

(** [strings.ToLower].  Strings of ASCII bytes take the library's fast
    path; any other string goes through [strings.Map(unicode.ToLower, s)],
    whose Unicode case tables are a parameter of the development. *)
Class UnicodeTables := { MapToLower : string -> string }.

Definition isASCII (s : string) : bool := forallb (fun c => (byte c <? 0x80)%N) (bytes s).

Definition lowerByte (c : ascii) : ascii :=
  if ((0x41 <=? byte c) && (byte c <=? 0x5A))%N then ascii_of_N (byte c + 0x20) else c.

Definition ToLower `{UnicodeTables} (s : string) : string :=
  if isASCII s then str (map lowerByte (bytes s)) else MapToLower s.

(** ** The [bufio] package: a [Scanner] over a string, split by [ScanLines] *)

Definition MaxScanTokenSize : Z := 64 * 1024.

Definition newline : ascii := ascii_of_N 10.
Definition cr : ascii := ascii_of_N 13.

(** The segments of [s] between line feeds: [s] is the first segment, a
    line feed, the second segment, and so on; the last segment is the
    text after the last line feed. *)
Fixpoint splitNL (l : list ascii) : list ascii * list (list ascii) :=
  match l with
  | [] => ([], [])
  | c :: l' =>
      let '(seg, segs) := splitNL l' in
      if Ascii.eqb c newline then ([], seg :: segs) else (c :: seg, segs)
  end.

Definition segments (s : string) : list (list ascii) :=
  let '(seg, segs) := splitNL (bytes s) in seg :: segs.

(** At end of input [ScanLines] returns no token for empty data: a last
    segment that is empty is not a line. *)
Fixpoint rawLines (segs : list (list ascii)) : list (list ascii) :=
  match segs with
  | [] => []
  | [seg] => match seg with [] => [] | _ => [seg] end
  | seg :: segs' => seg :: rawLines segs'
  end.

(** [dropCR] *)
Definition dropCR (l : list ascii) : list ascii :=
  match rev l with
  | c :: r => if Ascii.eqb c cr then rev r else l
  | [] => l
  end.

(** ** Errors, and what a [Scanner] delivers *)

(** An [error] value: one raised by [text/template], [bufio.ErrTooLong],
    or [fmt.Errorf(format, err)] with a single [%w] verb. *)
Inductive error (E : Type) : Type :=
| TemplateError (e : E)
| ErrTooLong
| Errorf (format : string) (err : error E).

Arguments TemplateError {E} e.
Arguments ErrTooLong {E}.
Arguments Errorf {E} format err.

(** The tokens that successive calls of [Scan] deliver, and whether the
    scan stopped on a line that is too long.  The reader is a
    [strings.Reader], which never fails, so the one error of the scanner
    is [ErrTooLong]: its buffer grows to [MaxScanTokenSize] bytes, and a
    line whose bytes before the line feed (or before the end of input)
    fill it stops the scan. *)
Fixpoint scanTokens (lines : list (list ascii)) : list string * bool :=
  match lines with
  | [] => ([], false)
  | l :: ls =>
      if MaxScanTokenSize <=? Z.of_nat (length l) then ([], true)
      else let '(ts, e) := scanTokens ls in (str (dropCR l) :: ts, e)
  end.

Definition Scanner (s : string) : list string * bool :=
  scanTokens (rawLines (segments s)).

(** [scanner.Err()] once [Scan] has returned [false]. *)
Definition Err {E} (tooLong : bool) : option (error E) :=
  if tooLong then Some ErrTooLong else None.

(** ** The collaborators of [ParseHeaderTemplate] *)

(** [text/template] is a black box: [Parse] stands for
    [template.New(name).Parse(text)], [Execute] for [tmpl.Execute(&buf,
    data)], returning what was written to the buffer and the error. *)
Class TextTemplate := {
  Template : Type;
  Data : Type;
  TemplateErr : Type;
  Parse : string -> Template + TemplateErr;
  Execute : Template -> Data -> string * option TemplateErr
}.

(** [http.Header] of bogdanfinn/fhttp, and the two magic keys
    [http.HeaderOrderKey] and [http.PHeaderOrderKey] with the values
    that package declares for them. *)
Abbreviation Header := (gmap string (list string)).

Definition HeaderOrderKey : string := "Header-Order:".
Definition PHeaderOrderKey : string := "PHeader-Order:".

(** The local variables that the scanning loop updates. *)
Record LoopState := mkLoopState {
  outputHeaders : Header;
  pseudoHeaderOrder : list string;
  regularHeaderOrder : list string;
  cookieHeaderAddedToOrder : bool
}.

Definition initialState : LoopState := mkLoopState ∅ [] [] false.

(** The last lines of both files: an order list is stored under its
    magic key when it is not empty. *)
Definition attachOrders (st : LoopState) : Header :=
  let h := outputHeaders st in
  let h := if 0 <? Z.of_nat (length (pseudoHeaderOrder st))
           then <[PHeaderOrderKey := pseudoHeaderOrder st]> h else h in
  if 0 <? Z.of_nat (length (regularHeaderOrder st))
  then <[HeaderOrderKey := regularHeaderOrder st]> h else h.

(** A Go result [(http.Header, error)] is a pair of options, [None]
    being [nil]. *)
Abbreviation Result := (option Header * option (error TemplateErr))%type.

(** ** template.go *)
Module headerloader.
Section Program.
Context `{UnicodeTables, TextTemplate}.

(** Lines 71-126: the key and value of a line; [None] is [continue]. *)
Definition lineKeyValue (line : string) : option (string * string) :=
  let trimmedLine := TrimSpace line in
  if (trimmedLine =? "")%string then None else
  let firstColonIdx := IndexByte trimmedLine ":" in
  if firstColonIdx =? -1 then None else
  let potentialKeyPart := sliceTo trimmedLine firstColonIdx in
  let potentialValuePart :=
    if firstColonIdx <? len trimmedLine - 1
    then sliceFrom trimmedLine (firstColonIdx + 1) else ""%string in
  let '(key, value) :=
    if (TrimSpace potentialKeyPart =? "")%string && HasPrefix trimmedLine ":" then
      let secondColonIdxInPVP := IndexByte potentialValuePart ":" in
      let '(actualPseudoKeyNamePart, value) :=
        if secondColonIdxInPVP =? -1 then (TrimSpace potentialValuePart, ""%string)
        else (TrimSpace (sliceTo potentialValuePart secondColonIdxInPVP),
              if secondColonIdxInPVP <? len potentialValuePart - 1
              then TrimSpace (sliceFrom potentialValuePart (secondColonIdxInPVP + 1))
              else ""%string) in
      (if (actualPseudoKeyNamePart =? "")%string then ":"%string
       else (":" +:+ actualPseudoKeyNamePart)%string, value)
    else (TrimSpace potentialKeyPart, TrimSpace potentialValuePart) in
  if (key =? "")%string then None else Some (key, value).

(** Lines 70-158: one iteration of [for scanner.Scan()]. *)
Definition loopBody (st : LoopState) (line : string) : LoopState :=
  match lineKeyValue line with
  | None => st
  | Some (key, value) =>
      if HasPrefix key ":" then
        mkLoopState (outputHeaders st) (pseudoHeaderOrder st ++ [key])
                    (regularHeaderOrder st) (cookieHeaderAddedToOrder st)
      else
        let lowerKey := ToLower key in
        if (lowerKey =? "cookie")%string then
          if negb (cookieHeaderAddedToOrder st) then
            mkLoopState (outputHeaders st) (pseudoHeaderOrder st)
                        (regularHeaderOrder st ++ [key]) true
          else st
        else if (lowerKey =? "content-length")%string then
          mkLoopState (outputHeaders st) (pseudoHeaderOrder st)
                      (regularHeaderOrder st ++ [key]) (cookieHeaderAddedToOrder st)
        else
          mkLoopState
            (match outputHeaders st !! key with
             | Some existingValues => <[key := existingValues ++ [value]]> (outputHeaders st)
             | None => <[key := [value]]> (outputHeaders st)
             end)
            (pseudoHeaderOrder st) (regularHeaderOrder st ++ [key])
            (cookieHeaderAddedToOrder st)
  end.

(** Lines 57-174, given what the scanner delivers: the first [Scan],
    the loop, the check of [scanner.Err()] and the order lists. *)
Definition parseLines (scanned : list string * bool) : Result :=
  match scanned with
  | ([], tooLong) =>
      match Err tooLong with
      | Some err => (None, Some (Errorf "error reading the first line: %w" err))
      | None => (Some ∅, None)
      end
  | (_ :: lines, tooLong) =>
      let st := foldl loopBody initialState lines in
      match Err tooLong with
      | Some err => (None, Some (Errorf "error scanning lines from processed template: %w" err))
      | None => (Some (attachOrders st), None)
      end
  end.

(** Lines 51-174: from the rendered text to the result. *)
Definition parseProcessed (processedStr : string) : Result :=
  parseLines (Scanner processedStr).

Definition ParseHeaderTemplate (templateStr : string) (templateData : Data) : Result :=
  match Parse templateStr with
  | inr err => (None, Some (Errorf "failed to parse template string: %w" (TemplateError err)))
  | inl tmpl =>
      match Execute tmpl templateData with
      | (_, Some err) => (None, Some (Errorf "failed to execute template: %w" (TemplateError err)))
      | (processedStr, None) => parseProcessed processedStr
      end
  end.

End Program.
End headerloader.

(** ** parser.go *)
Module http_template.
Section Program.
Context `{UnicodeTables, TextTemplate}.

(** Lines 68-123: the key and value of a line; [None] is [continue]. *)
Definition lineKeyValue (line : string) : option (string * string) :=
  let trimmedLine := TrimSpace line in
  if (trimmedLine =? "")%string then None else
  let firstColonIdx := IndexByte trimmedLine ":" in
  if firstColonIdx =? -1 then None else
  let potentialKeyPart := sliceTo trimmedLine firstColonIdx in
  let potentialValuePart :=
    if firstColonIdx <? len trimmedLine - 1
    then sliceFrom trimmedLine (firstColonIdx + 1) else ""%string in
  let '(key, value) :=
    if (TrimSpace potentialKeyPart =? "")%string && HasPrefix trimmedLine ":" then
      let secondColonIdxInPVP := IndexByte potentialValuePart ":" in
      let '(actualPseudoKeyNamePart, value) :=
        if secondColonIdxInPVP =? -1 then (TrimSpace potentialValuePart, ""%string)
        else (TrimSpace (sliceTo potentialValuePart secondColonIdxInPVP),
              if secondColonIdxInPVP <? len potentialValuePart - 1
              then TrimSpace (sliceFrom potentialValuePart (secondColonIdxInPVP + 1))
              else ""%string) in
      (if (actualPseudoKeyNamePart =? "")%string then ":"%string
       else (":" +:+ actualPseudoKeyNamePart)%string, value)
    else (TrimSpace potentialKeyPart, TrimSpace potentialValuePart) in
  if (key =? "")%string then None else Some (key, value).

(** Lines 67-153: one iteration of [for scanner.Scan()]. *)
Definition loopBody (st : LoopState) (line : string) : LoopState :=
  match lineKeyValue line with
  | None => st
  | Some (key, value) =>
      if HasPrefix key ":" then
        mkLoopState (outputHeaders st) (pseudoHeaderOrder st ++ [key])
                    (regularHeaderOrder st) (cookieHeaderAddedToOrder st)
      else
        let isCookieHeader := (ToLower key =? "cookie")%string in
        if isCookieHeader then
          if negb (cookieHeaderAddedToOrder st) then
            mkLoopState (outputHeaders st) (pseudoHeaderOrder st)
                        (regularHeaderOrder st ++ [key]) true
          else st
        else
          mkLoopState
            (match outputHeaders st !! key with
             | Some existingValues => <[key := existingValues ++ [value]]> (outputHeaders st)
             | None => <[key := [value]]> (outputHeaders st)
             end)
            (pseudoHeaderOrder st) (regularHeaderOrder st ++ [key])
            (cookieHeaderAddedToOrder st)
  end.

(** Lines 54-169, given what the scanner delivers. *)
Definition parseLines (scanned : list string * bool) : Result :=
  match scanned with
  | ([], tooLong) =>
      match Err tooLong with
      | Some err => (None, Some (Errorf "error reading the first line: %w" err))
      | None => (Some ∅, None)
      end
  | (_ :: lines, tooLong) =>
      let st := foldl loopBody initialState lines in
      match Err tooLong with
      | Some err => (None, Some (Errorf "error scanning lines from processed template: %w" err))
      | None => (Some (attachOrders st), None)
      end
  end.

(** Lines 48-169: from the rendered text to the result. *)
Definition parseProcessed (processedStr : string) : Result :=
  parseLines (Scanner processedStr).

Definition ParseHeaderTemplate (templateStr : string) (templateData : Data) : Result :=
  match Parse templateStr with
  | inr err => (None, Some (Errorf "failed to parse template string: %w" (TemplateError err)))
  | inl tmpl =>
      match Execute tmpl templateData with
      | (_, Some err) => (None, Some (Errorf "failed to execute template: %w" (TemplateError err)))
      | (processedStr, None) => parseProcessed processedStr
      end
  end.

End Program.
End http_template.

(** ** Vocabulary of the specification *)
Section Vocabulary.
Context `{UnicodeTables, TextTemplate}.

(** The template compiles and executes on the data, writing [text]. *)
Definition Renders (templateStr : string) (templateData : Data) (text : string) : Prop :=
  exists tmpl, Parse templateStr = inl tmpl /\ Execute tmpl templateData = (text, None).

(** The lines after the request line that the scanner delivers. *)
Definition bodyLines (text : string) : list string := tail (Scanner text).1.

(** The key and value of every line that is not skipped, in order. *)
Definition headerLines (text : string) : list (string * string) :=
  omap headerloader.lineKeyValue (bodyLines text).

Definition isPseudo (key : string) : bool := HasPrefix key ":".
Definition isCookie (key : string) : bool := (ToLower key =? "cookie")%string.
Definition isContentLength (key : string) : bool := (ToLower key =? "content-length")%string.

(** The keys of the regular header lines, and the values given to a key. *)
Definition regularKeysOf (kvs : list (string * string)) : list string :=
  filter (fun k => isPseudo k = false) kvs.*1.

Definition regularKeys (text : string) : list string := regularKeysOf (headerLines text).

Definition valuesOf (key : string) (kvs : list (string * string)) : list string :=
  (filter (fun kv => kv.1 = key) kvs).*2.

(** The three parts of a returned structure. *)
Definition pseudoOrder (h : Header) : list string := default [] (h !! PHeaderOrderKey).
Definition regularOrder (h : Header) : list string := default [] (h !! HeaderOrderKey).
Definition valueMap (h : Header) : Header := delete PHeaderOrderKey (delete HeaderOrderKey h).

End Vocabulary.

(** ** Two instances of the collaborators, for examples *)

(** A small template engine: a template without actions renders to
    itself, whatever the data; one template fails to compile and one
    fails to execute. *)
Definition smallTemplates : TextTemplate :=
  {| Template := string; Data := unit; TemplateErr := string;
     Parse := fun text =>
       if (text =? "{{")%string then inr "unclosed action"%string else inl text;
     Execute := fun tmpl _ =>
       if (tmpl =? "{{.X}}")%string then (""%string, Some "can't evaluate field X"%string)
       else (tmpl, None) |}.

(** Case tables that leave strings with a non-ASCII byte alone. *)
Definition noTables : UnicodeTables := {| MapToLower := id |}.

Definition nl : string := String newline EmptyString.

(** A line of [n] bytes ["A"]. *)
Definition longLine (n : Z) : string := str (replicate (Z.to_nat n) "A"%char).

(** Rendered texts of the examples. *)
Definition textContentLength : string :=
  "GET / HTTP/2" +:+ nl +:+ "Content-Length: 4" +:+ nl +:+ "X-A: 1" +:+ nl
  +:+ "content-length: 5" +:+ nl.

Definition textPlain : string :=
  "GET / HTTP/2" +:+ nl +:+ ":method: GET" +:+ nl +:+ ":path: /" +:+ nl
  +:+ "Host: example.com" +:+ nl.

Definition textCookies : string :=
  "GET / HTTP/2" +:+ nl +:+ "Cookie: a=1" +:+ nl +:+ "cookie: b=2" +:+ nl.

Definition textRepeated : string :=
  "REQ" +:+ nl +:+ "X-A: 1" +:+ nl +:+ "X-A: 2" +:+ nl.

Definition textCaseDiffers : string :=
  "REQ" +:+ nl +:+ "X-A: 1" +:+ nl +:+ "x-a: 2" +:+ nl.

Definition textOnlyContentLength : string :=
  "REQ" +:+ nl +:+ "Content-Length: 5" +:+ nl.

Definition bodyHost : string := "Host: example.com" +:+ nl.

(** The structures returned for them by template.go. *)
Definition headerContentLength : Header :=
  <["X-A"%string := ["1"%string]]>
    {[HeaderOrderKey := ["Content-Length"; "X-A"; "content-length"]%string]}.

Definition headerPlain : Header :=
  <["Host"%string := ["example.com"%string]]>
    (<[PHeaderOrderKey := [":method"; ":path"]%string]>
       {[HeaderOrderKey := ["Host"%string]]}).

Definition headerCookies : Header := {[HeaderOrderKey := ["Cookie"%string]]}.

Definition headerRepeated : Header :=
  <["X-A"%string := ["1"; "2"]%string]> {[HeaderOrderKey := ["X-A"; "X-A"]%string]}.

(** ** Definitions used by the proofs *)

(** Whether the bytes start with the encoding of a white-space rune. *)
Definition startsWithSpace (l : list ascii) : bool :=
  match l with
  | [] => false
  | a :: l1 =>
      isSpace1 (byte a)
      || match l1 with
         | [] => false
         | b :: l2 =>
             isSpace2 (byte a) (byte b)
             || match l2 with
                | [] => false
                | c :: _ => isSpace3 (byte a) (byte b) (byte c)
                end
         end
  end.

(** The same for the reversed bytes: whether they end with one. *)
Definition startsWithSpaceRev (l : list ascii) : bool :=
  match l with
  | [] => false
  | a :: l1 =>
      isSpace1 (byte a)
      || match l1 with
         | [] => false
         | b :: l2 =>
             isSpace2 (byte b) (byte a)
             || match l2 with
                | [] => false
                | c :: _ => isSpace3 (byte c) (byte b) (byte a)
                end
         end
  end.

Section Invariant.
Context `{UnicodeTables}.

(** The names that a loop keeps out of the value map: template.go
    suppresses two, parser.go one. *)
Definition suppressedTwo (key : string) : bool := isCookie key || isContentLength key.
Definition suppressedOne (key : string) : bool := isCookie key.

(** What the value map holds under [key] once the lines with keys and
    values [kvs] have been processed. *)
Definition expectedValues (suppressed : string -> bool) (key : string)
    (kvs : list (string * string)) : option (list string) :=
  if isPseudo key || suppressed key then None
  else match valuesOf key kvs with [] => None | vs => Some vs end.

(** The state of the loop after the lines with keys and values [kvs]. *)
Record loopInv (suppressed : string -> bool) (st : LoopState)
    (kvs : list (string * string)) : Prop := {
  inv_pseudo : pseudoHeaderOrder st = filter (fun k => isPseudo k = true) kvs.*1;
  inv_others :
    filter (fun k => isCookie k = false) (regularHeaderOrder st)
    = filter (fun k => isCookie k = false) (regularKeysOf kvs);
  inv_cookie :
    filter (fun k => isCookie k = true) (regularHeaderOrder st)
    = take 1 (filter (fun k => isCookie k = true) (regularKeysOf kvs));
  inv_flag :
    cookieHeaderAddedToOrder st
    = bool_decide (filter (fun k => isCookie k = true) (regularKeysOf kvs) <> []);
  inv_map : forall key, outputHeaders st !! key = expectedValues suppressed key kvs
}.

(** A key is a pseudo key or holds no colon. *)
Definition validKey (key : string) : Prop :=
  key <> ""%string /\ (isPseudo key = true \/ ":"%char ∉ bytes key).

End Invariant.


(** ** Vocabulary of the further properties *)
Section MoreVocabulary.
Context `{UnicodeTables}.

(** The regular-order list that the keys of the regular lines give:
    every key in its place, a cookie key only the first time. *)
Fixpoint orderOf (seen : bool) (keys : list string) : list string :=
  match keys with
  | [] => []
  | k :: ks =>
      if isCookie k then (if seen then orderOf true ks else k :: orderOf true ks)
      else k :: orderOf seen ks
  end.

(** A list as it is stored under a magic key: not at all when empty. *)
Definition stored (l : list string) : option (list string) :=
  match l with [] => None | _ => Some l end.

(** A segment that fills the scanner's buffer. *)
Definition tooLong (seg : list ascii) : bool := MaxScanTokenSize <=? Z.of_nat (length seg).

(** The bytes of the text before its first line feed. *)
Definition firstSegment (text : string) : list ascii := (splitNL (bytes text)).1.

End MoreVocabulary.

(** A carriage return and a line feed; the bytes of a text after its
    last line feed. *)
Definition crlf : string := String cr nl.

Definition lastSegment (text : string) : list ascii := List.last (segments text) [].

(** A header line as a template writes it, and a text of a request line
    and such lines, each ended by a line feed. *)
Definition headerLine (kv : string * string) : string := kv.1 +:+ ": " +:+ kv.2.

Definition headerText (request : string) (headers : list (string * string)) : string :=
  request +:+ nl +:+ foldr (fun kv rest => headerLine kv +:+ nl +:+ rest) ""%string headers.

(** A name or value without surrounding white space and without a line
    feed. *)
Definition clean (s : string) : Prop := TrimSpace s = s /\ (newline ∉ bytes s).

(** A name that a line can carry as it is: clean, not empty and without
    a colon. *)
Definition plainName (key : string) : Prop :=
  key <> ""%string /\ TrimSpace key = key
  /\ (":"%char ∉ bytes key) /\ (newline ∉ bytes key).

(** A header that a line can carry as it is and that the scanner
    accepts. *)
Definition plainHeader (kv : string * string) : Prop :=
  plainName kv.1 /\ clean kv.2 /\ len (headerLine kv) < MaxScanTokenSize.

(** A pseudo name: a colon and a plain name. A header with a plain or
    a pseudo name that a line can carry as it is. *)
Definition pseudoName (key : string) : Prop :=
  exists name, key = String ":" name /\ plainName name.

Definition writtenHeader (kv : string * string) : Prop :=
  (plainName kv.1 \/ pseudoName kv.1) /\ clean kv.2
  /\ len (headerLine kv) < MaxScanTokenSize.

(** A line that the loop takes for a pseudo header: its trimmed text
    starts with a colon. *)
Definition startsWithColon (line : string) : bool := HasPrefix (TrimSpace line) ":".

(** The structures of further examples: what parser.go returns for
    [textContentLength] and for [textOnlyContentLength], and what both
    files return for a request line and the line "X-A: 1". *)
Definition parserContentLength : Header :=
  <["Content-Length"%string := ["4"%string]]>
    (<["X-A"%string := ["1"%string]]>
       (<["content-length"%string := ["5"%string]]>
          {[HeaderOrderKey := ["Content-Length"; "X-A"; "content-length"]%string]})).

Definition headerOnlyContentLength : Header :=
  <["Content-Length"%string := ["5"%string]]>
    {[HeaderOrderKey := ["Content-Length"%string]]}.

Definition headerOnce : Header :=
  <["X-A"%string := ["1"%string]]> {[HeaderOrderKey := ["X-A"%string]]}.

(** * Properties of the library model *)

Lemma bytes_str l : bytes (str l) = l.
Proof. apply list_ascii_of_string_of_list_ascii. Qed.

Lemma str_bytes s : str (bytes s) = s.
Proof. apply string_of_list_ascii_of_string. Qed.

Lemma bytes_inj s1 s2 : bytes s1 = bytes s2 -> s1 = s2.
Proof. intros E. rewrite <- (str_bytes s1), <- (str_bytes s2). now rewrite E. Qed.

Lemma bytes_nil s : bytes s = [] <-> s = ""%string.
Proof. split; [intros E; now apply bytes_inj | now intros ->]. Qed.

Lemma eqb_empty_bytes s : (s =? "")%string = true <-> bytes s = [].
Proof. rewrite String.eqb_eq. symmetry. apply bytes_nil. Qed.

Lemma length_bytes s : length (bytes s) = String.length s.
Proof. induction s as [|c s IH]; simpl; [reflexivity | now rewrite IH]. Qed.

Lemma len_bytes s : len s = Z.of_nat (length (bytes s)).
Proof. unfold len. now rewrite length_bytes. Qed.

Lemma bytes_append s1 s2 : bytes (s1 +:+ s2) = bytes s1 ++ bytes s2.
Proof. induction s1 as [|c s1 IH]; simpl; [reflexivity | now rewrite IH]. Qed.

(** ** [IndexByte] and slices *)

Lemma indexByte_range l c : -1 <= indexByte l c < Z.of_nat (length l).
Proof.
  induction l as [|a l IH]; simpl; [lia|].
  destruct (Ascii.eqb a c); [lia|].
  destruct (Z.eqb_spec (indexByte l c) (-1)); lia.
Qed.

Lemma indexByte_none l c : indexByte l c = -1 <-> c ∉ l.
Proof.
  induction l as [|a l IH]; simpl.
  - split; [intros _; apply not_elem_of_nil | reflexivity].
  - destruct (Ascii.eqb_spec a c) as [->|Hne].
    + split; [discriminate | intros Hn; exfalso; apply Hn; left].
    + rewrite not_elem_of_cons.
      destruct (Z.eqb_spec (indexByte l c) (-1)) as [E|E].
      * split; [intros _; split; [congruence | now apply IH] | reflexivity].
      * pose proof (indexByte_range l c).
        split; [lia | intros [_ Hn]; apply IH in Hn; contradiction].
Qed.

(** The bytes before the first [c], and the bytes after it. *)
Lemma indexByte_split l c :
  indexByte l c <> -1 ->
  l = take (Z.to_nat (indexByte l c)) l ++ c :: drop (Z.to_nat (indexByte l c + 1)) l
  /\ c ∉ take (Z.to_nat (indexByte l c)) l.
Proof.
  induction l as [|a l IH]; simpl; [congruence|].
  destruct (Ascii.eqb_spec a c) as [->|Hne]; intros Hi.
  - simpl. rewrite drop_0. split; [reflexivity | apply not_elem_of_nil].
  - destruct (Z.eqb_spec (indexByte l c) (-1)) as [E|E]; [congruence|].
    pose proof (indexByte_range l c).
    destruct (IH E) as [IH1 IH2].
    replace (Z.to_nat (indexByte l c + 1)) with (S (Z.to_nat (indexByte l c))) by lia.
    replace (Z.to_nat (indexByte l c + 1 + 1)) with (S (S (Z.to_nat (indexByte l c)))) by lia.
    simpl. split.
    + f_equal. rewrite IH1 at 1. f_equal. f_equal.
      now replace (Z.to_nat (indexByte l c + 1)) with (S (Z.to_nat (indexByte l c))) by lia.
    + rewrite not_elem_of_cons. split; [congruence | exact IH2].
Qed.

(** ** [TrimSpace] *)

Lemma startsWithSpace_app l r : startsWithSpace l = true -> startsWithSpace (l ++ r) = true.
Proof.
  destruct l as [|a [|b [|c l]]]; simpl; try discriminate.
  - rewrite orb_false_r. now intros ->.
  - rewrite orb_false_r. intros Hs. apply orb_true_iff in Hs as [->| ->]; [reflexivity|].
    now rewrite orb_true_r.
  - auto.
Qed.

Lemma trimLeft_suffix l : exists p, l = p ++ trimLeft l.
Proof.
  induction l as [l IH] using (induction_ltof1 _ (@length ascii)). unfold ltof in IH.
  destruct l as [|a l1]; [now exists []|]. simpl.
  destruct (isSpace1 (byte a)).
  { destruct (IH l1) as [p Hp]; [simpl; lia|]. exists (a :: p). simpl. now f_equal. }
  destruct l1 as [|b l2]; [now exists []|].
  destruct (isSpace2 (byte a) (byte b)).
  { destruct (IH l2) as [p Hp]; [simpl; lia|]. exists (a :: b :: p). simpl. now do 2 f_equal. }
  destruct l2 as [|c l3]; [now exists []|].
  destruct (isSpace3 (byte a) (byte b) (byte c)); [|now exists []].
  destruct (IH l3) as [p Hp]; [simpl; lia|]. exists (a :: b :: c :: p). simpl. now do 3 f_equal.
Qed.

Lemma trimLeftRev_suffix l : exists p, l = p ++ trimLeftRev l.
Proof.
  induction l as [l IH] using (induction_ltof1 _ (@length ascii)). unfold ltof in IH.
  destruct l as [|a l1]; [now exists []|]. simpl.
  destruct (isSpace1 (byte a)).
  { destruct (IH l1) as [p Hp]; [simpl; lia|]. exists (a :: p). simpl. now f_equal. }
  destruct l1 as [|b l2]; [now exists []|].
  destruct (isSpace2 (byte b) (byte a)).
  { destruct (IH l2) as [p Hp]; [simpl; lia|]. exists (a :: b :: p). simpl. now do 2 f_equal. }
  destruct l2 as [|c l3]; [now exists []|].
  destruct (isSpace3 (byte c) (byte b) (byte a)); [|now exists []].
  destruct (IH l3) as [p Hp]; [simpl; lia|]. exists (a :: b :: c :: p). simpl. now do 3 f_equal.
Qed.

Lemma trimRight_prefix l : exists q, l = trimRight l ++ q.
Proof.
  unfold trimRight. destruct (trimLeftRev_suffix (rev l)) as [p Hp].
  exists (rev p). rewrite <- rev_app_distr, <- Hp. now rewrite rev_involutive.
Qed.

(** After [trimLeft] no white-space rune leads. *)
Lemma trimLeft_noSpace l : startsWithSpace (trimLeft l) = false.
Proof.
  induction l as [l IH] using (induction_ltof1 _ (@length ascii)). unfold ltof in IH.
  destruct l as [|a l1]; [reflexivity|]. simpl.
  destruct (isSpace1 (byte a)) eqn:E1; [apply IH; simpl; lia|].
  destruct l1 as [|b l2]; [simpl; now rewrite E1|].
  destruct (isSpace2 (byte a) (byte b)) eqn:E2; [apply IH; simpl; lia|].
  destruct l2 as [|c l3]; [simpl; now rewrite E1, E2|].
  destruct (isSpace3 (byte a) (byte b) (byte c)) eqn:E3; [apply IH; simpl; lia|].
  simpl. now rewrite E1, E2, E3.
Qed.

Lemma trimLeft_id l : startsWithSpace l = false -> trimLeft l = l.
Proof.
  destruct l as [|a [|b [|c l]]]; simpl; try reflexivity.
  - rewrite orb_false_r. now intros ->.
  - rewrite orb_false_r. intros Hs. apply orb_false_iff in Hs as [-> ->]. reflexivity.
  - intros Hs. apply orb_false_iff in Hs as [-> Hs].
    apply orb_false_iff in Hs as [-> ->]. reflexivity.
Qed.

(** If trimming on the right leaves nothing, the bytes are empty or
    start with a white-space rune. *)
Lemma trimLeftRev_nil l :
  trimLeftRev l = [] -> l = [] \/ startsWithSpace (rev l) = true.
Proof.
  induction l as [l IH] using (induction_ltof1 _ (@length ascii)). unfold ltof in IH.
  destruct l as [|a l1]; [now left|]. simpl. right.
  destruct (isSpace1 (byte a)) eqn:E1.
  { destruct (IH l1) as [->|Hs]; [simpl; lia | assumption | |].
    - simpl. now rewrite E1.
    - now apply startsWithSpace_app. }
  destruct l1 as [|b l2]; [discriminate|].
  destruct (isSpace2 (byte b) (byte a)) eqn:E2.
  { destruct (IH l2) as [->|Hs]; [simpl; lia | assumption | |].
    - simpl. rewrite E2. apply orb_true_r.
    - simpl. rewrite <- app_assoc. now apply startsWithSpace_app. }
  destruct l2 as [|c l3]; [discriminate|].
  destruct (isSpace3 (byte c) (byte b) (byte a)) eqn:E3; [|discriminate].
  destruct (IH l3) as [->|Hs]; [simpl; lia | assumption | |].
  - simpl. rewrite E3. now rewrite !orb_true_r.
  - simpl. rewrite <- !app_assoc. now apply startsWithSpace_app.
Qed.

Lemma trimRight_nil l : trimRight l = [] -> l = [] \/ startsWithSpace l = true.
Proof.
  unfold trimRight. intros E.
  assert (E' : trimLeftRev (rev l) = []).
  { rewrite <- (rev_involutive (trimLeftRev (rev l))), E. reflexivity. }
  destruct (trimLeftRev_nil _ E') as [Hn|Hs].
  - left. rewrite <- (rev_involutive l), Hn. reflexivity.
  - right. now rewrite rev_involutive in Hs.
Qed.

(** What [TrimSpace] returns is a slice of its argument, and does not
    start with white space. *)
Lemma TrimSpace_slice s : exists p q, bytes s = p ++ bytes (TrimSpace s) ++ q.
Proof.
  unfold TrimSpace. rewrite bytes_str.
  destruct (trimLeft_suffix (bytes s)) as [p Hp].
  destruct (trimRight_prefix (trimLeft (bytes s))) as [q Hq].
  exists p, q. now rewrite <- Hq.
Qed.

Lemma TrimSpace_noSpace s : startsWithSpace (bytes (TrimSpace s)) = false.
Proof.
  unfold TrimSpace. rewrite bytes_str.
  destruct (trimRight_prefix (trimLeft (bytes s))) as [q Hq].
  destruct (startsWithSpace (trimRight (trimLeft (bytes s)))) eqn:E; [|reflexivity].
  apply (startsWithSpace_app _ q) in E. rewrite <- Hq in E.
  now rewrite trimLeft_noSpace in E.
Qed.

Lemma TrimSpace_not_elem c s : c ∉ bytes s -> c ∉ bytes (TrimSpace s).
Proof.
  intros Hn Hin. apply Hn. destruct (TrimSpace_slice s) as (p & q & ->).
  rewrite !elem_of_app. auto.
Qed.

(** A string that does not start with white space is not trimmed to
    nothing, unless it is empty. *)
Lemma TrimSpace_empty s :
  TrimSpace s = ""%string -> bytes s = [] \/ startsWithSpace (bytes s) = true.
Proof.
  intros E. apply bytes_nil in E. unfold TrimSpace in E. rewrite bytes_str in E.
  destruct (startsWithSpace (bytes s)) eqn:Hs; [now right|left].
  rewrite (trimLeft_id _ Hs) in E. destruct (trimRight_nil _ E); congruence.
Qed.

(** * Properties of a line's key and value *)

Lemma prefix_cons a s1 b s2 :
  String.prefix (String a s1) (String b s2)
  = if ascii_dec a b then String.prefix s1 s2 else false.
Proof. reflexivity. Qed.

Lemma HasPrefix_colon t : HasPrefix t ":" = true <-> exists t', t = String ":" t'.
Proof.
  unfold HasPrefix. destruct t as [|c t].
  - split; [discriminate | intros [t' E]; discriminate].
  - rewrite prefix_cons. destruct (ascii_dec ":" c) as [<-|Hne].
    + split; [intros _; now exists t | destruct t; reflexivity].
    + split; [discriminate | intros [t' E]; congruence].
Qed.

Lemma indexByte_zero l c : indexByte l c = 0 -> exists l', l = c :: l'.
Proof.
  destruct l as [|a l]; simpl; [discriminate|].
  destruct (Ascii.eqb_spec a c) as [->|Hne]; [now exists l|].
  pose proof (indexByte_range l c).
  destruct (Z.eqb_spec (indexByte l c) (-1)); lia.
Qed.

Lemma bytes_sliceTo s i : bytes (sliceTo s i) = take (Z.to_nat i) (bytes s).
Proof. unfold sliceTo. apply bytes_str. Qed.

Lemma bytes_sliceFrom s i : bytes (sliceFrom s i) = drop (Z.to_nat i) (bytes s).
Proof. unfold sliceFrom. apply bytes_str. Qed.

Lemma sliceTo_no_byte s c : IndexByte s c <> -1 -> c ∉ bytes (sliceTo s (IndexByte s c)).
Proof.
  intros Hi. rewrite bytes_sliceTo. now apply indexByte_split.
Qed.

(** The key candidate of a trimmed line that does not start with a
    colon is not trimmed to nothing: the regular branch computes a key
    that is not empty. *)
Lemma keyPart_not_blank line :
  TrimSpace line <> ""%string ->
  IndexByte (TrimSpace line) ":" <> -1 ->
  HasPrefix (TrimSpace line) ":" = false ->
  TrimSpace (sliceTo (TrimSpace line) (IndexByte (TrimSpace line) ":")) <> ""%string.
Proof.
  set (t := TrimSpace line). intros Ht Hi Hp E.
  pose proof (TrimSpace_noSpace line) as Hns. fold t in Hns.
  destruct (indexByte_split (bytes t) ":" Hi) as [Hsplit _]. fold (IndexByte t ":") in Hsplit.
  destruct (TrimSpace_empty _ E) as [Hn|Hs]; rewrite bytes_sliceTo in *.
  - assert (Hz : IndexByte t ":" = 0).
    { pose proof (indexByte_range (bytes t) ":") as Hr. fold (IndexByte t ":") in Hr.
      destruct (bytes t) as [|a l] eqn:Hb; [now apply bytes_nil in Hb|].
      destruct (Z.to_nat (IndexByte t ":")) eqn:Hz; [lia | discriminate]. }
    destruct (indexByte_zero _ _ Hz) as [l' Hl'].
    assert (Hp' : HasPrefix t ":" = true).
    { apply HasPrefix_colon. exists (str l'). apply bytes_inj. simpl. now rewrite bytes_str. }
    congruence.
  - apply (startsWithSpace_app _ (":"%char :: drop (Z.to_nat (IndexByte t ":" + 1)) (bytes t))) in Hs.
    rewrite <- Hsplit in Hs. congruence.
Qed.

Lemma lineKeyValue_skip line :
  TrimSpace line = ""%string \/ IndexByte (TrimSpace line) ":" = -1 ->
  headerloader.lineKeyValue line = None.
Proof.
  unfold headerloader.lineKeyValue. intros [->| E]; [reflexivity|].
  rewrite E. simpl. now destruct (TrimSpace line =? "")%string.
Qed.

(** What a line that is not skipped yields: a key that is not empty; a
    pseudo key when the trimmed line starts with a colon, and otherwise
    the trimmed key candidate, which holds no colon. *)
Lemma lineKeyValue_some line :
  TrimSpace line <> ""%string ->
  IndexByte (TrimSpace line) ":" <> -1 ->
  exists key value,
    headerloader.lineKeyValue line = Some (key, value)
    /\ key <> ""%string
    /\ (HasPrefix (TrimSpace line) ":" = true -> HasPrefix key ":" = true)
    /\ (HasPrefix (TrimSpace line) ":" = false ->
        key = TrimSpace (sliceTo (TrimSpace line) (IndexByte (TrimSpace line) ":"))
        /\ ":"%char ∉ bytes key).
Proof.
  intros Ht Hi. pose proof (keyPart_not_blank line Ht Hi) as Hk.
  pose proof (sliceTo_no_byte _ _ Hi) as Hnc.
  unfold headerloader.lineKeyValue.
  set (t := TrimSpace line) in *. set (i := IndexByte t ":") in *.
  destruct (String.eqb_spec t "") as [|_]; [contradiction|].
  destruct (Z.eqb_spec i (-1)) as [|_]; [contradiction|].
  set (pvp := if i <? len t - 1 then sliceFrom t (i + 1) else ""%string).
  destruct (HasPrefix t ":") eqn:Hp.
  - assert (Hblank : (TrimSpace (sliceTo t i) =? "")%string = true).
    { apply HasPrefix_colon in Hp as [t' Ht']. unfold i, IndexByte. rewrite Ht'. simpl.
      reflexivity. }
    rewrite Hblank. simpl.
    destruct (IndexByte pvp ":" =? -1).
    + destruct (TrimSpace pvp =? "")%string; do 2 eexists; (split; [reflexivity|]);
        (split; [discriminate|]);
        (split; [intros _; apply HasPrefix_colon; eexists; reflexivity | discriminate]).
    + destruct (TrimSpace (sliceTo pvp (IndexByte pvp ":")) =? "")%string;
        do 2 eexists; (split; [reflexivity|]);
        (split; [discriminate|]);
        (split; [intros _; apply HasPrefix_colon; eexists; reflexivity | discriminate]).
  - rewrite andb_false_r. specialize (Hk eq_refl).
    destruct (String.eqb_spec (TrimSpace (sliceTo t i)) "") as [|_]; [contradiction|].
    do 2 eexists. split; [reflexivity|]. split; [assumption|].
    split; [discriminate|]. intros _. split; [reflexivity|]. now apply TrimSpace_not_elem.
Qed.

Lemma lineKeyValue_None line :
  headerloader.lineKeyValue line = None ->
  TrimSpace line = ""%string \/ IndexByte (TrimSpace line) ":" = -1.
Proof.
  intros E. destruct (String.eqb_spec (TrimSpace line) "") as [|Ht]; [now left|]. right.
  destruct (Z.eq_dec (IndexByte (TrimSpace line) ":") (-1)) as [|Hi]; [assumption|].
  destruct (lineKeyValue_some line Ht Hi) as (k & v & Hkv & _). congruence.
Qed.

(** Every key of a line is a pseudo key or holds no colon. *)
Lemma lineKeyValue_key line key value :
  headerloader.lineKeyValue line = Some (key, value) ->
  key <> ""%string /\ (HasPrefix key ":" = true \/ ":"%char ∉ bytes key).
Proof.
  intros E.
  destruct (String.eqb_spec (TrimSpace line) "") as [Ht|Ht].
  { rewrite lineKeyValue_skip in E by now left. discriminate. }
  destruct (Z.eq_dec (IndexByte (TrimSpace line) ":") (-1)) as [Hi|Hi].
  { rewrite lineKeyValue_skip in E by now right. discriminate. }
  destruct (lineKeyValue_some line Ht Hi) as (k & v & Hkv & Hne & Hp & Hr).
  rewrite Hkv in E. injection E as <- <-. split; [assumption|].
  destruct (HasPrefix (TrimSpace line) ":"); [left; auto | right; now apply Hr].
Qed.

(** The value of a regular line is the trimmed text after its first
    colon. *)
Lemma lineKeyValue_regular line key value :
  headerloader.lineKeyValue line = Some (key, value) ->
  HasPrefix key ":" = false ->
  key = TrimSpace (sliceTo (TrimSpace line) (IndexByte (TrimSpace line) ":"))
  /\ value = TrimSpace (if IndexByte (TrimSpace line) ":" <? len (TrimSpace line) - 1
                        then sliceFrom (TrimSpace line) (IndexByte (TrimSpace line) ":" + 1)
                        else ""%string).
Proof.
  unfold headerloader.lineKeyValue.
  set (t := TrimSpace line). set (i := IndexByte t ":").
  set (pvp := if i <? len t - 1 then sliceFrom t (i + 1) else ""%string).
  destruct (t =? "")%string; [discriminate|].
  destruct (i =? -1); [discriminate|].
  destruct ((TrimSpace (sliceTo t i) =? "")%string && HasPrefix t ":").
  - assert (Hcolon : forall x, HasPrefix (":" +:+ x) ":" = true)
      by (intros x; apply HasPrefix_colon; eexists; reflexivity).
    destruct (IndexByte pvp ":" =? -1).
    + destruct (TrimSpace pvp =? "")%string; intros E; injection E as <- <-;
        [discriminate | rewrite Hcolon; discriminate].
    + destruct (TrimSpace (sliceTo pvp (IndexByte pvp ":")) =? "")%string;
        intros E; injection E as <- <-; [discriminate | rewrite Hcolon; discriminate].
  - destruct (TrimSpace (sliceTo t i) =? "")%string; [discriminate|].
    intros E. injection E as <- <-. auto.
Qed.

Lemma lineKeyValue_same line : http_template.lineKeyValue line = headerloader.lineKeyValue line.
Proof. reflexivity. Qed.

(** * Properties of the loop *)
Section Loop.
Context `{UnicodeTables}.

Lemma valuesOf_snoc key kvs k v :
  valuesOf key (kvs ++ [(k, v)]) = valuesOf key kvs ++ (if decide (k = key) then [v] else []).
Proof.
  unfold valuesOf. rewrite filter_app, fmap_app. f_equal.
  rewrite filter_cons, filter_nil. simpl. now destruct (decide (k = key)).
Qed.

Lemma regularKeysOf_snoc kvs k v :
  regularKeysOf (kvs ++ [(k, v)])
  = regularKeysOf kvs ++ (if isPseudo k then [] else [k]).
Proof.
  unfold regularKeysOf. rewrite fmap_app, filter_app. f_equal. simpl.
  rewrite filter_cons, filter_nil. destruct (isPseudo k); reflexivity.
Qed.

Lemma filter_snoc_bool (f : string -> bool) (b : bool) l k :
  filter (fun x => f x = b) (l ++ [k])
  = filter (fun x => f x = b) l ++ (if Bool.eqb (f k) b then [k] else []).
Proof.
  rewrite filter_app. f_equal. rewrite filter_cons, filter_nil.
  destruct (decide (f k = b)) as [->|Hne]; [now rewrite Bool.eqb_reflx|].
  destruct (Bool.eqb_spec (f k) b); [contradiction|reflexivity].
Qed.

Lemma pseudoKeys_snoc (kvs : list (string * string)) k v :
  filter (fun x => isPseudo x = true) (kvs ++ [(k, v)]).*1
  = filter (fun x => isPseudo x = true) kvs.*1 ++ (if isPseudo k then [k] else []).
Proof.
  rewrite fmap_app. simpl. rewrite filter_snoc_bool. now destruct (isPseudo k).
Qed.

Lemma expectedValues_other suppressed key kvs k v :
  k <> key -> expectedValues suppressed key (kvs ++ [(k, v)]) = expectedValues suppressed key kvs.
Proof.
  intros Hne. unfold expectedValues. rewrite valuesOf_snoc.
  destruct (decide (k = key)); [contradiction|]. now rewrite app_nil_r.
Qed.

Lemma expectedValues_hidden suppressed key kvs k v :
  isPseudo k || suppressed k = true ->
  expectedValues suppressed key (kvs ++ [(k, v)]) = expectedValues suppressed key kvs.
Proof.
  intros Hs. destruct (decide (k = key)) as [<-|Hne]; [|now apply expectedValues_other].
  unfold expectedValues. now rewrite Hs.
Qed.

Lemma cookie_not_contentLength k : isCookie k = true -> isContentLength k = false.
Proof.
  unfold isCookie, isContentLength. intros E. apply String.eqb_eq in E. now rewrite E.
Qed.

(** A line whose key is hidden from the map: the map is left alone. *)
Ltac hidden_map Hinv :=
  intros key; rewrite expectedValues_hidden; [apply (inv_map _ _ _ Hinv) | ];
  unfold suppressedTwo, suppressedOne; simpl;
  repeat match goal with E : _ = _ |- _ => rewrite E end; simpl; auto using orb_true_r.

(** The map after a regular header that is not suppressed. *)
Lemma insert_value_expected suppressed (m : Header) kvs k v :
  (forall key, m !! key = expectedValues suppressed key kvs) ->
  isPseudo k || suppressed k = false ->
  forall key,
    match m !! k with
    | Some existingValues => <[k := existingValues ++ [v]]> m
    | None => <[k := [v]]> m
    end !! key = expectedValues suppressed key (kvs ++ [(k, v)]).
Proof.
  intros Hm Hs key. destruct (decide (k = key)) as [<-|Hne].
  - rewrite (Hm k). unfold expectedValues. rewrite Hs, valuesOf_snoc.
    destruct (decide (k = k)); [|contradiction].
    destruct (valuesOf k kvs) as [|v0 vs]; now rewrite lookup_insert_eq.
  - rewrite expectedValues_other by assumption. rewrite <- (Hm key).
    destruct (m !! k); now rewrite lookup_insert_ne.
Qed.

Lemma loopInv_initial suppressed : loopInv suppressed initialState [].
Proof.
  split; try reflexivity. intros key. unfold expectedValues. simpl.
  rewrite lookup_empty. now destruct (isPseudo key || suppressed key).
Qed.

Lemma snoc_not_nil {A} (l : list A) x : l ++ [x] <> [].
Proof. now destruct l. Qed.

Lemma take1_snoc {A} (l : list A) x : l <> [] -> take 1 (l ++ [x]) = take 1 l.
Proof. destruct l; [contradiction | reflexivity]. Qed.

(** The lists of keys after one more line, with the line's class known. *)
Ltac snoc_lists Hp Hc :=
  rewrite ?pseudoKeys_snoc, ?regularKeysOf_snoc, ?Hp, ?filter_snoc_bool, ?Hc;
  simpl; rewrite ?app_nil_r.

(** One iteration of the loop of template.go. *)
Lemma headerloader_step st kvs line :
  loopInv suppressedTwo st kvs ->
  loopInv suppressedTwo (headerloader.loopBody st line)
          (kvs ++ from_option (fun kv => [kv]) [] (headerloader.lineKeyValue line)).
Proof.
  intros Hinv. unfold headerloader.loopBody.
  destruct (headerloader.lineKeyValue line) as [[k v]|]; simpl; [|now rewrite app_nil_r].
  pose proof Hinv as [Hps Hot Hck Hfl Hmap].
  fold (isPseudo k). destruct (isPseudo k) eqn:Hp.
  { split; simpl; snoc_lists Hp Hp; [congruence | assumption.. | hidden_map Hinv]. }
  fold (isCookie k). destruct (isCookie k) eqn:Hc.
  { destruct (cookieHeaderAddedToOrder st) eqn:Hflag; simpl.
    - symmetry in Hfl. apply bool_decide_eq_true in Hfl.
      split; simpl; snoc_lists Hp Hc;
        [ assumption | assumption | now rewrite take1_snoc
        | rewrite Hflag; symmetry; apply bool_decide_eq_true, snoc_not_nil
        | hidden_map Hinv ].
    - symmetry in Hfl. apply bool_decide_eq_false in Hfl.
      assert (Hnil : filter (fun k => isCookie k = true) (regularKeysOf kvs) = []).
      { destruct (filter (fun k => isCookie k = true) (regularKeysOf kvs));
          [reflexivity | exfalso; now apply Hfl]. }
      split; simpl; snoc_lists Hp Hc;
        [ assumption | assumption | now rewrite Hck, Hnil
        | symmetry; apply bool_decide_eq_true, snoc_not_nil
        | hidden_map Hinv ]. }
  fold (isContentLength k). destruct (isContentLength k) eqn:Hl.
  { split; simpl; snoc_lists Hp Hc;
      [ assumption | now rewrite Hot | assumption | assumption | hidden_map Hinv ]. }
  split; simpl; snoc_lists Hp Hc;
    [ assumption | now rewrite Hot | assumption | assumption | ].
  apply insert_value_expected; [assumption|].
  unfold suppressedTwo. now rewrite Hp, Hc, Hl.
Qed.

(** One iteration of the loop of parser.go. *)
Lemma http_template_step st kvs line :
  loopInv suppressedOne st kvs ->
  loopInv suppressedOne (http_template.loopBody st line)
          (kvs ++ from_option (fun kv => [kv]) [] (headerloader.lineKeyValue line)).
Proof.
  intros Hinv. unfold http_template.loopBody. rewrite lineKeyValue_same.
  destruct (headerloader.lineKeyValue line) as [[k v]|]; simpl; [|now rewrite app_nil_r].
  pose proof Hinv as [Hps Hot Hck Hfl Hmap].
  fold (isPseudo k). destruct (isPseudo k) eqn:Hp.
  { split; simpl; snoc_lists Hp Hp; [congruence | assumption.. | hidden_map Hinv]. }
  fold (isCookie k). destruct (isCookie k) eqn:Hc.
  { destruct (cookieHeaderAddedToOrder st) eqn:Hflag; simpl.
    - symmetry in Hfl. apply bool_decide_eq_true in Hfl.
      split; simpl; snoc_lists Hp Hc;
        [ assumption | assumption | now rewrite take1_snoc
        | rewrite Hflag; symmetry; apply bool_decide_eq_true, snoc_not_nil
        | hidden_map Hinv ].
    - symmetry in Hfl. apply bool_decide_eq_false in Hfl.
      assert (Hnil : filter (fun k => isCookie k = true) (regularKeysOf kvs) = []).
      { destruct (filter (fun k => isCookie k = true) (regularKeysOf kvs));
          [reflexivity | exfalso; now apply Hfl]. }
      split; simpl; snoc_lists Hp Hc;
        [ assumption | assumption | now rewrite Hck, Hnil
        | symmetry; apply bool_decide_eq_true, snoc_not_nil
        | hidden_map Hinv ]. }
  split; simpl; snoc_lists Hp Hc;
    [ assumption | now rewrite Hot | assumption | assumption | ].
  apply insert_value_expected; [assumption|].
  unfold suppressedOne. now rewrite Hp, Hc.
Qed.

Lemma omap_snoc {A B} (f : A -> option B) l x :
  omap f (l ++ [x]) = omap f l ++ from_option (fun y => [y]) [] (f x).
Proof. rewrite omap_app. simpl. now destruct (f x). Qed.

(** The state of either loop after any lines. *)
Lemma headerloader_loop lines :
  loopInv suppressedTwo (foldl headerloader.loopBody initialState lines)
          (omap headerloader.lineKeyValue lines).
Proof.
  induction lines as [|line lines IH] using rev_ind; [apply loopInv_initial|].
  rewrite foldl_snoc, omap_snoc. now apply headerloader_step.
Qed.

Lemma http_template_loop lines :
  loopInv suppressedOne (foldl http_template.loopBody initialState lines)
          (omap headerloader.lineKeyValue lines).
Proof.
  induction lines as [|line lines IH] using rev_ind; [apply loopInv_initial|].
  rewrite foldl_snoc, omap_snoc. now apply http_template_step.
Qed.

Lemma lines_validKeys lines :
  Forall validKey (omap headerloader.lineKeyValue lines).*1.
Proof.
  induction lines as [|line lines IH]; [constructor|]. simpl.
  destruct (headerloader.lineKeyValue line) as [[k v]|] eqn:E; [|assumption].
  constructor; [|assumption]. now apply lineKeyValue_key in E.
Qed.

Lemma valuesOf_absent key (kvs : list (string * string)) :
  key ∉ kvs.*1 -> valuesOf key kvs = [].
Proof.
  unfold valuesOf. induction kvs as [|[k v] kvs IH]; [reflexivity|]. simpl.
  rewrite not_elem_of_cons. intros [Hne Hn]. rewrite filter_cons. simpl.
  destruct (decide (k = key)); [congruence | now apply IH].
Qed.

(** The magic keys hold a colon and are no pseudo names: no line has
    them as its key. *)
Lemma magic_not_valid key :
  key = HeaderOrderKey \/ key = PHeaderOrderKey -> ~ validKey key.
Proof.
  intros [->| ->] [_ [Hp|Hc]]; try discriminate; apply Hc; vm_compute;
    repeat first [apply list_elem_of_here | apply list_elem_of_further].
Qed.

Lemma expectedValues_magic suppressed key kvs :
  Forall validKey kvs.*1 ->
  key = HeaderOrderKey \/ key = PHeaderOrderKey ->
  expectedValues suppressed key kvs = None.
Proof.
  intros Hv Hk. unfold expectedValues. rewrite valuesOf_absent.
  - now destruct (isPseudo key || suppressed key).
  - intros Hin. rewrite Forall_forall in Hv. now apply (magic_not_valid key Hk), Hv.
Qed.

End Loop.

(** * The returned structure *)

Lemma magic_keys_differ : HeaderOrderKey <> PHeaderOrderKey.
Proof. discriminate. Qed.

Lemma attachOrders_other st key :
  key <> HeaderOrderKey -> key <> PHeaderOrderKey ->
  attachOrders st !! key = outputHeaders st !! key.
Proof.
  intros H1 H2. unfold attachOrders.
  destruct (0 <? Z.of_nat (length (regularHeaderOrder st)));
    destruct (0 <? Z.of_nat (length (pseudoHeaderOrder st)));
    now rewrite ?lookup_insert_ne by congruence.
Qed.

Lemma nonempty_length {A} (l : list A) : (0 <? Z.of_nat (length l)) = false -> l = [].
Proof. destruct l; [reflexivity|]. simpl. intros E. apply Z.ltb_ge in E. lia. Qed.

Lemma attachOrders_pseudo st :
  outputHeaders st !! PHeaderOrderKey = None ->
  pseudoOrder (attachOrders st) = pseudoHeaderOrder st.
Proof.
  intros Hm. unfold pseudoOrder, attachOrders.
  pose proof magic_keys_differ.
  destruct (0 <? Z.of_nat (length (regularHeaderOrder st)));
    destruct (0 <? Z.of_nat (length (pseudoHeaderOrder st))) eqn:E;
    rewrite ?lookup_insert_ne by congruence;
    rewrite ?lookup_insert_eq, ?Hm; simpl; try reflexivity;
    symmetry; now apply nonempty_length.
Qed.

Lemma attachOrders_regular st :
  outputHeaders st !! HeaderOrderKey = None ->
  regularOrder (attachOrders st) = regularHeaderOrder st.
Proof.
  intros Hm. unfold regularOrder, attachOrders.
  pose proof magic_keys_differ.
  destruct (0 <? Z.of_nat (length (regularHeaderOrder st))) eqn:E;
    destruct (0 <? Z.of_nat (length (pseudoHeaderOrder st)));
    rewrite ?lookup_insert_eq; rewrite ?lookup_insert_ne by congruence;
    rewrite ?Hm; simpl; try reflexivity;
    symmetry; now apply nonempty_length.
Qed.

Lemma attachOrders_valueMap st :
  outputHeaders st !! HeaderOrderKey = None ->
  outputHeaders st !! PHeaderOrderKey = None ->
  valueMap (attachOrders st) = outputHeaders st.
Proof.
  intros H1 H2. apply map_eq. intros key. unfold valueMap.
  destruct (decide (key = PHeaderOrderKey)) as [->|Hp]; [now rewrite lookup_delete_eq|].
  rewrite lookup_delete_ne by congruence.
  destruct (decide (key = HeaderOrderKey)) as [->|Hh]; [now rewrite lookup_delete_eq|].
  rewrite lookup_delete_ne by congruence. now apply attachOrders_other.
Qed.

(** * Properties of the scanner *)

Lemma splitNL_no_newline l : newline ∉ l -> splitNL l = (l, []).
Proof.
  induction l as [|c l IH]; [reflexivity|]. rewrite not_elem_of_cons. intros [Hc Hl].
  simpl. rewrite (IH Hl). destruct (Ascii.eqb_spec c newline); [congruence|reflexivity].
Qed.

Lemma splitNL_line l rest :
  newline ∉ l ->
  splitNL (l ++ newline :: rest) = (l, (splitNL rest).1 :: (splitNL rest).2).
Proof.
  induction l as [|c l IH]; simpl.
  - intros _. now destruct (splitNL rest).
  - rewrite not_elem_of_cons. intros [Hc Hl]. rewrite (IH Hl).
    destruct (Ascii.eqb_spec c newline); [congruence|reflexivity].
Qed.

Lemma bytes_nl : bytes nl = [newline].
Proof. reflexivity. Qed.

Lemma segments_line line body :
  newline ∉ bytes line ->
  segments (line +:+ nl +:+ body) = bytes line :: segments body.
Proof.
  intros Hl. unfold segments. rewrite !bytes_append, bytes_nl. simpl.
  rewrite (splitNL_line _ _ Hl). now destruct (splitNL (bytes body)).
Qed.

Lemma segments_not_nil text : exists seg segs, segments text = seg :: segs.
Proof. unfold segments. destruct (splitNL (bytes text)); eauto. Qed.

(** The scanner on a text whose first line is short: the line, then
    what it delivers on the rest of the text. *)
Lemma Scanner_line line body :
  newline ∉ bytes line -> len line < MaxScanTokenSize ->
  Scanner (line +:+ nl +:+ body)
  = (str (dropCR (bytes line)) :: (Scanner body).1, (Scanner body).2).
Proof.
  intros Hl Hlen. unfold Scanner. rewrite (segments_line _ _ Hl).
  destruct (segments_not_nil body) as (seg & segs & ->).
  change (rawLines (bytes line :: seg :: segs)) with (bytes line :: rawLines (seg :: segs)).
  cbn [scanTokens]. rewrite <- len_bytes.
  destruct (Z.leb_spec MaxScanTokenSize (len line)); [lia|].
  now destruct (scanTokens (rawLines (seg :: segs))).
Qed.

(** * Properties of [ParseHeaderTemplate] *)
Section Results.
Context `{UnicodeTables, TextTemplate}.

Lemma attachOrders_initial : attachOrders initialState = ∅.
Proof. reflexivity. Qed.

Lemma headerloader_renders tpl data text :
  Renders tpl data text ->
  headerloader.ParseHeaderTemplate tpl data = headerloader.parseProcessed text.
Proof.
  intros (tmpl & Hp & He). unfold headerloader.ParseHeaderTemplate. now rewrite Hp, He.
Qed.

Lemma http_template_renders tpl data text :
  Renders tpl data text ->
  http_template.ParseHeaderTemplate tpl data = http_template.parseProcessed text.
Proof.
  intros (tmpl & Hp & He). unfold http_template.ParseHeaderTemplate. now rewrite Hp, He.
Qed.

(** A structure is returned only for a text that was rendered. *)
Lemma headerloader_returns tpl data h err :
  headerloader.ParseHeaderTemplate tpl data = (Some h, err) ->
  exists text, Renders tpl data text /\ headerloader.parseProcessed text = (Some h, err).
Proof.
  unfold headerloader.ParseHeaderTemplate, Renders.
  destruct (Parse tpl) as [tmpl|e]; [|discriminate].
  destruct (Execute tmpl data) as [text [e|]] eqn:He; [discriminate|].
  intros E. exists text. split; [now exists tmpl | assumption].
Qed.

Lemma http_template_returns tpl data h err :
  http_template.ParseHeaderTemplate tpl data = (Some h, err) ->
  exists text, Renders tpl data text /\ http_template.parseProcessed text = (Some h, err).
Proof.
  unfold http_template.ParseHeaderTemplate, Renders.
  destruct (Parse tpl) as [tmpl|e]; [|discriminate].
  destruct (Execute tmpl data) as [text [e|]] eqn:He; [discriminate|].
  intros E. exists text. split; [now exists tmpl | assumption].
Qed.

(** The structure returned for a text is the loop's final state with
    its order lists attached. *)
Lemma headerloader_parsed text h err :
  headerloader.parseProcessed text = (Some h, err) ->
  err = None
  /\ h = attachOrders (foldl headerloader.loopBody initialState (bodyLines text)).
Proof.
  unfold headerloader.parseProcessed, headerloader.parseLines, bodyLines.
  destruct (Scanner text) as [[|first lines] [|]]; simpl; intros E;
    try discriminate; injection E as <- <-; auto.
Qed.

Lemma http_template_parsed text h err :
  http_template.parseProcessed text = (Some h, err) ->
  err = None
  /\ h = attachOrders (foldl http_template.loopBody initialState (bodyLines text)).
Proof.
  unfold http_template.parseProcessed, http_template.parseLines, bodyLines.
  destruct (Scanner text) as [[|first lines] [|]]; simpl; intros E;
    try discriminate; injection E as <- <-; auto.
Qed.

(** No structure comes with an error. *)
Lemma headerloader_parsed_error text h err :
  headerloader.parseProcessed text = (h, Some err) -> h = None.
Proof.
  destruct h as [h|]; [|reflexivity]. intros E.
  now destruct (headerloader_parsed _ _ _ E).
Qed.

Lemma http_template_parsed_error text h err :
  http_template.parseProcessed text = (h, Some err) -> h = None.
Proof.
  destruct h as [h|]; [|reflexivity]. intros E.
  now destruct (http_template_parsed _ _ _ E).
Qed.

(** The parts of a returned structure, from the lines of the text. *)
Lemma headerloader_structure text h err :
  headerloader.parseProcessed text = (Some h, err) ->
  pseudoOrder h = filter (fun k => isPseudo k = true) (headerLines text).*1
  /\ filter (fun k => isCookie k = false) (regularOrder h)
     = filter (fun k => isCookie k = false) (regularKeys text)
  /\ filter (fun k => isCookie k = true) (regularOrder h)
     = take 1 (filter (fun k => isCookie k = true) (regularKeys text))
  /\ (forall key, key <> HeaderOrderKey -> key <> PHeaderOrderKey ->
      h !! key = expectedValues suppressedTwo key (headerLines text)).
Proof.
  intros E. destruct (headerloader_parsed _ _ _ E) as [_ ->].
  pose proof (headerloader_loop (bodyLines text)) as [Hps Hot Hck Hfl Hmap].
  pose proof (lines_validKeys (bodyLines text)) as Hv.
  fold (headerLines text) in *. fold (regularKeys text) in *.
  rewrite attachOrders_pseudo, attachOrders_regular
    by (rewrite Hmap; apply expectedValues_magic; auto).
  repeat split; try assumption.
  intros key H1 H2. now rewrite attachOrders_other.
Qed.

Lemma http_template_structure text h err :
  http_template.parseProcessed text = (Some h, err) ->
  pseudoOrder h = filter (fun k => isPseudo k = true) (headerLines text).*1
  /\ filter (fun k => isCookie k = false) (regularOrder h)
     = filter (fun k => isCookie k = false) (regularKeys text)
  /\ filter (fun k => isCookie k = true) (regularOrder h)
     = take 1 (filter (fun k => isCookie k = true) (regularKeys text))
  /\ (forall key, key <> HeaderOrderKey -> key <> PHeaderOrderKey ->
      h !! key = expectedValues suppressedOne key (headerLines text)).
Proof.
  intros E. destruct (http_template_parsed _ _ _ E) as [_ ->].
  pose proof (http_template_loop (bodyLines text)) as [Hps Hot Hck Hfl Hmap].
  pose proof (lines_validKeys (bodyLines text)) as Hv.
  fold (headerLines text) in *. fold (regularKeys text) in *.
  rewrite attachOrders_pseudo, attachOrders_regular
    by (rewrite Hmap; apply expectedValues_magic; auto).
  repeat split; try assumption.
  intros key H1 H2. now rewrite attachOrders_other.
Qed.

End Results.

(** * The claims *)
Section Claims.
Context `{UnicodeTables, TextTemplate}.

(** A line that is skipped leaves the state of either loop alone. *)
Lemma headerloader_skip st line :
  headerloader.lineKeyValue line = None -> headerloader.loopBody st line = st.
Proof. unfold headerloader.loopBody. now intros ->. Qed.

Lemma http_template_skip st line :
  headerloader.lineKeyValue line = None -> http_template.loopBody st line = st.
Proof.
  intros E. unfold http_template.loopBody.
  change (http_template.lineKeyValue line) with (headerloader.lineKeyValue line).
  now rewrite E.
Qed.

(** Dropping from the scanned lines one that leaves the state alone
    where it stands does not change the result. *)
Lemma headerloader_drop_line first lines1 line lines2 tooLong :
  headerloader.loopBody (foldl headerloader.loopBody initialState lines1) line
  = foldl headerloader.loopBody initialState lines1 ->
  headerloader.parseLines (first :: lines1 ++ line :: lines2, tooLong)
  = headerloader.parseLines (first :: lines1 ++ lines2, tooLong).
Proof.
  intros E. unfold headerloader.parseLines. rewrite !foldl_app. simpl. now rewrite E.
Qed.

Lemma http_template_drop_line first lines1 line lines2 tooLong :
  http_template.loopBody (foldl http_template.loopBody initialState lines1) line
  = foldl http_template.loopBody initialState lines1 ->
  http_template.parseLines (first :: lines1 ++ line :: lines2, tooLong)
  = http_template.parseLines (first :: lines1 ++ lines2, tooLong).
Proof.
  intros E. unfold http_template.parseLines. rewrite !foldl_app. simpl. now rewrite E.
Qed.

(** C6: when the template does not compile, or does not execute on the
    data, ParseHeaderTemplate (of either file) returns nil and the error
    wrapped in the message of the phase that failed, whatever had been
    written to the buffer: no line of it is parsed.  And whenever an
    error is returned, the structure is nil. *)
Theorem render_failure tpl data :
  (forall err, Parse tpl = inr err ->
     headerloader.ParseHeaderTemplate tpl data
     = (None, Some (Errorf "failed to parse template string: %w" (TemplateError err)))
     /\ http_template.ParseHeaderTemplate tpl data
        = (None, Some (Errorf "failed to parse template string: %w" (TemplateError err))))
  /\ (forall tmpl written err,
        Parse tpl = inl tmpl -> Execute tmpl data = (written, Some err) ->
        headerloader.ParseHeaderTemplate tpl data
        = (None, Some (Errorf "failed to execute template: %w" (TemplateError err)))
        /\ http_template.ParseHeaderTemplate tpl data
           = (None, Some (Errorf "failed to execute template: %w" (TemplateError err))))
  /\ (forall h err,
        headerloader.ParseHeaderTemplate tpl data = (h, Some err)
        \/ http_template.ParseHeaderTemplate tpl data = (h, Some err) ->
        h = None).
Proof.
  unfold headerloader.ParseHeaderTemplate, http_template.ParseHeaderTemplate.
  split; [|split].
  - intros err ->. now split.
  - intros tmpl written err -> ->. now split.
  - intros h err. destruct (Parse tpl) as [tmpl|e].
    + destruct (Execute tmpl data) as [text [e|]].
      * intros [E|E]; now injection E.
      * intros [E|E];
          [now apply headerloader_parsed_error in E
          | now apply http_template_parsed_error in E].
    + intros [E|E]; now injection E.
Qed.

(** C10: a line that is not empty once trimmed and holds a colon always
    yields a key that is not empty, in both files: a pseudo key, which
    starts with the colon, when the trimmed line starts with a colon,
    and otherwise the trimmed key candidate.  The [continue] on an empty
    key is never taken. *)
Theorem key_never_empty line :
  TrimSpace line <> ""%string ->
  IndexByte (TrimSpace line) ":" <> -1 ->
  exists key value,
    headerloader.lineKeyValue line = Some (key, value)
    /\ http_template.lineKeyValue line = Some (key, value)
    /\ key <> ""%string
    /\ (HasPrefix (TrimSpace line) ":" = true -> HasPrefix key ":" = true)
    /\ (HasPrefix (TrimSpace line) ":" = false ->
        key = TrimSpace (sliceTo (TrimSpace line) (IndexByte (TrimSpace line) ":"))).
Proof.
  intros Ht Hi.
  destruct (lineKeyValue_some line Ht Hi) as (key & value & Hkv & Hne & Hp & Hr).
  exists key, value.
  change (http_template.lineKeyValue line) with (headerloader.lineKeyValue line).
  repeat split; try assumption. intros E. now apply Hr.
Qed.

(** The result for a text whose first line is short depends on the rest
    of the text only. *)
Lemma headerloader_first_line line body :
  newline ∉ bytes line -> len line < MaxScanTokenSize ->
  headerloader.parseProcessed (line +:+ nl +:+ body)
  = headerloader.parseLines (""%string :: (Scanner body).1, (Scanner body).2).
Proof.
  intros Hl Hlen. unfold headerloader.parseProcessed. now rewrite Scanner_line.
Qed.

(** C5: a text that starts with the line "REQ LINE" and a text that
    starts with the line "IGNORED" and goes on in the same way give the
    same result; and so do any two first lines that the scanner accepts:
    the first line contributes nothing. *)
Theorem request_line_ignored tpl1 data1 tpl2 data2 body :
  (Renders tpl1 data1 ("REQ LINE" +:+ nl +:+ body) ->
   Renders tpl2 data2 ("IGNORED" +:+ nl +:+ body) ->
   headerloader.ParseHeaderTemplate tpl1 data1 = headerloader.ParseHeaderTemplate tpl2 data2)
  /\ (forall line1 line2,
        newline ∉ bytes line1 -> len line1 < MaxScanTokenSize ->
        newline ∉ bytes line2 -> len line2 < MaxScanTokenSize ->
        Renders tpl1 data1 (line1 +:+ nl +:+ body) ->
        Renders tpl2 data2 (line2 +:+ nl +:+ body) ->
        headerloader.ParseHeaderTemplate tpl1 data1
        = headerloader.ParseHeaderTemplate tpl2 data2).
Proof.
  assert (Hgen : forall line1 line2,
        newline ∉ bytes line1 -> len line1 < MaxScanTokenSize ->
        newline ∉ bytes line2 -> len line2 < MaxScanTokenSize ->
        Renders tpl1 data1 (line1 +:+ nl +:+ body) ->
        Renders tpl2 data2 (line2 +:+ nl +:+ body) ->
        headerloader.ParseHeaderTemplate tpl1 data1
        = headerloader.ParseHeaderTemplate tpl2 data2).
  { intros line1 line2 Hn1 Hl1 Hn2 Hl2 Hr1 Hr2.
    rewrite (headerloader_renders _ _ _ Hr1), (headerloader_renders _ _ _ Hr2).
    now rewrite !headerloader_first_line. }
  split; [|exact Hgen].
  apply Hgen; try (apply indexByte_none; reflexivity); reflexivity.
Qed.

(** A text of one line, with or without its line feed. *)
Lemma headerloader_one_line line :
  newline ∉ bytes line -> len line < MaxScanTokenSize ->
  headerloader.parseProcessed line = (Some ∅, None)
  /\ headerloader.parseProcessed (line +:+ nl) = (Some ∅, None).
Proof.
  intros Hl Hlen. split.
  - unfold headerloader.parseProcessed, Scanner, segments.
    rewrite (splitNL_no_newline _ Hl). rewrite len_bytes in Hlen.
    destruct (bytes line) as [|c l] eqn:Hb; [reflexivity|].
    cbn [rawLines scanTokens].
    destruct (Z.leb_spec MaxScanTokenSize (Z.of_nat (length (c :: l)))); [lia|reflexivity].
  - replace (line +:+ nl) with (line +:+ nl +:+ "")%string by reflexivity.
    now rewrite headerloader_first_line.
Qed.

Lemma headerloader_one_long_line line :
  newline ∉ bytes line -> MaxScanTokenSize <= len line ->
  headerloader.parseProcessed line
  = (None, Some (Errorf "error reading the first line: %w" ErrTooLong))
  /\ headerloader.parseProcessed (line +:+ nl)
     = (None, Some (Errorf "error reading the first line: %w" ErrTooLong)).
Proof.
  intros Hl Hlen. rewrite len_bytes in Hlen.
  assert (Hscan : scanTokens [bytes line] = ([], true)).
  { cbn [scanTokens].
    now destruct (Z.leb_spec MaxScanTokenSize (Z.of_nat (length (bytes line)))); [|lia]. }
  split; unfold headerloader.parseProcessed, Scanner, segments.
  - rewrite (splitNL_no_newline _ Hl).
    destruct (bytes line) as [|c l] eqn:Hb; [simpl in Hlen; unfold MaxScanTokenSize in Hlen; lia|].
    cbn [rawLines]. now rewrite Hscan.
  - rewrite bytes_append, bytes_nl, (splitNL_line _ _ Hl).
    cbn [splitNL fst snd rawLines]. now rewrite Hscan.
Qed.

(** C9, amended: when the rendered text is empty, or is one line with or
    without its line feed, ParseHeaderTemplate returns the empty map,
    which holds neither magic key, and no error, provided the line is
    shorter than [MaxScanTokenSize] bytes; for a longer line it returns
    nil and the scanner's error, wrapped. *)
Theorem only_request_line tpl data text line :
  Renders tpl data text ->
  newline ∉ bytes line ->
  text = line \/ text = (line +:+ nl)%string ->
  headerloader.ParseHeaderTemplate tpl data
  = if len line <? MaxScanTokenSize then (Some ∅, None)
    else (None, Some (Errorf "error reading the first line: %w" ErrTooLong)).
Proof.
  intros Hr Hl Ht. rewrite (headerloader_renders _ _ _ Hr).
  destruct (Z.ltb_spec (len line) MaxScanTokenSize) as [Hlen|Hlen].
  - destruct (headerloader_one_line line Hl Hlen) as [E1 E2].
    now destruct Ht as [->| ->].
  - destruct (headerloader_one_long_line line Hl Hlen) as [E1 E2].
    now destruct Ht as [->| ->].
Qed.

Lemma filter_through (f g : string -> bool) (l1 l2 : list string) :
  (forall x, f x = true -> g x = false) ->
  filter (fun x => g x = false) l1 = filter (fun x => g x = false) l2 ->
  filter (fun x => f x = true) l1 = filter (fun x => f x = true) l2.
Proof.
  intros Hfg E.
  assert (Hin : forall l : list string, filter (fun x => f x = true) (filter (fun x => g x = false) l)
                          = filter (fun x => f x = true) l).
  { induction l as [|x l IH]; [reflexivity|]. rewrite !filter_cons.
    destruct (decide (g x = false)) as [Hg|Hg].
    - rewrite filter_cons. destruct (decide (f x = true)); now rewrite IH.
    - destruct (decide (f x = true)) as [Hf|Hf]; [|exact IH].
      apply Hfg in Hf. contradiction. }
  now rewrite <- (Hin l1), <- (Hin l2), E.
Qed.

Lemma magic_not_suppressed key :
  key = HeaderOrderKey \/ key = PHeaderOrderKey ->
  isPseudo key = false /\ isCookie key = false /\ isContentLength key = false.
Proof. intros [->| ->]; repeat split; reflexivity. Qed.

Lemma expectedValues_suppressed suppressed key kvs :
  isPseudo key || suppressed key = true -> expectedValues suppressed key kvs = None.
Proof. unfold expectedValues. now intros ->. Qed.

Lemma expectedValues_some suppressed key kvs :
  is_Some (expectedValues suppressed key kvs) -> isPseudo key || suppressed key = false.
Proof.
  unfold expectedValues. destruct (isPseudo key || suppressed key); [|reflexivity].
  intros [x Hx]. discriminate.
Qed.

Lemma valuesOf_present key (kvs : list (string * string)) :
  key ∈ kvs.*1 -> valuesOf key kvs <> [].
Proof.
  unfold valuesOf. induction kvs as [|[k v] kvs IH]; simpl.
  - intros Hin. now apply elem_of_nil in Hin.
  - rewrite elem_of_cons, filter_cons. simpl.
    destruct (decide (k = key)); [discriminate|]. intros [E|Hin]; [congruence | auto].
Qed.

(** C1, for each file: in a structure that ParseHeaderTemplate of
    template.go returns, no key that [ToLower] maps to "content-length"
    is bound, and the regular-order list holds the content-length keys
    of the text's lines, one per line, in their order and casing.  In a
    structure that ParseHeaderTemplate of parser.go returns the
    regular-order list holds them in the same way, but every
    content-length key of a line is bound, to the values of the lines
    with that key. *)
Theorem content_length_suppressed tpl data text h :
  Renders tpl data text ->
  (headerloader.ParseHeaderTemplate tpl data = (Some h, None) ->
   (forall key, isContentLength key = true -> h !! key = None)
   /\ filter (fun k => isContentLength k = true) (regularOrder h)
      = filter (fun k => isContentLength k = true) (regularKeys text))
  /\ (http_template.ParseHeaderTemplate tpl data = (Some h, None) ->
      (forall key, key ∈ regularKeys text -> isContentLength key = true ->
         h !! key = Some (valuesOf key (headerLines text)))
      /\ filter (fun k => isContentLength k = true) (regularOrder h)
         = filter (fun k => isContentLength k = true) (regularKeys text)).
Proof.
  intros Hr.
  assert (Hcl : forall x, isContentLength x = true -> isCookie x = false).
  { intros x Hx. destruct (isCookie x) eqn:Hc; [|reflexivity].
    apply cookie_not_contentLength in Hc. congruence. }
  split; intros E.
  - rewrite (headerloader_renders _ _ _ Hr) in E.
    destruct (headerloader_structure _ _ _ E) as (_ & Hot & _ & Hmap). split.
    + intros key Hk. rewrite Hmap.
      * apply expectedValues_suppressed. unfold suppressedTwo. rewrite Hk.
        now rewrite !orb_true_r.
      * intros ->. discriminate.
      * intros ->. discriminate.
    + now apply (filter_through isContentLength isCookie).
  - rewrite (http_template_renders _ _ _ Hr) in E.
    destruct (http_template_structure _ _ _ E) as (_ & Hot & _ & Hmap). split.
    + intros key Hin Hk. unfold regularKeys, regularKeysOf in Hin.
      apply list_elem_of_filter in Hin as [Hp Hin]. rewrite Hmap.
      * unfold expectedValues, suppressedOne. rewrite Hp, (Hcl _ Hk). simpl.
        pose proof (valuesOf_present key _ Hin).
        now destruct (valuesOf key (headerLines text)).
      * intros ->. discriminate.
      * intros ->. discriminate.
    + now apply (filter_through isContentLength isCookie).
Qed.

(** The loops of the two files do the same on a line whose key is not a
    content-length key. *)
Lemma loopBody_agree st line :
  (forall k v, headerloader.lineKeyValue line = Some (k, v) -> isContentLength k = false) ->
  headerloader.loopBody st line = http_template.loopBody st line.
Proof.
  intros Hk. unfold headerloader.loopBody, http_template.loopBody.
  change (http_template.lineKeyValue line) with (headerloader.lineKeyValue line).
  destruct (headerloader.lineKeyValue line) as [[k v]|]; [|reflexivity].
  specialize (Hk k v eq_refl). unfold isContentLength in Hk. now rewrite Hk.
Qed.

Lemma loops_agree lines st :
  Forall (fun kv => isContentLength kv.1 = false) (omap headerloader.lineKeyValue lines) ->
  foldl headerloader.loopBody st lines = foldl http_template.loopBody st lines.
Proof.
  revert st. induction lines as [|line lines IH]; intros st Hall; [reflexivity|]. simpl in *.
  rewrite loopBody_agree.
  - apply IH. destruct (headerloader.lineKeyValue line); [now inversion Hall | assumption].
  - intros k v E. rewrite E in Hall. now inversion Hall.
Qed.

Lemma parseProcessed_agree text :
  Forall (fun kv => isContentLength kv.1 = false) (headerLines text) ->
  headerloader.parseProcessed text = http_template.parseProcessed text.
Proof.
  unfold headerLines, bodyLines, headerloader.parseProcessed, http_template.parseProcessed.
  unfold headerloader.parseLines, http_template.parseLines.
  destruct (Scanner text) as [[|first lines] tooLong]; [reflexivity|]. simpl.
  intros Hall. now rewrite loops_agree.
Qed.

(** C2: the two files return the same result whenever no line of the
    rendered text has a content-length key; on the text of the request
    line "REQ" and the line "Content-Length: 5" they differ: template.go
    lists the key in the regular order only, parser.go also binds it in
    the value map. *)
Theorem implementations_agree_but_for_content_length tpl data :
  ((forall text, Renders tpl data text ->
      Forall (fun kv => isContentLength kv.1 = false) (headerLines text)) ->
   headerloader.ParseHeaderTemplate tpl data = http_template.ParseHeaderTemplate tpl data)
  /\ (Renders tpl data ("REQ" +:+ nl +:+ "Content-Length: 5" +:+ nl) ->
      headerloader.ParseHeaderTemplate tpl data
      = (Some {[HeaderOrderKey := ["Content-Length"%string]]}, None)
      /\ http_template.ParseHeaderTemplate tpl data
         = (Some (<["Content-Length"%string := ["5"%string]]>
                    {[HeaderOrderKey := ["Content-Length"%string]]}), None)
      /\ headerloader.ParseHeaderTemplate tpl data
         <> http_template.ParseHeaderTemplate tpl data).
Proof.
  split.
  - intros Hall. unfold headerloader.ParseHeaderTemplate, http_template.ParseHeaderTemplate.
    destruct (Parse tpl) as [tmpl|e] eqn:Hp; [|reflexivity].
    destruct (Execute tmpl data) as [text [e|]] eqn:He; [reflexivity|].
    apply parseProcessed_agree, Hall. now exists tmpl.
  - intros Hr.
    rewrite (headerloader_renders _ _ _ Hr), (http_template_renders _ _ _ Hr).
    assert (E1 : headerloader.parseProcessed ("REQ" +:+ nl +:+ "Content-Length: 5" +:+ nl)
                 = (Some {[HeaderOrderKey := ["Content-Length"%string]]}, None))
      by (vm_compute; reflexivity).
    assert (E2 : http_template.parseProcessed ("REQ" +:+ nl +:+ "Content-Length: 5" +:+ nl)
                 = (Some (<["Content-Length"%string := ["5"%string]]>
                            {[HeaderOrderKey := ["Content-Length"%string]]}), None))
      by (vm_compute; reflexivity).
    rewrite E1, E2. repeat split.
    intros E.
    assert (E' := f_equal (fun r : Result =>
                     match r.1 with
                     | Some m => m !! "Content-Length"%string
                     | None => None
                     end) E).
    vm_compute in E'. discriminate.
Qed.

(** C3: in a structure that ParseHeaderTemplate (of either file)
    returns, the regular-order list holds at most one cookie key, the
    first cookie key of the text's regular lines in its casing, and no
    cookie key is bound in the structure; once the loop has seen a
    cookie line, a further cookie line among the scanned lines changes
    nothing in the result; and no cookie line changes the value map. *)
Theorem cookie_recorded_once :
  (forall tpl data text h,
     Renders tpl data text ->
     headerloader.ParseHeaderTemplate tpl data = (Some h, None)
     \/ http_template.ParseHeaderTemplate tpl data = (Some h, None) ->
     (length (filter (fun k => isCookie k = true) (regularOrder h)) <= 1)%nat
     /\ filter (fun k => isCookie k = true) (regularOrder h)
        = take 1 (filter (fun k => isCookie k = true) (regularKeys text))
     /\ (forall key, isCookie key = true -> h !! key = None))
  /\ (forall first lines1 line lines2 tooLong,
        (exists k, k ∈ regularKeysOf (omap headerloader.lineKeyValue lines1)
                   /\ isCookie k = true) ->
        (exists k v, headerloader.lineKeyValue line = Some (k, v)
                     /\ isPseudo k = false /\ isCookie k = true) ->
        headerloader.parseLines (first :: lines1 ++ line :: lines2, tooLong)
        = headerloader.parseLines (first :: lines1 ++ lines2, tooLong)
        /\ http_template.parseLines (first :: lines1 ++ line :: lines2, tooLong)
           = http_template.parseLines (first :: lines1 ++ lines2, tooLong))
  /\ (forall st line k v,
        headerloader.lineKeyValue line = Some (k, v) ->
        isPseudo k = false -> isCookie k = true ->
        outputHeaders (headerloader.loopBody st line) = outputHeaders st
        /\ outputHeaders (http_template.loopBody st line) = outputHeaders st).
Proof.
  split; [|split].
  - intros tpl data text h Hr E.
    assert (Hs : filter (fun k => isCookie k = true) (regularOrder h)
                 = take 1 (filter (fun k => isCookie k = true) (regularKeys text))
                 /\ (forall key, isCookie key = true -> h !! key = None)).
    { destruct E as [E|E].
      - rewrite (headerloader_renders _ _ _ Hr) in E.
        destruct (headerloader_structure _ _ _ E) as (_ & _ & Hck & Hmap).
        split; [assumption|]. intros key Hk. rewrite Hmap.
        + apply expectedValues_suppressed. unfold suppressedTwo. rewrite Hk.
          simpl. apply orb_true_r.
        + intros ->. discriminate.
        + intros ->. discriminate.
      - rewrite (http_template_renders _ _ _ Hr) in E.
        destruct (http_template_structure _ _ _ E) as (_ & _ & Hck & Hmap).
        split; [assumption|]. intros key Hk. rewrite Hmap.
        + apply expectedValues_suppressed. unfold suppressedOne. rewrite Hk.
          apply orb_true_r.
        + intros ->. discriminate.
        + intros ->. discriminate. }
    destruct Hs as [Hck Hmap]. repeat split; try assumption.
    rewrite Hck, length_take. lia.
  - intros first lines1 line lines2 tooLong (k0 & Hin & Hk0) (k & v & Hkv & Hp & Hc).
    assert (Hseen : bool_decide (filter (fun k => isCookie k = true)
                       (regularKeysOf (omap headerloader.lineKeyValue lines1)) <> []) = true).
    { apply bool_decide_eq_true. intros Hnil.
      eapply (filter_nil_not_elem_of (fun k => isCookie k = true));
        [exact Hnil | exact Hk0 | exact Hin]. }
    split.
    + apply headerloader_drop_line.
      pose proof (inv_flag _ _ _ (headerloader_loop lines1)) as Hfl. rewrite Hseen in Hfl.
      set (st := foldl headerloader.loopBody initialState lines1) in *. clearbody st.
      unfold headerloader.loopBody. rewrite Hkv. fold (isPseudo k). rewrite Hp.
      fold (isCookie k). now rewrite Hc, Hfl.
    + apply http_template_drop_line.
      pose proof (inv_flag _ _ _ (http_template_loop lines1)) as Hfl. rewrite Hseen in Hfl.
      set (st := foldl http_template.loopBody initialState lines1) in *. clearbody st.
      unfold http_template.loopBody.
      change (http_template.lineKeyValue line) with (headerloader.lineKeyValue line).
      rewrite Hkv. fold (isPseudo k). rewrite Hp. fold (isCookie k). now rewrite Hc, Hfl.
  - intros st line k v Hkv Hp Hc. split.
    + unfold headerloader.loopBody. rewrite Hkv. fold (isPseudo k). rewrite Hp.
      fold (isCookie k). rewrite Hc. now destruct (cookieHeaderAddedToOrder st).
    + unfold http_template.loopBody.
      change (http_template.lineKeyValue line) with (headerloader.lineKeyValue line).
      rewrite Hkv. fold (isPseudo k). rewrite Hp. fold (isCookie k). rewrite Hc.
      now destruct (cookieHeaderAddedToOrder st).
Qed.

(** C4: in a structure that ParseHeaderTemplate returns, every name of
    the pseudo-order list starts with a colon, no name that starts with
    a colon is bound, and every bound key but the two magic keys is no
    pseudo name, no cookie key and no content-length key. *)
Theorem structure_invariants tpl data h err :
  headerloader.ParseHeaderTemplate tpl data = (Some h, err) ->
  Forall (fun k => HasPrefix k ":" = true) (pseudoOrder h)
  /\ (forall key, HasPrefix key ":" = true -> h !! key = None)
  /\ (forall key, is_Some (h !! key) ->
        key <> HeaderOrderKey -> key <> PHeaderOrderKey ->
        HasPrefix key ":" = false /\ isCookie key = false /\ isContentLength key = false).
Proof.
  intros E. destruct (headerloader_returns _ _ _ _ E) as (text & _ & E').
  destruct (headerloader_structure _ _ _ E') as (Hps & _ & _ & Hmap).
  split; [|split].
  - rewrite Hps. apply Forall_forall. intros k Hk.
    now apply list_elem_of_filter in Hk as [Hk _].
  - intros key Hk. rewrite Hmap.
    + apply expectedValues_suppressed. unfold isPseudo. now rewrite Hk.
    + intros ->. discriminate.
    + intros ->. discriminate.
  - intros key Hsome H1 H2. rewrite Hmap in Hsome by assumption.
    apply expectedValues_some in Hsome. unfold suppressedTwo, isPseudo in Hsome.
    apply orb_false_iff in Hsome as [Hp Hs]. apply orb_false_iff in Hs as [Hc Hl].
    auto.
Qed.

(** C7: in a structure that ParseHeaderTemplate returns, the regular
    order lists every key that is no cookie key once per regular line,
    in the lines' order and casing, and a key of a regular line that is
    neither a cookie nor a content-length key is bound to the trimmed
    values of the lines with exactly that key, in their order.  Keys are
    compared as they are written: "X-A" twice gives one entry with two
    values, "X-A" and "x-a" give two entries.  The value of a regular
    line is the trimmed text after its first colon. *)
Theorem regular_headers_accumulate :
  (forall tpl data text h,
     Renders tpl data text ->
     headerloader.ParseHeaderTemplate tpl data = (Some h, None) ->
     filter (fun k => isCookie k = false) (regularOrder h)
     = filter (fun k => isCookie k = false) (regularKeys text)
     /\ (forall key, key ∈ regularKeys text ->
           isCookie key = false -> isContentLength key = false ->
           h !! key = Some (valuesOf key (headerLines text))))
  /\ (forall tpl data,
        Renders tpl data ("REQ" +:+ nl +:+ "X-A: 1" +:+ nl +:+ "X-A: 2" +:+ nl) ->
        headerloader.ParseHeaderTemplate tpl data
        = (Some (<["X-A"%string := ["1"; "2"]%string]>
                   {[HeaderOrderKey := ["X-A"; "X-A"]%string]}), None))
  /\ (forall tpl data,
        Renders tpl data ("REQ" +:+ nl +:+ "X-A: 1" +:+ nl +:+ "x-a: 2" +:+ nl) ->
        headerloader.ParseHeaderTemplate tpl data
        = (Some (<["X-A"%string := ["1"%string]]>
                   (<["x-a"%string := ["2"%string]]>
                      {[HeaderOrderKey := ["X-A"; "x-a"]%string]})), None))
  /\ (forall line key value,
        headerloader.lineKeyValue line = Some (key, value) ->
        HasPrefix key ":" = false ->
        value = TrimSpace (if IndexByte (TrimSpace line) ":" <? len (TrimSpace line) - 1
                           then sliceFrom (TrimSpace line)
                                  (IndexByte (TrimSpace line) ":" + 1)
                           else ""%string)).
Proof.
  split; [|split; [|split]].
  - intros tpl data text h Hr E. rewrite (headerloader_renders _ _ _ Hr) in E.
    destruct (headerloader_structure _ _ _ E) as (_ & Hot & _ & Hmap).
    split; [assumption|]. intros key Hin Hc Hl.
    unfold regularKeys, regularKeysOf in Hin.
    apply list_elem_of_filter in Hin as [Hp Hin].
    assert (Hv : validKey key).
    { pose proof (lines_validKeys (bodyLines text)) as Hv.
      rewrite Forall_forall in Hv. now apply Hv. }
    rewrite Hmap.
    + unfold expectedValues, suppressedTwo. rewrite Hp, Hc, Hl. simpl.
      pose proof (valuesOf_present key _ Hin).
      now destruct (valuesOf key (headerLines text)).
    + intros ->. now apply (magic_not_valid HeaderOrderKey); [left|].
    + intros ->. now apply (magic_not_valid PHeaderOrderKey); [right|].
  - intros tpl data Hr. rewrite (headerloader_renders _ _ _ Hr). vm_compute. reflexivity.
  - intros tpl data Hr. rewrite (headerloader_renders _ _ _ Hr). vm_compute. reflexivity.
  - intros line key value Hkv Hp. now apply (lineKeyValue_regular line key value).
Qed.

End Claims.

(** * The claims on examples *)
Section Examples.
#[local] Existing Instance noTables.
#[local] Existing Instance smallTemplates.

Lemma smallTemplates_renders text :
  (text =? "{{")%string = false -> (text =? "{{.X}}")%string = false ->
  Renders text tt text.
Proof.
  intros E1 E2. exists text. unfold Parse, Execute, smallTemplates.
  rewrite E1, E2. split; reflexivity.
Qed.

Lemma content_length_suppressed_witness :
  Renders textContentLength tt textContentLength
  /\ (headerloader.ParseHeaderTemplate textContentLength tt = (Some headerContentLength, None)
      /\ (forall key, isContentLength key = true -> headerContentLength !! key = None)
      /\ filter (fun k => isContentLength k = true) (regularOrder headerContentLength)
         = filter (fun k => isContentLength k = true) (regularKeys textContentLength))
  /\ (http_template.ParseHeaderTemplate textContentLength tt
      = (Some parserContentLength, None)
      /\ (forall key, key ∈ regularKeys textContentLength -> isContentLength key = true ->
            parserContentLength !! key
            = Some (valuesOf key (headerLines textContentLength)))
      /\ filter (fun k => isContentLength k = true) (regularOrder parserContentLength)
         = filter (fun k => isContentLength k = true) (regularKeys textContentLength)).
Proof.
  assert (Hr : Renders textContentLength tt textContentLength)
    by (exists textContentLength; split; reflexivity).
  assert (Hp : headerloader.ParseHeaderTemplate textContentLength tt
               = (Some headerContentLength, None))
    by (vm_compute; reflexivity).
  assert (Hq : http_template.ParseHeaderTemplate textContentLength tt
               = (Some parserContentLength, None))
    by (vm_compute; reflexivity).
  split; [exact Hr|]. split.
  - split; [exact Hp|]. exact (proj1 (content_length_suppressed _ _ _ _ Hr) Hp).
  - split; [exact Hq|]. exact (proj2 (content_length_suppressed _ _ _ _ Hr) Hq).
Defined.

(** C1 as stated fails for parser.go: the text has two lines whose keys
    are content-length keys, and the structure that parser.go's
    ParseHeaderTemplate returns binds both keys in the value map. *)
Lemma parser_binds_content_length :
  Renders textContentLength tt textContentLength
  /\ ("Content-Length", "4")%string ∈ headerLines textContentLength
  /\ isContentLength "Content-Length" = true
  /\ http_template.ParseHeaderTemplate textContentLength tt
     = (Some parserContentLength, None)
  /\ parserContentLength !! "Content-Length"%string = Some ["4"%string]
  /\ parserContentLength !! "content-length"%string = Some ["5"%string]
  /\ ~ (forall key, isContentLength key = true -> parserContentLength !! key = None).
Proof.
  assert (Hv : parserContentLength !! "Content-Length"%string = Some ["4"%string])
    by (vm_compute; reflexivity).
  split; [|split; [|split; [|split; [|split; [|split]]]]].
  - exists textContentLength. split; reflexivity.
  - vm_compute. constructor.
  - reflexivity.
  - vm_compute. reflexivity.
  - exact Hv.
  - vm_compute. reflexivity.
  - intros Hall. rewrite (Hall "Content-Length"%string eq_refl) in Hv. discriminate.
Qed.

Lemma implementations_agree_but_for_content_length_witness :
  (forall text, Renders textPlain tt text ->
     Forall (fun kv => isContentLength kv.1 = false) (headerLines text))
  /\ headerloader.ParseHeaderTemplate textPlain tt
     = http_template.ParseHeaderTemplate textPlain tt
  /\ Renders textOnlyContentLength tt textOnlyContentLength
  /\ headerloader.ParseHeaderTemplate textOnlyContentLength tt
     <> http_template.ParseHeaderTemplate textOnlyContentLength tt.
Proof.
  assert (Hall : forall text, Renders textPlain tt text ->
            Forall (fun kv => isContentLength kv.1 = false) (headerLines text)).
  { intros text (tmpl & Hp & He). vm_compute in Hp. injection Hp as <-.
    vm_compute in He. injection He as <-.
    vm_compute. repeat constructor. }
  assert (Hr : Renders textOnlyContentLength tt textOnlyContentLength)
    by (exists textOnlyContentLength; split; reflexivity).
  split; [exact Hall|].
  split; [exact (proj1 (implementations_agree_but_for_content_length textPlain tt) Hall)|].
  split; [exact Hr|].
  exact (proj2 (proj2 (proj2 (implementations_agree_but_for_content_length
                                textOnlyContentLength tt) Hr))).
Defined.

Lemma cookie_recorded_once_witness :
  (Renders textCookies tt textCookies
   /\ headerloader.ParseHeaderTemplate textCookies tt = (Some headerCookies, None)
   /\ (length (filter (fun k => isCookie k = true) (regularOrder headerCookies)) <= 1)%nat
   /\ filter (fun k => isCookie k = true) (regularOrder headerCookies)
      = take 1 (filter (fun k => isCookie k = true) (regularKeys textCookies))
   /\ (forall key, isCookie key = true -> headerCookies !! key = None))
  /\ ((exists k, k ∈ regularKeysOf (omap headerloader.lineKeyValue ["Cookie: a=1"%string])
                 /\ isCookie k = true)
      /\ (exists k v, headerloader.lineKeyValue "cookie: b=2" = Some (k, v)
                      /\ isPseudo k = false /\ isCookie k = true)
      /\ headerloader.parseLines
           ("GET / HTTP/2" :: ["Cookie: a=1"] ++ "cookie: b=2" :: ["X: y"], false)%string
         = headerloader.parseLines
             ("GET / HTTP/2" :: ["Cookie: a=1"] ++ ["X: y"], false)%string
      /\ http_template.parseLines
           ("GET / HTTP/2" :: ["Cookie: a=1"] ++ "cookie: b=2" :: ["X: y"], false)%string
         = http_template.parseLines
             ("GET / HTTP/2" :: ["Cookie: a=1"] ++ ["X: y"], false)%string)
  /\ (headerloader.lineKeyValue "Cookie: a=1" = Some ("Cookie", "a=1")%string
      /\ isPseudo "Cookie" = false /\ isCookie "Cookie" = true
      /\ outputHeaders (headerloader.loopBody initialState "Cookie: a=1")
         = outputHeaders initialState
      /\ outputHeaders (http_template.loopBody initialState "Cookie: a=1")
         = outputHeaders initialState).
Proof.
  assert (Hr : Renders textCookies tt textCookies)
    by (exists textCookies; split; reflexivity).
  assert (Hp : headerloader.ParseHeaderTemplate textCookies tt = (Some headerCookies, None))
    by (vm_compute; reflexivity).
  assert (Hseen : exists k,
             k ∈ regularKeysOf (omap headerloader.lineKeyValue ["Cookie: a=1"%string])
             /\ isCookie k = true).
  { exists "Cookie"%string. split; [vm_compute; constructor | reflexivity]. }
  assert (Hline : exists k v, headerloader.lineKeyValue "cookie: b=2" = Some (k, v)
                              /\ isPseudo k = false /\ isCookie k = true).
  { exists "cookie"%string, "b=2"%string. repeat split; reflexivity. }
  assert (Hkv : headerloader.lineKeyValue "Cookie: a=1" = Some ("Cookie", "a=1")%string)
    by reflexivity.
  assert (Hps : isPseudo "Cookie" = false) by reflexivity.
  assert (Hck : isCookie "Cookie" = true) by reflexivity.
  split; [|split].
  - split; [exact Hr|]. split; [exact Hp|].
    exact (proj1 cookie_recorded_once _ _ _ _ Hr (or_introl Hp)).
  - split; [exact Hseen|]. split; [exact Hline|].
    exact (proj1 (proj2 cookie_recorded_once) _ _ _ _ _ Hseen Hline).
  - split; [exact Hkv|]. split; [exact Hps|]. split; [exact Hck|].
    exact (proj2 (proj2 cookie_recorded_once) initialState _ _ _ Hkv Hps Hck).
Defined.

Lemma structure_invariants_witness :
  headerloader.ParseHeaderTemplate textPlain tt = (Some headerPlain, None)
  /\ Forall (fun k => HasPrefix k ":" = true) (pseudoOrder headerPlain)
  /\ (forall key, HasPrefix key ":" = true -> headerPlain !! key = None)
  /\ (forall key, is_Some (headerPlain !! key) ->
        key <> HeaderOrderKey -> key <> PHeaderOrderKey ->
        HasPrefix key ":" = false /\ isCookie key = false /\ isContentLength key = false).
Proof.
  assert (Hp : headerloader.ParseHeaderTemplate textPlain tt = (Some headerPlain, None))
    by (vm_compute; reflexivity).
  split; [exact Hp|]. exact (structure_invariants _ _ _ _ Hp).
Defined.

Lemma request_line_ignored_witness :
  (Renders ("REQ LINE" +:+ nl +:+ bodyHost) tt ("REQ LINE" +:+ nl +:+ bodyHost)
   /\ Renders ("IGNORED" +:+ nl +:+ bodyHost) tt ("IGNORED" +:+ nl +:+ bodyHost)
   /\ headerloader.ParseHeaderTemplate ("REQ LINE" +:+ nl +:+ bodyHost) tt
      = headerloader.ParseHeaderTemplate ("IGNORED" +:+ nl +:+ bodyHost) tt)
  /\ ((newline ∉ bytes "GET / HTTP/2") /\ len "GET / HTTP/2" < MaxScanTokenSize
      /\ (newline ∉ bytes "POST /x HTTP/1.1") /\ len "POST /x HTTP/1.1" < MaxScanTokenSize
      /\ Renders ("GET / HTTP/2" +:+ nl +:+ bodyHost) tt ("GET / HTTP/2" +:+ nl +:+ bodyHost)
      /\ Renders ("POST /x HTTP/1.1" +:+ nl +:+ bodyHost) tt
           ("POST /x HTTP/1.1" +:+ nl +:+ bodyHost)
      /\ headerloader.ParseHeaderTemplate ("GET / HTTP/2" +:+ nl +:+ bodyHost) tt
         = headerloader.ParseHeaderTemplate ("POST /x HTTP/1.1" +:+ nl +:+ bodyHost) tt).
Proof.
  assert (Hr : forall text, (text =? "{{")%string = false ->
            (text =? "{{.X}}")%string = false -> Renders text tt text).
  { intros text E1 E2. exists text. unfold Parse, Execute, smallTemplates.
    rewrite E1, E2. split; reflexivity. }
  assert (Hr1 := Hr ("REQ LINE" +:+ nl +:+ bodyHost)%string eq_refl eq_refl).
  assert (Hr2 := Hr ("IGNORED" +:+ nl +:+ bodyHost)%string eq_refl eq_refl).
  assert (Hr3 := Hr ("GET / HTTP/2" +:+ nl +:+ bodyHost)%string eq_refl eq_refl).
  assert (Hr4 := Hr ("POST /x HTTP/1.1" +:+ nl +:+ bodyHost)%string eq_refl eq_refl).
  assert (Hn1 : newline ∉ bytes "GET / HTTP/2") by (apply indexByte_none; reflexivity).
  assert (Hn2 : newline ∉ bytes "POST /x HTTP/1.1") by (apply indexByte_none; reflexivity).
  assert (Hl1 : len "GET / HTTP/2" < MaxScanTokenSize) by reflexivity.
  assert (Hl2 : len "POST /x HTTP/1.1" < MaxScanTokenSize) by reflexivity.
  split.
  - split; [exact Hr1|]. split; [exact Hr2|].
    exact (proj1 (request_line_ignored _ tt _ tt bodyHost) Hr1 Hr2).
  - repeat (split; [assumption|]).
    exact (proj2 (request_line_ignored _ tt _ tt bodyHost) _ _ Hn1 Hl1 Hn2 Hl2 Hr3 Hr4).
Defined.

Lemma render_failure_witness :
  (Parse "{{" = inr "unclosed action"%string
   /\ headerloader.ParseHeaderTemplate "{{" tt
      = (None, Some (Errorf "failed to parse template string: %w"
                       (TemplateError "unclosed action"%string)))
   /\ http_template.ParseHeaderTemplate "{{" tt
      = (None, Some (Errorf "failed to parse template string: %w"
                       (TemplateError "unclosed action"%string))))
  /\ (Parse "{{.X}}" = inl "{{.X}}"%string
      /\ Execute "{{.X}}"%string tt = (""%string, Some "can't evaluate field X"%string)
      /\ headerloader.ParseHeaderTemplate "{{.X}}" tt
         = (None, Some (Errorf "failed to execute template: %w"
                          (TemplateError "can't evaluate field X"%string)))
      /\ http_template.ParseHeaderTemplate "{{.X}}" tt
         = (None, Some (Errorf "failed to execute template: %w"
                          (TemplateError "can't evaluate field X"%string))))
  /\ (headerloader.ParseHeaderTemplate "{{" tt
      = (None, Some (Errorf "failed to parse template string: %w"
                       (TemplateError "unclosed action"%string)))
      /\ (None : option Header) = None).
Proof.
  assert (Hp : Parse "{{" = inr "unclosed action"%string) by reflexivity.
  assert (Hq : Parse "{{.X}}" = inl "{{.X}}"%string) by reflexivity.
  assert (He : Execute "{{.X}}"%string tt = (""%string, Some "can't evaluate field X"%string))
    by reflexivity.
  assert (Hf : headerloader.ParseHeaderTemplate "{{" tt
               = (None, Some (Errorf "failed to parse template string: %w"
                                (TemplateError "unclosed action"%string))))
    by reflexivity.
  split; [|split].
  - split; [exact Hp|]. exact (proj1 (render_failure "{{" tt) _ Hp).
  - split; [exact Hq|]. split; [exact He|].
    exact (proj1 (proj2 (render_failure "{{.X}}" tt)) _ _ _ Hq He).
  - split; [exact Hf|].
    exact (proj2 (proj2 (render_failure "{{" tt)) _ _ (or_introl Hf)).
Defined.

Lemma regular_headers_accumulate_witness :
  (Renders textRepeated tt textRepeated
   /\ headerloader.ParseHeaderTemplate textRepeated tt = (Some headerRepeated, None)
   /\ filter (fun k => isCookie k = false) (regularOrder headerRepeated)
      = filter (fun k => isCookie k = false) (regularKeys textRepeated)
   /\ (forall key, key ∈ regularKeys textRepeated ->
         isCookie key = false -> isContentLength key = false ->
         headerRepeated !! key = Some (valuesOf key (headerLines textRepeated))))
  /\ (Renders textRepeated tt textRepeated
      /\ headerloader.ParseHeaderTemplate textRepeated tt
         = (Some (<["X-A"%string := ["1"; "2"]%string]>
                    {[HeaderOrderKey := ["X-A"; "X-A"]%string]}), None))
  /\ (Renders textCaseDiffers tt textCaseDiffers
      /\ headerloader.ParseHeaderTemplate textCaseDiffers tt
         = (Some (<["X-A"%string := ["1"%string]]>
                    (<["x-a"%string := ["2"%string]]>
                       {[HeaderOrderKey := ["X-A"; "x-a"]%string]})), None))
  /\ (headerloader.lineKeyValue "X-Test:  a:b:c " = Some ("X-Test", "a:b:c")%string
      /\ HasPrefix "X-Test" ":" = false
      /\ "a:b:c"%string
         = TrimSpace (if IndexByte (TrimSpace "X-Test:  a:b:c ") ":"
                         <? len (TrimSpace "X-Test:  a:b:c ") - 1
                      then sliceFrom (TrimSpace "X-Test:  a:b:c ")
                             (IndexByte (TrimSpace "X-Test:  a:b:c ") ":" + 1)
                      else ""%string)).
Proof.
  assert (Hr : Renders textRepeated tt textRepeated)
    by (exists textRepeated; split; reflexivity).
  assert (Hr' : Renders textCaseDiffers tt textCaseDiffers)
    by (exists textCaseDiffers; split; reflexivity).
  assert (Hp : headerloader.ParseHeaderTemplate textRepeated tt = (Some headerRepeated, None))
    by (vm_compute; reflexivity).
  assert (Hkv : headerloader.lineKeyValue "X-Test:  a:b:c "
                = Some ("X-Test", "a:b:c")%string) by reflexivity.
  assert (Hpre : HasPrefix "X-Test" ":" = false) by reflexivity.
  split; [|split; [|split]].
  - split; [exact Hr|]. split; [exact Hp|].
    exact (proj1 regular_headers_accumulate _ _ _ _ Hr Hp).
  - split; [exact Hr|]. exact (proj1 (proj2 regular_headers_accumulate) _ _ Hr).
  - split; [exact Hr'|].
    exact (proj1 (proj2 (proj2 regular_headers_accumulate)) _ _ Hr').
  - split; [exact Hkv|]. split; [exact Hpre|].
    exact (proj2 (proj2 (proj2 regular_headers_accumulate)) _ _ _ Hkv Hpre).
Defined.

Lemma only_request_line_witness :
  Renders ("GET / HTTP/2" +:+ nl) tt ("GET / HTTP/2" +:+ nl)
  /\ (newline ∉ bytes "GET / HTTP/2")
  /\ (("GET / HTTP/2" +:+ nl)%string = "GET / HTTP/2"%string
      \/ ("GET / HTTP/2" +:+ nl)%string = ("GET / HTTP/2" +:+ nl)%string)
  /\ headerloader.ParseHeaderTemplate ("GET / HTTP/2" +:+ nl) tt
     = if len "GET / HTTP/2" <? MaxScanTokenSize then (Some ∅, None)
       else (None, Some (Errorf "error reading the first line: %w" ErrTooLong)).
Proof.
  assert (Hr : Renders ("GET / HTTP/2" +:+ nl) tt ("GET / HTTP/2" +:+ nl))
    by (exists ("GET / HTTP/2" +:+ nl)%string; split; reflexivity).
  assert (Hn : newline ∉ bytes "GET / HTTP/2") by (apply indexByte_none; reflexivity).
  assert (Ht : ("GET / HTTP/2" +:+ nl)%string = "GET / HTTP/2"%string
               \/ ("GET / HTTP/2" +:+ nl)%string = ("GET / HTTP/2" +:+ nl)%string)
    by (right; reflexivity).
  repeat (split; [assumption|]).
  exact (only_request_line _ _ _ _ Hr Hn Ht).
Defined.

(** C9 as stated fails: a rendered text that is one line of 65536 bytes
    is only a request line, and ParseHeaderTemplate returns nil and the
    scanner's error for it. *)
Lemma long_request_line_is_an_error :
  Renders (longLine 65536) tt (longLine 65536)
  /\ (newline ∉ bytes (longLine 65536))
  /\ headerloader.ParseHeaderTemplate (longLine 65536) tt
     = (None, Some (Errorf "error reading the first line: %w" ErrTooLong))
  /\ headerloader.ParseHeaderTemplate (longLine 65536) tt <> (Some ∅, None).
Proof.
  assert (Hp : headerloader.ParseHeaderTemplate (longLine 65536) tt
               = (None, Some (Errorf "error reading the first line: %w" ErrTooLong)))
    by (vm_compute; reflexivity).
  split; [|split; [|split]].
  - apply smallTemplates_renders; vm_compute; reflexivity.
  - apply indexByte_none. vm_compute. reflexivity.
  - exact Hp.
  - rewrite Hp. discriminate.
Qed.

Lemma key_never_empty_witness :
  TrimSpace "  Accept: text/html" <> ""%string
  /\ IndexByte (TrimSpace "  Accept: text/html") ":" <> -1
  /\ exists key value,
       headerloader.lineKeyValue "  Accept: text/html" = Some (key, value)
       /\ http_template.lineKeyValue "  Accept: text/html" = Some (key, value)
       /\ key <> ""%string
       /\ (HasPrefix (TrimSpace "  Accept: text/html") ":" = true -> HasPrefix key ":" = true)
       /\ (HasPrefix (TrimSpace "  Accept: text/html") ":" = false ->
           key = TrimSpace (sliceTo (TrimSpace "  Accept: text/html")
                              (IndexByte (TrimSpace "  Accept: text/html") ":"))).
Proof.
  assert (Ht : TrimSpace "  Accept: text/html" <> ""%string) by (vm_compute; discriminate).
  assert (Hi : IndexByte (TrimSpace "  Accept: text/html") ":" <> -1)
    by (vm_compute; discriminate).
  split; [exact Ht|]. split; [exact Hi|].
  exact (key_never_empty _ Ht Hi).
Defined.

End Examples.


(** * Further properties: the order lists *)
Section Orders.
Context `{UnicodeTables, TextTemplate}.

Lemma orderOf_snoc seen ks k :
  orderOf seen (ks ++ [k])
  = orderOf seen ks
    ++ (if isCookie k && (seen || existsb isCookie ks) then [] else [k]).
Proof.
  revert seen. induction ks as [|k0 ks IH]; intros seen; simpl.
  - destruct (isCookie k), seen; reflexivity.
  - destruct (isCookie k0) eqn:E0.
    + destruct seen; rewrite IH; simpl; rewrite ?orb_true_r; reflexivity.
    + rewrite IH. reflexivity.
Qed.

Lemma existsb_snoc {A} (f : A -> bool) l x : existsb f (l ++ [x]) = existsb f l || f x.
Proof. rewrite existsb_app. simpl. now rewrite orb_false_r. Qed.

(** The regular-order list and the cookie flag of template.go's loop. *)
Lemma headerloader_order_exact lines :
  regularHeaderOrder (foldl headerloader.loopBody initialState lines)
  = orderOf false (regularKeysOf (omap headerloader.lineKeyValue lines))
  /\ cookieHeaderAddedToOrder (foldl headerloader.loopBody initialState lines)
     = existsb isCookie (regularKeysOf (omap headerloader.lineKeyValue lines)).
Proof.
  induction lines as [|line lines [IHo IHf]] using rev_ind; [now split|].
  rewrite foldl_snoc, omap_snoc.
  set (st := foldl headerloader.loopBody initialState lines) in *.
  unfold headerloader.loopBody.
  destruct (headerloader.lineKeyValue line) as [[k v]|]; simpl;
    [|rewrite app_nil_r; now split].
  rewrite regularKeysOf_snoc. fold (isPseudo k).
  destruct (isPseudo k) eqn:Hp; [rewrite app_nil_r; now split|].
  rewrite orderOf_snoc, existsb_snoc. fold (isCookie k). fold (isContentLength k).
  destruct (isCookie k) eqn:Hc; simpl.
  - rewrite <- IHf. destruct (cookieHeaderAddedToOrder st) eqn:Hf; simpl.
    + rewrite app_nil_r. now split.
    + rewrite IHo. now split.
  - rewrite orb_false_r. destruct (isContentLength k); simpl; rewrite IHo; now split.
Qed.

(** The same for parser.go's loop. *)
Lemma http_template_order_exact lines :
  regularHeaderOrder (foldl http_template.loopBody initialState lines)
  = orderOf false (regularKeysOf (omap headerloader.lineKeyValue lines))
  /\ cookieHeaderAddedToOrder (foldl http_template.loopBody initialState lines)
     = existsb isCookie (regularKeysOf (omap headerloader.lineKeyValue lines)).
Proof.
  induction lines as [|line lines [IHo IHf]] using rev_ind; [now split|].
  rewrite foldl_snoc, omap_snoc.
  set (st := foldl http_template.loopBody initialState lines) in *.
  unfold http_template.loopBody.
  change (http_template.lineKeyValue line) with (headerloader.lineKeyValue line).
  destruct (headerloader.lineKeyValue line) as [[k v]|]; simpl;
    [|rewrite app_nil_r; now split].
  rewrite regularKeysOf_snoc. fold (isPseudo k).
  destruct (isPseudo k) eqn:Hp; [rewrite app_nil_r; now split|].
  rewrite orderOf_snoc, existsb_snoc. fold (isCookie k).
  destruct (isCookie k) eqn:Hc; simpl.
  - rewrite <- IHf. destruct (cookieHeaderAddedToOrder st) eqn:Hf; simpl.
    + rewrite app_nil_r. now split.
    + rewrite IHo. now split.
  - rewrite orb_false_r, IHo. now split.
Qed.

(** What a returned structure binds to a key, from the loop's state. *)
Lemma attachOrders_lookup st key :
  outputHeaders st !! HeaderOrderKey = None ->
  outputHeaders st !! PHeaderOrderKey = None ->
  attachOrders st !! key
  = if decide (key = HeaderOrderKey) then stored (regularHeaderOrder st)
    else if decide (key = PHeaderOrderKey) then stored (pseudoHeaderOrder st)
    else outputHeaders st !! key.
Proof.
  intros H1 H2. pose proof magic_keys_differ as Hd.
  destruct (decide (key = HeaderOrderKey)) as [->|Hk1].
  - unfold attachOrders.
    destruct (regularHeaderOrder st) as [|k ks] eqn:Er; simpl.
    + destruct (0 <? Z.of_nat (length (pseudoHeaderOrder st)));
        rewrite ?lookup_insert_ne by congruence; assumption.
    + now rewrite lookup_insert_eq.
  - destruct (decide (key = PHeaderOrderKey)) as [->|Hk2].
    + unfold attachOrders.
      destruct (0 <? Z.of_nat (length (regularHeaderOrder st)));
        rewrite ?lookup_insert_ne by congruence;
        (destruct (pseudoHeaderOrder st) as [|k ks] eqn:Ep; simpl;
         [assumption | now rewrite lookup_insert_eq]).
    + now apply attachOrders_other.
Qed.

(** What a structure returned by template.go binds to any key. *)
Lemma headerloader_lookup text h err key :
  headerloader.parseProcessed text = (Some h, err) ->
  h !! key
  = if decide (key = HeaderOrderKey) then stored (orderOf false (regularKeys text))
    else if decide (key = PHeaderOrderKey)
         then stored (filter (fun k => isPseudo k = true) (headerLines text).*1)
         else expectedValues suppressedTwo key (headerLines text).
Proof.
  intros E. destruct (headerloader_parsed _ _ _ E) as [_ ->].
  pose proof (headerloader_loop (bodyLines text)) as [Hps _ _ _ Hmap].
  pose proof (lines_validKeys (bodyLines text)) as Hv.
  destruct (headerloader_order_exact (bodyLines text)) as [Hord _].
  rewrite attachOrders_lookup
    by (rewrite Hmap; apply expectedValues_magic; auto).
  now rewrite Hord, Hps, Hmap.
Qed.

(** What a structure returned by parser.go binds to any key. *)
Lemma http_template_lookup text h err key :
  http_template.parseProcessed text = (Some h, err) ->
  h !! key
  = if decide (key = HeaderOrderKey) then stored (orderOf false (regularKeys text))
    else if decide (key = PHeaderOrderKey)
         then stored (filter (fun k => isPseudo k = true) (headerLines text).*1)
         else expectedValues suppressedOne key (headerLines text).
Proof.
  intros E. destruct (http_template_parsed _ _ _ E) as [_ ->].
  pose proof (http_template_loop (bodyLines text)) as [Hps _ _ _ Hmap].
  pose proof (lines_validKeys (bodyLines text)) as Hv.
  destruct (http_template_order_exact (bodyLines text)) as [Hord _].
  rewrite attachOrders_lookup
    by (rewrite Hmap; apply expectedValues_magic; auto).
  now rewrite Hord, Hps, Hmap.
Qed.

(** X1: the list stored under the magic key of the pseudo order is the
    sequence of the pseudo keys of the lines, in their order and with
    repetitions kept; the key is absent when no line is a pseudo header.
    Both files. *)
Theorem pseudo_order_exact tpl data text h :
  Renders tpl data text ->
  headerloader.ParseHeaderTemplate tpl data = (Some h, None)
  \/ http_template.ParseHeaderTemplate tpl data = (Some h, None) ->
  h !! PHeaderOrderKey
  = stored (filter (fun k => isPseudo k = true) (headerLines text).*1).
Proof.
  intros Hr [E|E].
  - rewrite (headerloader_renders _ _ _ Hr) in E.
    now rewrite (headerloader_lookup _ _ _ PHeaderOrderKey E).
  - rewrite (http_template_renders _ _ _ Hr) in E.
    now rewrite (http_template_lookup _ _ _ PHeaderOrderKey E).
Qed.

(** X2: the list stored under the magic key of the regular order is the
    sequence of the keys of the regular lines, in their order and with
    repetitions kept, except that every cookie key after the first
    cookie key is left out; the key is absent when that sequence is
    empty.  Both files. *)
Theorem regular_order_exact tpl data text h :
  Renders tpl data text ->
  headerloader.ParseHeaderTemplate tpl data = (Some h, None)
  \/ http_template.ParseHeaderTemplate tpl data = (Some h, None) ->
  h !! HeaderOrderKey = stored (orderOf false (regularKeys text)).
Proof.
  intros Hr [E|E].
  - rewrite (headerloader_renders _ _ _ Hr) in E.
    now rewrite (headerloader_lookup _ _ _ HeaderOrderKey E).
  - rewrite (http_template_renders _ _ _ Hr) in E.
    now rewrite (http_template_lookup _ _ _ HeaderOrderKey E).
Qed.

Lemma filter_key_orderOf key seen ks :
  isCookie key = false ->
  filter (fun k => k = key) (orderOf seen ks) = filter (fun k => k = key) ks.
Proof.
  intros Hk. revert seen. induction ks as [|k ks IH]; intros seen; [reflexivity|]. simpl.
  destruct (isCookie k) eqn:Hc.
  - assert (Hne : k <> key) by congruence.
    destruct seen; rewrite ?filter_cons; destruct (decide (k = key)); try contradiction;
      apply IH.
  - rewrite !filter_cons. destruct (decide (k = key)); now rewrite IH.
Qed.

Lemma length_valuesOf key (kvs : list (string * string)) :
  isPseudo key = false ->
  length (valuesOf key kvs) = length (filter (fun k => k = key) (regularKeysOf kvs)).
Proof.
  intros Hp. unfold valuesOf, regularKeysOf.
  induction kvs as [|[k v] kvs IH]; [reflexivity|]. simpl.
  rewrite !filter_cons. simpl. destruct (decide (k = key)) as [->|Hne].
  - rewrite Hp. destruct (decide (false = false)); [|contradiction].
    rewrite filter_cons. destruct (decide (key = key)); [|contradiction].
    simpl. f_equal. exact IH.
  - destruct (decide (isPseudo k = false)); [|exact IH].
    rewrite filter_cons. destruct (decide (k = key)); [contradiction | exact IH].
Qed.

Lemma stored_default l : default [] (stored l) = l.
Proof. now destruct l. Qed.

(** X3: in a structure that template.go returns, a key other than the
    magic keys has as many values as it has entries in the regular-order
    list: values and order entries stay aligned. *)
Theorem values_align_with_order tpl data text h key values :
  Renders tpl data text ->
  headerloader.ParseHeaderTemplate tpl data = (Some h, None) ->
  key <> HeaderOrderKey -> key <> PHeaderOrderKey ->
  h !! key = Some values ->
  length values = length (filter (fun k => k = key) (regularOrder h)).
Proof.
  intros Hr E H1 H2 Hv. rewrite (headerloader_renders _ _ _ Hr) in E.
  unfold regularOrder. rewrite (headerloader_lookup _ _ _ HeaderOrderKey E).
  rewrite (headerloader_lookup _ _ _ key E) in Hv.
  destruct (decide (HeaderOrderKey = HeaderOrderKey)); [|contradiction].
  destruct (decide (key = HeaderOrderKey)); [contradiction|].
  destruct (decide (key = PHeaderOrderKey)); [contradiction|].
  rewrite stored_default.
  assert (Hs : isPseudo key || suppressedTwo key = false)
    by (apply (expectedValues_some _ _ (headerLines text)); rewrite Hv; eauto).
  unfold expectedValues in Hv. rewrite Hs in Hv.
  apply orb_false_iff in Hs as [Hp Hs]. apply orb_false_iff in Hs as [Hc _].
  rewrite filter_key_orderOf by assumption. unfold regularKeys.
  rewrite <- length_valuesOf by assumption.
  destruct (valuesOf key (headerLines text)); [discriminate | congruence].
Qed.

(** X4: a structure that template.go returns binds, besides the magic
    keys, exactly the keys of the regular lines that are neither cookie
    nor content-length keys: nothing else is ever bound, and no such key
    is dropped. *)
Theorem bound_keys tpl data text h key :
  Renders tpl data text ->
  headerloader.ParseHeaderTemplate tpl data = (Some h, None) ->
  key <> HeaderOrderKey -> key <> PHeaderOrderKey ->
  (is_Some (h !! key)
   <-> key ∈ regularKeys text /\ isCookie key = false /\ isContentLength key = false).
Proof.
  intros Hr E H1 H2. rewrite (headerloader_renders _ _ _ Hr) in E.
  rewrite (headerloader_lookup _ _ _ key E).
  destruct (decide (key = HeaderOrderKey)); [contradiction|].
  destruct (decide (key = PHeaderOrderKey)); [contradiction|].
  unfold regularKeys, regularKeysOf. rewrite list_elem_of_filter. split.
  - intros Hs. pose proof (expectedValues_some _ _ _ Hs) as Hb.
    unfold expectedValues in Hs. rewrite Hb in Hs.
    apply orb_false_iff in Hb as [Hp Hb]. apply orb_false_iff in Hb as [Hc Hl].
    repeat split; try assumption.
    destruct (decide (key ∈ (headerLines text).*1)) as [|Hn]; [assumption|].
    rewrite (valuesOf_absent _ _ Hn) in Hs. now destruct Hs.
  - intros [[Hp Hin] [Hc Hl]]. unfold expectedValues, suppressedTwo.
    rewrite Hp, Hc, Hl. simpl. pose proof (valuesOf_present _ _ Hin).
    destruct (valuesOf key (headerLines text)); [contradiction | eauto].
Qed.

(** X5: in a structure that parser.go returns, every key of a regular
    line that is no cookie key, a content-length key included, is bound
    to the trimmed values of the lines with exactly that key, in their
    order. *)
Theorem parser_binds_all_but_cookie tpl data text h key :
  Renders tpl data text ->
  http_template.ParseHeaderTemplate tpl data = (Some h, None) ->
  key ∈ regularKeys text -> isCookie key = false ->
  h !! key = Some (valuesOf key (headerLines text)).
Proof.
  intros Hr E Hin Hc. rewrite (http_template_renders _ _ _ Hr) in E.
  unfold regularKeys, regularKeysOf in Hin.
  apply list_elem_of_filter in Hin as [Hp Hin].
  assert (Hv : validKey key).
  { pose proof (lines_validKeys (bodyLines text)) as Hv.
    rewrite Forall_forall in Hv. now apply Hv. }
  rewrite (http_template_lookup _ _ _ key E).
  destruct (decide (key = HeaderOrderKey)) as [->|_];
    [now apply (magic_not_valid HeaderOrderKey) in Hv; [|left]|].
  destruct (decide (key = PHeaderOrderKey)) as [->|_];
    [now apply (magic_not_valid PHeaderOrderKey) in Hv; [|right]|].
  unfold expectedValues, suppressedOne. rewrite Hp, Hc. simpl.
  pose proof (valuesOf_present _ _ Hin).
  now destruct (valuesOf key (headerLines text)).
Qed.

(** The structures of the two files for one text. *)
Lemma structures_related text h1 h2 err1 err2 :
  headerloader.parseProcessed text = (Some h1, err1) ->
  http_template.parseProcessed text = (Some h2, err2) ->
  h1 = filter (fun kv => isContentLength kv.1 = false) h2.
Proof.
  intros E1 E2. apply map_eq. intros key.
  rewrite (headerloader_lookup _ _ _ key E1), map_lookup_filter.
  rewrite (http_template_lookup _ _ _ key E2).
  destruct (decide (key = HeaderOrderKey)) as [->|H1].
  { destruct (stored _); reflexivity. }
  destruct (decide (key = PHeaderOrderKey)) as [->|H2].
  { destruct (stored _); reflexivity. }
  unfold expectedValues, suppressedTwo, suppressedOne.
  destruct (isPseudo key); [reflexivity|]. destruct (isCookie key); [reflexivity|]. simpl.
  destruct (isContentLength key) eqn:Hl;
    (destruct (valuesOf key (headerLines text)); [reflexivity|]); reflexivity.
Qed.

(** X6: on every input the result of template.go is the result of
    parser.go with the content-length keys removed from the structure:
    the same error, and a structure exactly when parser.go returns
    one. *)
Theorem headerloader_is_http_template_without_content_length tpl data :
  headerloader.ParseHeaderTemplate tpl data
  = match http_template.ParseHeaderTemplate tpl data with
    | (Some h, err) => (Some (filter (fun kv => isContentLength kv.1 = false) h), err)
    | (None, err) => (None, err)
    end.
Proof.
  unfold headerloader.ParseHeaderTemplate, http_template.ParseHeaderTemplate.
  destruct (Parse tpl) as [tmpl|e]; [|reflexivity].
  destruct (Execute tmpl data) as [text [e|]]; [reflexivity|].
  destruct (http_template.parseProcessed text) as [[h2|] err2] eqn:E2.
  - destruct (headerloader.parseProcessed text) as [[h1|] err1] eqn:E1.
    + rewrite (structures_related _ _ _ _ _ E1 E2).
      destruct (headerloader_parsed _ _ _ E1) as [-> _].
      now destruct (http_template_parsed _ _ _ E2) as [-> _].
    + exfalso. revert E1 E2.
      unfold headerloader.parseProcessed, http_template.parseProcessed,
        headerloader.parseLines, http_template.parseLines.
      destruct (Scanner text) as [[|first lines] [|]]; simpl; discriminate.
  - revert E2.
    unfold headerloader.parseProcessed, http_template.parseProcessed,
      headerloader.parseLines, http_template.parseLines.
    destruct (Scanner text) as [[|first lines] [|]]; simpl; intros E2;
      try discriminate; now injection E2 as <-.
Qed.

End Orders.

(** * Further properties: the scanner *)

(** All the segments of some bytes. *)
Lemma segments_bytes text :
  segments text = (splitNL (bytes text)).1 :: (splitNL (bytes text)).2.
Proof. unfold segments. now destruct (splitNL (bytes text)). Qed.

Lemma splitNL_app a b :
  splitNL (a ++ newline :: b)
  = ((splitNL a).1, (splitNL a).2 ++ (splitNL b).1 :: (splitNL b).2).
Proof.
  induction a as [|c a IH]; simpl.
  - now destruct (splitNL b).
  - rewrite IH. destruct (splitNL a) as [sa ra]. simpl.
    now destruct (Ascii.eqb c newline).
Qed.

(** The segments of two texts joined by a line feed are the segments of
    the one followed by the segments of the other. *)
Lemma segments_app a b : segments (a +:+ nl +:+ b) = segments a ++ segments b.
Proof.
  rewrite !segments_bytes, !bytes_append, bytes_nl. simpl.
  now rewrite splitNL_app.
Qed.

Lemma segments_no_newline line : newline ∉ bytes line -> segments line = [bytes line].
Proof. intros Hl. rewrite segments_bytes. now rewrite (splitNL_no_newline _ Hl). Qed.

Lemma rawLines_app xs ys : ys <> [] -> rawLines (xs ++ ys) = xs ++ rawLines ys.
Proof.
  intros Hy. induction xs as [|x xs IH]; [reflexivity|]. simpl.
  rewrite IH. destruct (xs ++ ys) eqn:E; [|reflexivity].
  apply app_eq_nil in E as [_ E]. contradiction.
Qed.

Lemma rawLines_cons x y ys : rawLines (x :: y :: ys) = x :: rawLines (y :: ys).
Proof. reflexivity. Qed.

Lemma tooLong_rawLines segs : existsb tooLong (rawLines segs) = existsb tooLong segs.
Proof.
  induction segs as [|x [|y ys] IH]; [reflexivity| |].
  - destruct x; reflexivity.
  - rewrite rawLines_cons. cbn [existsb]. now rewrite IH.
Qed.

Lemma scanTokens_flag ls : (scanTokens ls).2 = existsb tooLong ls.
Proof.
  induction ls as [|l ls IH]; [reflexivity|]. simpl. unfold tooLong at 1.
  destruct (MaxScanTokenSize <=? Z.of_nat (length l)); [reflexivity|].
  destruct (scanTokens ls). simpl in *. assumption.
Qed.

Lemma scanTokens_app xs ys :
  scanTokens (xs ++ ys)
  = if (scanTokens xs).2 then scanTokens xs
    else ((scanTokens xs).1 ++ (scanTokens ys).1, (scanTokens ys).2).
Proof.
  induction xs as [|x xs IH]; simpl.
  - now destruct (scanTokens ys).
  - destruct (MaxScanTokenSize <=? Z.of_nat (length x)); [reflexivity|].
    rewrite IH. destruct (scanTokens xs) as [ts [|]]; simpl; [reflexivity|].
    now destruct (scanTokens ys).
Qed.

(** Whether the scanner fails, and whether it fails on the first line. *)
Lemma Scanner_flag text : (Scanner text).2 = existsb tooLong (segments text).
Proof. unfold Scanner. now rewrite scanTokens_flag, tooLong_rawLines. Qed.

Lemma Scanner_no_token text :
  (Scanner text).2 = true ->
  ((Scanner text).1 = [] <-> tooLong (firstSegment text) = true).
Proof.
  unfold Scanner, firstSegment. rewrite segments_bytes.
  destruct (splitNL (bytes text)) as [s0 rest]. cbn [fst snd].
  assert (Hraw : rawLines (s0 :: rest) = [] \/ exists ls, rawLines (s0 :: rest) = s0 :: ls).
  { destruct rest; [destruct s0; eauto | right; eexists; apply rawLines_cons]. }
  destruct Hraw as [->|[ls ->]]; [discriminate|]. simpl. unfold tooLong.
  destruct (MaxScanTokenSize <=? Z.of_nat (length s0)); [now split|].
  destruct (scanTokens ls). simpl. intros _. split; discriminate.
Qed.

Section ScanErrors.
Context `{UnicodeTables, TextTemplate}.

Lemma headerloader_parseLines_cases tokens flag :
  headerloader.parseLines (tokens, flag)
  = if flag
    then (None, Some (Errorf (match tokens with
                              | [] => "error reading the first line: %w"
                              | _ => "error scanning lines from processed template: %w"
                              end)%string ErrTooLong))
    else (Some (attachOrders (foldl headerloader.loopBody initialState (tail tokens))), None).
Proof. destruct tokens, flag; reflexivity. Qed.

Lemma http_template_parseLines_cases tokens flag :
  http_template.parseLines (tokens, flag)
  = if flag
    then (None, Some (Errorf (match tokens with
                              | [] => "error reading the first line: %w"
                              | _ => "error scanning lines from processed template: %w"
                              end)%string ErrTooLong))
    else (Some (attachOrders (foldl http_template.loopBody initialState (tail tokens))), None).
Proof. destruct tokens, flag; reflexivity. Qed.

Lemma scan_message text :
  (Scanner text).2 = true ->
  match (Scanner text).1 with
  | [] => "error reading the first line: %w"
  | _ => "error scanning lines from processed template: %w"
  end%string
  = if tooLong (firstSegment text) then "error reading the first line: %w"%string
    else "error scanning lines from processed template: %w"%string.
Proof.
  intros Hf. pose proof (Scanner_no_token text Hf) as Hn.
  destruct (Scanner text).1 as [|t ts].
  - now rewrite (proj1 Hn eq_refl).
  - destruct (tooLong (firstSegment text)); [|reflexivity].
    now specialize (proj2 Hn eq_refl).
Qed.

(** X7: once the text is rendered, ParseHeaderTemplate (of either file)
    fails exactly when some line of the text, the last one without a
    line feed included, has [MaxScanTokenSize] bytes or more.  It then
    returns nil, whatever the lines before held, and [ErrTooLong]
    wrapped in the message of the first line when that line is the long
    one, and in the message of the loop otherwise.  When no line is that
    long it returns the structure of the loop's final state and no
    error. *)
Theorem scan_failure_exact tpl data text :
  Renders tpl data text ->
  headerloader.ParseHeaderTemplate tpl data
  = (if existsb tooLong (segments text)
     then (None, Some (Errorf (if tooLong (firstSegment text)
                               then "error reading the first line: %w"
                               else "error scanning lines from processed template: %w")%string
                         ErrTooLong))
     else (Some (attachOrders
                   (foldl headerloader.loopBody initialState (bodyLines text))), None))
  /\ http_template.ParseHeaderTemplate tpl data
     = (if existsb tooLong (segments text)
        then (None, Some (Errorf (if tooLong (firstSegment text)
                                  then "error reading the first line: %w"
                                  else "error scanning lines from processed template: %w")%string
                            ErrTooLong))
        else (Some (attachOrders
                      (foldl http_template.loopBody initialState (bodyLines text))), None)).
Proof.
  intros Hr.
  rewrite (headerloader_renders _ _ _ Hr), (http_template_renders _ _ _ Hr).
  unfold headerloader.parseProcessed, http_template.parseProcessed, bodyLines.
  rewrite (surjective_pairing (Scanner text)).
  rewrite headerloader_parseLines_cases, http_template_parseLines_cases.
  rewrite <- Scanner_flag. simpl.
  destruct (Scanner text).2 eqn:Hf; [|now split].
  now rewrite (scan_message text Hf).
Qed.

End ScanErrors.

(** * Further properties: line endings *)

Lemma rawLines_snoc_empty xs : rawLines (xs ++ [[]]) = xs.
Proof.
  induction xs as [|x xs IH]; [reflexivity|].
  change ((x :: xs) ++ [[]]) with (x :: (xs ++ [[]])).
  destruct (xs ++ [[]]) as [|y ys] eqn:E; [now destruct xs|].
  rewrite rawLines_cons. now rewrite IH.
Qed.

Lemma rawLines_last segs : rawLines segs = segs \/ segs = rawLines segs ++ [[]].
Proof.
  induction segs as [|x [|y ys] IH]; [now left| |].
  - destruct x; [now right | now left].
  - rewrite rawLines_cons. destruct IH as [->| E]; [now left|right].
    change ((x :: rawLines (y :: ys)) ++ [[]]) with (x :: (rawLines (y :: ys) ++ [[]])).
    now rewrite <- E.
Qed.

Lemma segments_line_feed text : segments (text +:+ nl) = segments text ++ [[]].
Proof.
  change (text +:+ nl) with (text +:+ nl +:+ ""). now rewrite segments_app.
Qed.

(** What the scanner delivers when a line feed is added at the end: the
    same, or one more line, which is empty. *)
Lemma Scanner_line_feed text :
  Scanner (text +:+ nl) = Scanner text
  \/ ((Scanner text).2 = false
      /\ Scanner (text +:+ nl) = ((Scanner text).1 ++ [""%string], false)).
Proof.
  unfold Scanner. rewrite segments_line_feed, rawLines_snoc_empty.
  destruct (rawLines_last (segments text)) as [->|E]; [now left|].
  remember (rawLines (segments text)) as r eqn:Er. rewrite E, scanTokens_app.
  destruct (scanTokens r) as [ts [|]]; [now left|right].
  now split.
Qed.

Lemma TrimSpace_empty_string : TrimSpace "" = ""%string.
Proof. reflexivity. Qed.

Section LineEndings.
Context `{UnicodeTables, TextTemplate}.

Lemma headerloader_line_feed text :
  headerloader.parseProcessed (text +:+ nl) = headerloader.parseProcessed text.
Proof.
  unfold headerloader.parseProcessed.
  destruct (Scanner_line_feed text) as [->|[Hf ->]]; [reflexivity|].
  rewrite (surjective_pairing (Scanner text)), Hf.
  rewrite !headerloader_parseLines_cases.
  destruct (Scanner text).1 as [|t ts]; [reflexivity|]. simpl.
  rewrite foldl_snoc, headerloader_skip; [reflexivity|].
  apply lineKeyValue_skip. now left.
Qed.

Lemma http_template_line_feed text :
  http_template.parseProcessed (text +:+ nl) = http_template.parseProcessed text.
Proof.
  unfold http_template.parseProcessed.
  destruct (Scanner_line_feed text) as [->|[Hf ->]]; [reflexivity|].
  rewrite (surjective_pairing (Scanner text)), Hf.
  rewrite !http_template_parseLines_cases.
  destruct (Scanner text).1 as [|t ts]; [reflexivity|]. simpl.
  rewrite foldl_snoc, http_template_skip; [reflexivity|].
  apply lineKeyValue_skip. now left.
Qed.

(** X8: a line feed added at the end of the rendered text never changes
    the result, error included, in either file: the last line need not
    be terminated, and a terminated text has no extra empty line. *)
Theorem final_line_feed_irrelevant tpl1 data1 tpl2 data2 text :
  Renders tpl1 data1 text ->
  Renders tpl2 data2 (text +:+ nl) ->
  headerloader.ParseHeaderTemplate tpl2 data2 = headerloader.ParseHeaderTemplate tpl1 data1
  /\ http_template.ParseHeaderTemplate tpl2 data2
     = http_template.ParseHeaderTemplate tpl1 data1.
Proof.
  intros Hr1 Hr2.
  rewrite (headerloader_renders _ _ _ Hr1), (headerloader_renders _ _ _ Hr2).
  rewrite (http_template_renders _ _ _ Hr1), (http_template_renders _ _ _ Hr2).
  now rewrite headerloader_line_feed, http_template_line_feed.
Qed.

End LineEndings.

(** The bytes of a white-space rune after the first are not ASCII. *)
Lemma isSpace2_high a b : isSpace2 a b = true -> (0x80 <= a /\ 0x80 <= b)%N.
Proof.
  unfold isSpace2. rewrite andb_true_iff, orb_true_iff, !N.eqb_eq. lia.
Qed.

Lemma isSpace3_high a b c : isSpace3 a b c = true -> (0x80 <= a /\ 0x80 <= b /\ 0x80 <= c)%N.
Proof.
  unfold isSpace3.
  repeat rewrite ?orb_true_iff, ?andb_true_iff, ?N.eqb_eq, ?N.leb_le. lia.
Qed.

Lemma isSpace2_ascii_r a b : (b < 0x80)%N -> isSpace2 a b = false.
Proof.
  intros Hb. destruct (isSpace2 a b) eqn:E; [|reflexivity].
  apply isSpace2_high in E. lia.
Qed.

Lemma isSpace3_ascii_r a b c : (c < 0x80)%N -> isSpace3 a b c = false.
Proof.
  intros Hc. destruct (isSpace3 a b c) eqn:E; [|reflexivity].
  apply isSpace3_high in E. lia.
Qed.

Lemma isSpace3_ascii_m a b c : (b < 0x80)%N -> isSpace3 a b c = false.
Proof.
  intros Hc. destruct (isSpace3 a b c) eqn:E; [|reflexivity].
  apply isSpace3_high in E. lia.
Qed.

(** Trimming on the left before a carriage return. *)
Lemma trimLeft_cr l :
  trimLeft (l ++ [cr]) = trimLeft l ++ [cr]
  \/ (trimLeft l = [] /\ trimLeft (l ++ [cr]) = []).
Proof.
  assert (Hcr : (byte cr < 0x80)%N) by reflexivity.
  induction l as [l IH] using (induction_ltof1 _ (@length ascii)). unfold ltof in IH.
  destruct l as [|a l1]; [now right|]. simpl.
  destruct (isSpace1 (byte a)) eqn:E1; [apply IH; simpl; lia|].
  destruct l1 as [|b l2]; simpl.
  { rewrite (isSpace2_ascii_r _ _ Hcr). now left. }
  destruct (isSpace2 (byte a) (byte b)) eqn:E2; [apply IH; simpl; lia|].
  destruct l2 as [|c l3]; simpl.
  { rewrite (isSpace3_ascii_r _ _ _ Hcr). now left. }
  destruct (isSpace3 (byte a) (byte b) (byte c)) eqn:E3; [apply IH; simpl; lia|].
  now left.
Qed.

Lemma trimRight_cr l : trimRight (l ++ [cr]) = trimRight l.
Proof. unfold trimRight. now rewrite rev_unit. Qed.

(** A carriage return at the end of a line is trimmed with the line. *)
Lemma TrimSpace_cr l : TrimSpace (str (l ++ [cr])) = TrimSpace (str l).
Proof.
  unfold TrimSpace. rewrite !bytes_str. f_equal.
  destruct (trimLeft_cr l) as [->|[-> ->]]; [apply trimRight_cr | reflexivity].
Qed.

Lemma dropCR_cr l : dropCR (l ++ [cr]) = l.
Proof. unfold dropCR. rewrite rev_unit. simpl. apply rev_involutive. Qed.

Lemma lineKeyValue_TrimSpace a b :
  TrimSpace a = TrimSpace b -> headerloader.lineKeyValue a = headerloader.lineKeyValue b.
Proof. intros E. unfold headerloader.lineKeyValue. now rewrite E. Qed.

Lemma lineKeyValue_dropCR l :
  headerloader.lineKeyValue (str (dropCR l)) = headerloader.lineKeyValue (str l).
Proof.
  unfold dropCR. destruct (rev l) as [|c r] eqn:E; [reflexivity|].
  destruct (Ascii.eqb_spec c cr) as [->|_]; [|reflexivity].
  assert (Hl : l = rev r ++ [cr]).
  { rewrite <- (rev_involutive l), E. reflexivity. }
  rewrite Hl. apply lineKeyValue_TrimSpace. symmetry. apply TrimSpace_cr.
Qed.

(** The segments when a byte that is no line feed is added at the end. *)
Lemma splitNL_snoc l c :
  c <> newline ->
  exists init lastseg,
    (splitNL l).1 :: (splitNL l).2 = init ++ [lastseg]
    /\ (splitNL (l ++ [c])).1 :: (splitNL (l ++ [c])).2 = init ++ [lastseg ++ [c]].
Proof.
  intros Hc. induction l as [|x l (init & lastseg & E1 & E2)]; simpl.
  - destruct (Ascii.eqb_spec c newline); [contradiction|]. now exists [], [].
  - destruct (splitNL l) as [s r]. destruct (splitNL (l ++ [c])) as [s' r']. simpl in *.
    destruct (Ascii.eqb x newline).
    + exists ([] :: init), lastseg. simpl. now rewrite E1, E2.
    + destruct init as [|i0 init]; simpl in *.
      * injection E1 as -> ->. injection E2 as -> ->. now exists [], (x :: lastseg).
      * injection E1 as -> ->. injection E2 as -> ->.
        now exists ((x :: i0) :: init), lastseg.
Qed.

Lemma bytes_crlf : bytes crlf = [cr; newline].
Proof. reflexivity. Qed.

(** The segments of a text around one of its line endings, written as a
    line feed or as a carriage return and a line feed. *)
Lemma segments_line_ending a b :
  exists init,
    segments (a +:+ crlf +:+ b) = init ++ [lastSegment a ++ [cr]] ++ segments b
    /\ segments (a +:+ nl +:+ b) = init ++ [lastSegment a] ++ segments b.
Proof.
  assert (Hc : cr <> newline) by discriminate.
  destruct (splitNL_snoc (bytes a) cr Hc) as (init & lastseg & E1 & E2).
  exists init. unfold lastSegment. rewrite segments_app, !segments_bytes.
  rewrite !bytes_append, bytes_crlf.
  change (bytes a ++ [cr; newline] ++ bytes b) with (bytes a ++ cr :: newline :: bytes b).
  replace (bytes a ++ cr :: newline :: bytes b)
    with ((bytes a ++ [cr]) ++ newline :: bytes b) by now rewrite <- app_assoc.
  rewrite splitNL_app. cbn [fst snd]. rewrite E1, last_last.
  change ((splitNL (bytes a ++ [cr])).1
          :: (splitNL (bytes a ++ [cr])).2 ++ (splitNL (bytes b)).1 :: (splitNL (bytes b)).2)
    with (((splitNL (bytes a ++ [cr])).1 :: (splitNL (bytes a ++ [cr])).2)
          ++ (splitNL (bytes b)).1 :: (splitNL (bytes b)).2).
  rewrite E2, <- !app_assoc. now split.
Qed.

(** What the scanner delivers for two lists of segments that differ in
    one short segment, not the last. *)
Lemma scanTokens_replace init seg1 seg2 rest :
  rest <> [] -> tooLong seg1 = false -> tooLong seg2 = false ->
  scanTokens (rawLines (init ++ [seg1] ++ rest))
  = scanTokens (rawLines (init ++ [seg2] ++ rest))
  \/ exists before after flag,
       scanTokens (rawLines (init ++ [seg1] ++ rest))
       = (before ++ str (dropCR seg1) :: after, flag)
       /\ scanTokens (rawLines (init ++ [seg2] ++ rest))
          = (before ++ str (dropCR seg2) :: after, flag).
Proof.
  intros Hrest H1 H2.
  rewrite !rawLines_app by (destruct rest; [contradiction | discriminate]).
  rewrite !scanTokens_app.
  destruct (scanTokens init) as [before [|]]; [now left|right]. cbn [fst snd].
  exists before, (scanTokens (rawLines rest)).1, (scanTokens (rawLines rest)).2.
  unfold tooLong in H1, H2. simpl. rewrite H1, H2.
  destruct (scanTokens (rawLines rest)). now split.
Qed.

Section CarriageReturn.
Context `{UnicodeTables, TextTemplate}.

Lemma headerloader_same_key st a b :
  headerloader.lineKeyValue a = headerloader.lineKeyValue b ->
  headerloader.loopBody st a = headerloader.loopBody st b.
Proof. intros E. unfold headerloader.loopBody. now rewrite E. Qed.

Lemma http_template_same_key st a b :
  headerloader.lineKeyValue a = headerloader.lineKeyValue b ->
  http_template.loopBody st a = http_template.loopBody st b.
Proof.
  intros E. unfold http_template.loopBody.
  change (http_template.lineKeyValue a) with (headerloader.lineKeyValue a).
  change (http_template.lineKeyValue b) with (headerloader.lineKeyValue b).
  now rewrite E.
Qed.

Lemma headerloader_replace_line before a b after flag :
  headerloader.lineKeyValue a = headerloader.lineKeyValue b ->
  headerloader.parseLines (before ++ a :: after, flag)
  = headerloader.parseLines (before ++ b :: after, flag).
Proof.
  intros E. rewrite !headerloader_parseLines_cases.
  destruct before as [|t ts]; [reflexivity|]. cbn [app tail].
  rewrite !foldl_app. cbn [foldl]. now rewrite (headerloader_same_key _ a b E).
Qed.

Lemma http_template_replace_line before a b after flag :
  headerloader.lineKeyValue a = headerloader.lineKeyValue b ->
  http_template.parseLines (before ++ a :: after, flag)
  = http_template.parseLines (before ++ b :: after, flag).
Proof.
  intros E. rewrite !http_template_parseLines_cases.
  destruct before as [|t ts]; [reflexivity|]. cbn [app tail].
  rewrite !foldl_app. cbn [foldl]. now rewrite (http_template_same_key _ a b E).
Qed.

Lemma tooLong_cr seg :
  Z.of_nat (length seg) + 1 < MaxScanTokenSize ->
  tooLong seg = false /\ tooLong (seg ++ [cr]) = false.
Proof.
  intros Hl. unfold tooLong. rewrite length_app. simpl.
  split; apply Z.leb_gt; lia.
Qed.

Lemma crlf_same_tokens a b :
  Z.of_nat (length (lastSegment a)) + 1 < MaxScanTokenSize ->
  Scanner (a +:+ crlf +:+ b) = Scanner (a +:+ nl +:+ b)
  \/ exists before t1 t2 after flag,
       Scanner (a +:+ crlf +:+ b) = (before ++ t1 :: after, flag)
       /\ Scanner (a +:+ nl +:+ b) = (before ++ t2 :: after, flag)
       /\ headerloader.lineKeyValue t1 = headerloader.lineKeyValue t2.
Proof.
  intros Hl. destruct (tooLong_cr _ Hl) as [H2 H1].
  destruct (segments_line_ending a b) as (init & E1 & E2).
  unfold Scanner. rewrite E1, E2.
  destruct (segments_not_nil b) as (seg & segs & Eb).
  destruct (scanTokens_replace init (lastSegment a ++ [cr]) (lastSegment a) (segments b))
    as [E|(before & after & flag & Ea & Eb')]; try assumption.
  { rewrite Eb. discriminate. }
  { now left. }
  right. exists before, (str (dropCR (lastSegment a ++ [cr]))),
    (str (dropCR (lastSegment a))), after, flag.
  split; [assumption|]. split; [assumption|].
  now rewrite dropCR_cr, lineKeyValue_dropCR.
Qed.

(** X9: a line ending written as a carriage return and a line feed gives
    the result, error included, that a line feed alone gives, in either
    file, as long as the line with the carriage return still fits the
    scanner's buffer. *)
Theorem crlf_line_ending tpl1 data1 tpl2 data2 a b :
  Z.of_nat (length (lastSegment a)) + 1 < MaxScanTokenSize ->
  Renders tpl1 data1 (a +:+ crlf +:+ b) ->
  Renders tpl2 data2 (a +:+ nl +:+ b) ->
  headerloader.ParseHeaderTemplate tpl1 data1 = headerloader.ParseHeaderTemplate tpl2 data2
  /\ http_template.ParseHeaderTemplate tpl1 data1
     = http_template.ParseHeaderTemplate tpl2 data2.
Proof.
  intros Hl Hr1 Hr2.
  rewrite (headerloader_renders _ _ _ Hr1), (headerloader_renders _ _ _ Hr2).
  rewrite (http_template_renders _ _ _ Hr1), (http_template_renders _ _ _ Hr2).
  unfold headerloader.parseProcessed, http_template.parseProcessed.
  destruct (crlf_same_tokens a b Hl) as [->|(before & t1 & t2 & after & flag & -> & -> & E)];
    [now split|].
  split; [now apply headerloader_replace_line | now apply http_template_replace_line].
Qed.

End CarriageReturn.

(** * Lines that are skipped, in a text *)

(** The scanner on a text whose first lines hold a long one: it stops
    there, whatever follows. *)
Lemma Scanner_long_prefix a rest :
  existsb tooLong (segments a) = true ->
  Scanner (a +:+ nl +:+ rest) = scanTokens (segments a).
Proof.
  intros Hf. unfold Scanner. rewrite segments_app.
  destruct (segments_not_nil rest) as (seg & segs & Er).
  rewrite rawLines_app by (rewrite Er; discriminate).
  rewrite scanTokens_app, scanTokens_flag, Hf. reflexivity.
Qed.

(** The scanner on a text with and without one line after short first
    lines. *)
Lemma Scanner_middle_line a line b :
  newline ∉ bytes line ->
  existsb tooLong (segments a) = false ->
  exists first lines1,
    Scanner (a +:+ nl +:+ b) = (first :: lines1 ++ (Scanner b).1, (Scanner b).2)
    /\ Scanner (a +:+ nl +:+ line +:+ nl +:+ b)
       = if len line <? MaxScanTokenSize
         then (first :: lines1 ++ str (dropCR (bytes line)) :: (Scanner b).1, (Scanner b).2)
         else (first :: lines1, true).
Proof.
  intros Hl Hf. unfold Scanner.
  rewrite (segments_app a b), (segments_app a (line +:+ nl +:+ b)), (segments_line _ _ Hl).
  destruct (segments_not_nil b) as (seg & segs & Eb).
  rewrite (rawLines_app (segments a) (segments b)) by (rewrite Eb; discriminate).
  rewrite (rawLines_app (segments a) (bytes line :: segments b)) by discriminate.
  rewrite Eb, rawLines_cons, <- Eb. rewrite !scanTokens_app, scanTokens_flag, Hf.
  assert (Hne : exists first lines1, (scanTokens (segments a)).1 = first :: lines1).
  { pose proof (scanTokens_flag (segments a)) as Hfl. rewrite Hf in Hfl.
    destruct (segments_not_nil a) as (s0 & ss & Ea). rewrite Ea in *. simpl in *.
    destruct (MaxScanTokenSize <=? Z.of_nat (length s0)); [discriminate|].
    destruct (scanTokens ss) as [ts e]. simpl. eauto. }
  destruct Hne as (first & lines1 & Et). exists first, lines1. rewrite Et.
  split; [reflexivity|]. cbn [scanTokens]. rewrite <- len_bytes.
  destruct (Z.leb_spec MaxScanTokenSize (len line)) as [Hge|Hlt];
    destruct (Z.ltb_spec (len line) MaxScanTokenSize) as [Hlt'|Hge']; try lia.
  - cbn [fst snd]. now rewrite app_nil_r.
  - destruct (scanTokens (rawLines (segments b))) as [ts e]. reflexivity.
Qed.

Section SkippedLines.
Context `{UnicodeTables, TextTemplate}.

(** C8, with the scanner's limit: a line after the first that is empty
    once trimmed, or that holds no colon, is skipped: the loop's state
    (value map, order lists) is left as it was, and the result for the
    scanned lines, error included, is the one obtained without the
    line.  For a rendered text this gives the result of the text
    without the line when the line is shorter than [MaxScanTokenSize]
    bytes; a longer such line after short lines makes
    ParseHeaderTemplate return nil and [ErrTooLong], wrapped in the
    message of the loop. *)
Theorem blank_and_colonless_lines_skipped line :
  TrimSpace line = ""%string \/ IndexByte (TrimSpace line) ":" = -1 ->
  (forall st, headerloader.loopBody st line = st)
  /\ (forall first lines1 lines2 flag,
        headerloader.parseLines (first :: lines1 ++ line :: lines2, flag)
        = headerloader.parseLines (first :: lines1 ++ lines2, flag))
  /\ (forall tpl1 data1 tpl2 data2 a b,
        newline ∉ bytes line ->
        Renders tpl1 data1 (a +:+ nl +:+ line +:+ nl +:+ b) ->
        Renders tpl2 data2 (a +:+ nl +:+ b) ->
        headerloader.ParseHeaderTemplate tpl1 data1
        = if (len line <? MaxScanTokenSize) || existsb tooLong (segments a)
          then headerloader.ParseHeaderTemplate tpl2 data2
          else (None, Some (Errorf "error scanning lines from processed template: %w"
                              ErrTooLong))).
Proof.
  intros Hskip. apply lineKeyValue_skip in Hskip. split; [|split].
  - intros st. now apply headerloader_skip.
  - intros. apply headerloader_drop_line. now apply headerloader_skip.
  - intros tpl1 data1 tpl2 data2 a b Hl Hr1 Hr2.
    rewrite (headerloader_renders _ _ _ Hr1), (headerloader_renders _ _ _ Hr2).
    unfold headerloader.parseProcessed.
    destruct (existsb tooLong (segments a)) eqn:Hf.
    + rewrite orb_true_r. now rewrite !Scanner_long_prefix.
    + rewrite orb_false_r.
      destruct (Scanner_middle_line a line b Hl Hf) as (first & lines1 & -> & ->).
      destruct (len line <? MaxScanTokenSize); [|reflexivity].
      apply headerloader_drop_line, headerloader_skip.
      now rewrite lineKeyValue_dropCR, str_bytes.
Qed.

End SkippedLines.

(** * Further properties: writing header lines and reading them back *)

Lemma isSpace2_ascii_l a b : (a < 0x80)%N -> isSpace2 a b = false.
Proof.
  intros Ha. destruct (isSpace2 a b) eqn:E; [|reflexivity].
  apply isSpace2_high in E. lia.
Qed.

Lemma isSpace3_ascii_l a b c : (a < 0x80)%N -> isSpace3 a b c = false.
Proof.
  intros Ha. destruct (isSpace3 a b c) eqn:E; [|reflexivity].
  apply isSpace3_high in E. lia.
Qed.

(** An ASCII byte after bytes that do not start with white space does
    not complete a white-space rune; the same from the end. *)
Lemma startsWithSpace_before_ascii l c r :
  startsWithSpace l = false -> l <> [] -> (byte c < 0x80)%N ->
  startsWithSpace (l ++ c :: r) = false.
Proof.
  intros Hs Hl Hc. destruct l as [|a [|b [|d l]]]; [contradiction| | |exact Hs]; simpl in *.
  - rewrite orb_false_r in Hs. rewrite Hs, (isSpace2_ascii_r _ _ Hc). simpl.
    destruct r; [reflexivity | apply isSpace3_ascii_m, Hc].
  - rewrite orb_false_r in Hs. apply orb_false_iff in Hs as [-> ->]. simpl.
    apply isSpace3_ascii_r, Hc.
Qed.

Lemma startsWithSpaceRev_before_ascii l c r :
  startsWithSpaceRev l = false -> l <> [] -> (byte c < 0x80)%N ->
  startsWithSpaceRev (l ++ c :: r) = false.
Proof.
  intros Hs Hl Hc. destruct l as [|a [|b [|d l]]]; [contradiction| | |exact Hs]; simpl in *.
  - rewrite orb_false_r in Hs. rewrite Hs, (isSpace2_ascii_l _ _ Hc). simpl.
    destruct r; [reflexivity | apply isSpace3_ascii_m, Hc].
  - rewrite orb_false_r in Hs. apply orb_false_iff in Hs as [-> ->]. simpl.
    apply isSpace3_ascii_l, Hc.
Qed.

Lemma startsWithSpaceRev_ascii c l :
  (byte c < 0x80)%N -> isSpace1 (byte c) = false -> startsWithSpaceRev (c :: l) = false.
Proof.
  intros Hc H1. simpl. rewrite H1. simpl.
  destruct l as [|b [|d l]]; [reflexivity| |].
  - now rewrite (isSpace2_ascii_r _ _ Hc).
  - now rewrite (isSpace2_ascii_r _ _ Hc), (isSpace3_ascii_r _ _ _ Hc).
Qed.

Lemma trimLeftRev_id l : startsWithSpaceRev l = false -> trimLeftRev l = l.
Proof.
  destruct l as [|a [|b [|c l]]]; simpl; try reflexivity.
  - rewrite orb_false_r. now intros ->.
  - rewrite orb_false_r. intros Hs. apply orb_false_iff in Hs as [-> ->]. reflexivity.
  - intros Hs. apply orb_false_iff in Hs as [-> Hs].
    apply orb_false_iff in Hs as [-> ->]. reflexivity.
Qed.

Lemma trimLeftRev_noSpace l : startsWithSpaceRev (trimLeftRev l) = false.
Proof.
  induction l as [l IH] using (induction_ltof1 _ (@length ascii)). unfold ltof in IH.
  destruct l as [|a l1]; [reflexivity|]. simpl.
  destruct (isSpace1 (byte a)) eqn:E1; [apply IH; simpl; lia|].
  destruct l1 as [|b l2]; [simpl; now rewrite E1|].
  destruct (isSpace2 (byte b) (byte a)) eqn:E2; [apply IH; simpl; lia|].
  destruct l2 as [|c l3]; [simpl; now rewrite E1, E2|].
  destruct (isSpace3 (byte c) (byte b) (byte a)) eqn:E3; [apply IH; simpl; lia|].
  simpl. now rewrite E1, E2, E3.
Qed.

(** What [TrimSpace] returns does not end with white space either, and
    is left as it is by [TrimSpace]. *)
Lemma TrimSpace_noSpace_end s : startsWithSpaceRev (rev (bytes (TrimSpace s))) = false.
Proof.
  unfold TrimSpace, trimRight. rewrite bytes_str, rev_involutive. apply trimLeftRev_noSpace.
Qed.

Lemma trimRight_id l : startsWithSpaceRev (rev l) = false -> trimRight l = l.
Proof. intros Hs. unfold trimRight. rewrite (trimLeftRev_id _ Hs). apply rev_involutive. Qed.

Lemma TrimSpace_id l :
  startsWithSpace l = false -> startsWithSpaceRev (rev l) = false ->
  TrimSpace (str l) = str l.
Proof.
  intros H1 H2. unfold TrimSpace. rewrite bytes_str, (trimLeft_id _ H1).
  now rewrite (trimRight_id _ H2).
Qed.

Lemma TrimSpace_idem s : TrimSpace (TrimSpace s) = TrimSpace s.
Proof.
  pose proof (TrimSpace_noSpace s) as H1. pose proof (TrimSpace_noSpace_end s) as H2.
  transitivity (TrimSpace (str (bytes (TrimSpace s)))); [now rewrite str_bytes|].
  rewrite TrimSpace_id by assumption. apply str_bytes.
Qed.

Lemma startsWithSpace_ascii c l :
  (byte c < 0x80)%N -> isSpace1 (byte c) = false -> startsWithSpace (c :: l) = false.
Proof.
  intros Hc H1. simpl. rewrite H1. simpl.
  destruct l as [|b [|d l]]; [reflexivity| |].
  - now rewrite (isSpace2_ascii_l _ _ Hc).
  - now rewrite (isSpace2_ascii_l _ _ Hc), (isSpace3_ascii_l _ _ _ Hc).
Qed.

(** A colon before a trimmed name gives a trimmed name. *)
Lemma TrimSpace_colon_name n : TrimSpace n = n -> TrimSpace (String ":" n) = String ":" n.
Proof.
  intros Hn.
  assert (Hc : (byte ":" < 0x80)%N) by reflexivity.
  assert (H1 : isSpace1 (byte ":") = false) by reflexivity.
  assert (E : String ":" n = str (":"%char :: bytes n))
    by (simpl; now rewrite str_bytes).
  rewrite E. apply TrimSpace_id.
  - now apply startsWithSpace_ascii.
  - simpl. destruct (bytes n) as [|a l] eqn:En.
    + now apply startsWithSpaceRev_ascii.
    + apply startsWithSpaceRev_before_ascii; [| |assumption].
      * rewrite <- En, <- Hn. apply TrimSpace_noSpace_end.
      * intros E'. apply (f_equal (@rev ascii)) in E'. rewrite rev_involutive in E'.
        discriminate.
Qed.

Lemma indexByte_first l c r : c ∉ l -> indexByte (l ++ c :: r) c = Z.of_nat (length l).
Proof.
  induction l as [|a l IH]; simpl.
  - intros _. now rewrite Ascii.eqb_refl.
  - rewrite not_elem_of_cons. intros [Hne Hn]. rewrite (IH Hn).
    destruct (Ascii.eqb_spec a c); [congruence|].
    destruct (Z.eqb_spec (Z.of_nat (length l)) (-1)); lia.
Qed.

(** A text cut at its first colon, as lines 78-87 do. *)
Lemma cut_at_colon k w :
  ":"%char ∉ bytes k ->
  let t := str (bytes k ++ ":"%char :: bytes w) in
  IndexByte t ":" = Z.of_nat (length (bytes k))
  /\ sliceTo t (IndexByte t ":") = k
  /\ (if IndexByte t ":" <? len t - 1
      then sliceFrom t (IndexByte t ":" + 1) else ""%string) = w.
Proof.
  intros Hc t.
  assert (Hb : bytes t = bytes k ++ ":"%char :: bytes w) by apply bytes_str.
  assert (Hi : IndexByte t ":" = Z.of_nat (length (bytes k))).
  { unfold IndexByte. rewrite Hb. now apply indexByte_first. }
  assert (Hlen : len t = Z.of_nat (length (bytes k)) + 1 + Z.of_nat (length (bytes w))).
  { rewrite len_bytes, Hb, length_app. simpl. lia. }
  split; [assumption|]. split.
  { unfold sliceTo. rewrite Hi, Hb, Nat2Z.id, take_app_length. apply str_bytes. }
  rewrite Hi, Hlen. destruct (bytes w) as [|c wb] eqn:Hw.
  - apply bytes_nil in Hw. subst w.
    destruct (Z.ltb_spec (Z.of_nat (length (bytes k)))
                (Z.of_nat (length (bytes k)) + 1 + Z.of_nat (length (@nil ascii)) - 1))
      as [Hlt|_]; [simpl in Hlt; lia | reflexivity].
  - destruct (Z.ltb_spec (Z.of_nat (length (bytes k)))
                (Z.of_nat (length (bytes k)) + 1 + Z.of_nat (length (c :: wb)) - 1))
      as [_|Hge]; [|simpl in Hge; lia].
    unfold sliceFrom. rewrite Hb.
    replace (Z.to_nat (Z.of_nat (length (bytes k)) + 1)) with (length (bytes k) + 1)%nat
      by lia.
    rewrite <- drop_drop, drop_app_length. simpl.
    change (String c (str wb)) with (str (c :: wb)). rewrite <- Hw.
    apply str_bytes.
Qed.

(** The key and value of a line whose trimmed text is a plain name, a
    colon and some text. *)
Lemma lineKeyValue_name_colon line k w :
  TrimSpace line = str (bytes k ++ ":"%char :: bytes w) ->
  k <> ""%string -> TrimSpace k = k -> ":"%char ∉ bytes k ->
  headerloader.lineKeyValue line = Some (k, TrimSpace w).
Proof.
  intros Ht Hk Htk Hc. unfold headerloader.lineKeyValue. rewrite Ht.
  destruct (cut_at_colon k w Hc) as (Hi & Hkey & Hval).
  set (t := str (bytes k ++ ":"%char :: bytes w)) in *.
  assert (Hb : bytes t = bytes k ++ ":"%char :: bytes w) by apply bytes_str.
  destruct (String.eqb_spec t "") as [E|_].
  { apply bytes_nil in E. rewrite Hb in E. now destruct (bytes k). }
  destruct (Z.eqb_spec (IndexByte t ":") (-1)) as [E|_]; [lia|].
  rewrite Hkey, Hval, Htk.
  destruct (String.eqb_spec k "") as [|_]; [contradiction|]. cbn [andb].
  destruct (String.eqb_spec k "") as [|_]; [contradiction|]. reflexivity.
Qed.

(** The key and value of a line whose trimmed text is a colon, a plain
    name, a colon and some text: a pseudo header. *)
Lemma lineKeyValue_colon_name_colon line name w :
  TrimSpace line = String ":" (str (bytes name ++ ":"%char :: bytes w)) ->
  name <> ""%string -> TrimSpace name = name -> ":"%char ∉ bytes name ->
  headerloader.lineKeyValue line = Some (String ":" name, TrimSpace w).
Proof.
  intros Ht Hk Htk Hc. unfold headerloader.lineKeyValue. rewrite Ht.
  destruct (cut_at_colon name w Hc) as (Hi & Hkey & Hval).
  set (p := str (bytes name ++ ":"%char :: bytes w)) in *.
  assert (Hb : bytes p = bytes name ++ ":"%char :: bytes w) by apply bytes_str.
  assert (Hp : 1 <= len p).
  { rewrite len_bytes, Hb, length_app. simpl. lia. }
  assert (Hlen : len (String ":" p) = len p + 1) by (unfold len; simpl; lia).
  change (IndexByte (String ":" p) ":") with 0. rewrite Hlen.
  change (sliceTo (String ":" p) 0) with ""%string.
  change (sliceFrom (String ":" p) (0 + 1)) with (str (bytes p)). rewrite str_bytes.
  destruct (Z.ltb_spec 0 (len p + 1 - 1)) as [_|]; [|lia].
  rewrite (proj2 (HasPrefix_colon (String ":" p))) by eauto.
  change ((TrimSpace "" =? "")%string && true) with true.
  change (String ":" p =? "")%string with false. cbn [Z.eqb].
  destruct (Z.eqb_spec (IndexByte p ":") (-1)) as [E|_]; [lia|].
  rewrite Hkey, Htk.
  destruct (String.eqb_spec name "") as [|_]; [contradiction|].
  replace (if IndexByte p ":" <? len p - 1
           then TrimSpace (sliceFrom p (IndexByte p ":" + 1)) else ""%string)
    with (TrimSpace (if IndexByte p ":" <? len p - 1
                     then sliceFrom p (IndexByte p ":" + 1) else ""%string))
    by (now destruct (IndexByte p ":" <? len p - 1)).
  rewrite Hval. reflexivity.
Qed.

Lemma bytes_headerLine k v :
  bytes (headerLine (k, v)) = bytes k ++ ":"%char :: " "%char :: bytes v.
Proof. unfold headerLine. now rewrite !bytes_append. Qed.

(** The trimmed text of a header line: the space after the colon goes
    when the value is empty. *)
Lemma TrimSpace_headerLine k v :
  k <> ""%string -> TrimSpace k = k -> TrimSpace v = v ->
  TrimSpace (headerLine (k, v))
  = str (bytes k ++ ":"%char :: bytes (if (v =? "")%string then ""%string
                                      else String " " v)).
Proof.
  intros Hk Htk Htv.
  assert (Hks : startsWithSpace (bytes k) = false)
    by (rewrite <- Htk; apply TrimSpace_noSpace).
  assert (Hvs : startsWithSpaceRev (rev (bytes v)) = false)
    by (rewrite <- Htv; apply TrimSpace_noSpace_end).
  assert (Hkn : bytes k <> []) by (intros E; now apply bytes_nil in E).
  assert (Hcolon : (byte ":" < 0x80)%N) by reflexivity.
  assert (Hspace : (byte " " < 0x80)%N) by reflexivity.
  unfold TrimSpace at 1. rewrite bytes_headerLine. f_equal.
  rewrite trimLeft_id by now apply startsWithSpace_before_ascii.
  unfold trimRight. rewrite rev_app_distr. simpl. rewrite <- !app_assoc. simpl.
  destruct (String.eqb_spec v "") as [->|Hv].
  - change (trimLeftRev (rev (bytes "") ++ " "%char :: ":"%char :: rev (bytes k)))
      with (trimLeftRev (":"%char :: rev (bytes k))).
    rewrite trimLeftRev_id by (now apply startsWithSpaceRev_ascii).
    cbn [rev]. now rewrite rev_involutive.
  - assert (Hvn : rev (bytes v) <> []).
    { intros E. apply Hv, bytes_nil. now rewrite <- (rev_involutive (bytes v)), E. }
    rewrite trimLeftRev_id by now apply startsWithSpaceRev_before_ascii.
    rewrite rev_app_distr. simpl. rewrite <- !app_assoc, !rev_involutive. reflexivity.
Qed.

(** Reading back one line: the name and the value as they were written. *)
Lemma lineKeyValue_headerLine k v :
  k <> ""%string -> TrimSpace k = k -> ":"%char ∉ bytes k -> TrimSpace v = v ->
  headerloader.lineKeyValue (headerLine (k, v)) = Some (k, v).
Proof.
  intros Hk Htk Hc Htv.
  rewrite (lineKeyValue_name_colon _ k (if (v =? "")%string then ""%string else String " " v))
    by (try assumption; now apply TrimSpace_headerLine).
  destruct (String.eqb_spec v "") as [->|_]; [reflexivity|].
  replace (TrimSpace (String " " v)) with (TrimSpace v) by reflexivity.
  now rewrite Htv.
Qed.

(** The same for a pseudo header. *)
Lemma lineKeyValue_pseudo_headerLine name v :
  name <> ""%string -> TrimSpace name = name -> ":"%char ∉ bytes name ->
  TrimSpace v = v ->
  headerloader.lineKeyValue (headerLine (String ":" name, v))
  = Some (String ":" name, v).
Proof.
  intros Hk Htk Hc Htv.
  rewrite (lineKeyValue_colon_name_colon _ name
             (if (v =? "")%string then ""%string else String " " v));
    try assumption.
  - destruct (String.eqb_spec v "") as [->|_]; [reflexivity|].
    replace (TrimSpace (String " " v)) with (TrimSpace v) by reflexivity.
    now rewrite Htv.
  - rewrite TrimSpace_headerLine;
      [reflexivity | discriminate | now apply TrimSpace_colon_name | assumption].
Qed.

Lemma writtenHeader_name kv :
  writtenHeader kv -> newline ∉ bytes kv.1.
Proof.
  intros ([(_ & _ & _ & Hn)|(name & -> & _ & _ & _ & Hn)] & _); [assumption|].
  simpl. apply not_elem_of_cons. split; [discriminate | assumption].
Qed.

Lemma plainHeader_written kv : plainHeader kv -> writtenHeader kv.
Proof. intros (Hk & Hv & Hl). split; [now left | now split]. Qed.

Lemma headerLine_no_newline kv :
  newline ∉ bytes kv.1 -> newline ∉ bytes kv.2 -> newline ∉ bytes (headerLine kv).
Proof.
  destruct kv as [k v]. simpl. intros Hk Hv. rewrite bytes_headerLine.
  rewrite elem_of_app, !elem_of_cons. intros [?|[?|[?|?]]]; try contradiction; discriminate.
Qed.

(** The segments of a text of header lines. *)
Lemma segments_headerText request headers :
  newline ∉ bytes request ->
  Forall (fun kv => newline ∉ bytes (headerLine kv)) headers ->
  segments (headerText request headers)
  = (bytes request :: map (fun kv => bytes (headerLine kv)) headers) ++ [[]].
Proof.
  intros Hr Hall. unfold headerText. rewrite segments_app, (segments_no_newline _ Hr).
  simpl. f_equal. induction Hall as [|kv hs Hkv Hall IH]; [reflexivity|]. simpl.
  now rewrite segments_app, (segments_no_newline _ Hkv), IH.
Qed.

Lemma scanTokens_short ls :
  Forall (fun l => tooLong l = false) ls ->
  scanTokens ls = (map (fun l => str (dropCR l)) ls, false).
Proof.
  induction 1 as [|l ls Hl Hall IH]; [reflexivity|]. simpl.
  unfold tooLong in Hl. now rewrite Hl, IH.
Qed.

Lemma plainName_regular key : plainName key -> isPseudo key = false.
Proof.
  intros (Hk & _ & Hc & _). unfold isPseudo.
  destruct (HasPrefix key ":") eqn:E; [|reflexivity].
  apply HasPrefix_colon in E as [t ->]. exfalso. apply Hc. simpl. left.
Qed.

(** The scanner on a text of written header lines, and the keys and
    values of its lines. *)
Lemma Scanner_headerText request headers :
  newline ∉ bytes request -> len request < MaxScanTokenSize ->
  Forall writtenHeader headers ->
  Scanner (headerText request headers)
  = (str (dropCR (bytes request))
       :: map (fun kv => str (dropCR (bytes (headerLine kv)))) headers, false).
Proof.
  intros Hr Hlen Hall. unfold Scanner. rewrite segments_headerText; [|assumption|].
  - rewrite rawLines_snoc_empty, scanTokens_short.
    + simpl. now rewrite map_map.
    + constructor.
      * unfold tooLong. rewrite <- len_bytes. apply Z.leb_gt. lia.
      * apply Forall_map. eapply Forall_impl; [exact Hall|].
        intros kv (_ & _ & Hl). simpl. unfold tooLong. rewrite <- len_bytes.
        apply Z.leb_gt. lia.
  - eapply Forall_impl; [exact Hall|].
    intros kv Hkv. apply headerLine_no_newline; [now apply writtenHeader_name|].
    now destruct Hkv as (_ & (_ & Hv) & _).
Qed.

Lemma headerLines_headerText request headers :
  newline ∉ bytes request -> len request < MaxScanTokenSize ->
  Forall writtenHeader headers ->
  headerLines (headerText request headers) = headers.
Proof.
  intros Hr Hlen Hall. unfold headerLines, bodyLines.
  rewrite Scanner_headerText by assumption. simpl.
  induction Hall as [|[k v] hs Hkv Hall IH]; [reflexivity|]. simpl.
  rewrite lineKeyValue_dropCR, str_bytes.
  destruct Hkv as ([(Hk & Htk & Hc & _)|(name & E & Hk & Htk & Hc & _)] & (Htv & _) & _);
    simpl in *.
  - rewrite lineKeyValue_headerLine by assumption. f_equal. exact IH.
  - subst k. rewrite lineKeyValue_pseudo_headerLine by assumption. f_equal. exact IH.
Qed.

Section ReadBack.
Context `{UnicodeTables, TextTemplate}.

Lemma regularKeysOf_plain headers :
  Forall plainHeader headers -> regularKeysOf headers = headers.*1.
Proof.
  unfold regularKeysOf. induction 1 as [|[k v] hs Hkv Hall IH]; [reflexivity|]. simpl.
  rewrite filter_cons.
  destruct Hkv as (Hk & _). apply plainName_regular in Hk. simpl in Hk.
  destruct (decide (isPseudo k = false)); [|contradiction]. f_equal. exact IH.
Qed.

Lemma pseudoKeys_plain headers :
  Forall plainHeader headers -> filter (fun k => isPseudo k = true) headers.*1 = [].
Proof.
  induction 1 as [|[k v] hs Hkv Hall IH]; [reflexivity|]. simpl.
  rewrite filter_cons.
  destruct Hkv as (Hk & _). apply plainName_regular in Hk. simpl in Hk.
  destruct (decide (isPseudo k = true)); [congruence | exact IH].
Qed.

Lemma orderOf_no_cookie keys :
  Forall (fun k => isCookie k = false) keys -> orderOf false keys = keys.
Proof.
  induction 1 as [|k ks Hk Hall IH]; [reflexivity|]. simpl. now rewrite Hk, IH.
Qed.

(** X10: a text made of a request line and of lines "name: value", for
    plain names that are neither cookie nor content-length keys and
    trimmed values, each line within the scanner's buffer, is read back
    exactly: template.go's ParseHeaderTemplate returns, without error,
    the structure
    that lists the names in the order written under the regular-order
    key, has no pseudo-order key, and binds every other key to the
    values written for it, in order, or not at all when there is
    none. *)
Theorem written_headers_read_back tpl data request headers :
  Renders tpl data (headerText request headers) ->
  newline ∉ bytes request -> len request < MaxScanTokenSize ->
  Forall plainHeader headers ->
  Forall (fun kv => isCookie kv.1 = false /\ isContentLength kv.1 = false) headers ->
  exists h,
    headerloader.ParseHeaderTemplate tpl data = (Some h, None)
    /\ h !! HeaderOrderKey = stored headers.*1
    /\ h !! PHeaderOrderKey = None
    /\ (forall key, key <> HeaderOrderKey -> key <> PHeaderOrderKey ->
          h !! key = stored (valuesOf key headers)).
Proof.
  intros Hr Hn Hlen Hplain Hns. rewrite (headerloader_renders _ _ _ Hr).
  assert (Hw : Forall writtenHeader headers)
    by (eapply Forall_impl; [exact Hplain | exact plainHeader_written]).
  assert (E : exists h, headerloader.parseProcessed (headerText request headers)
                        = (Some h, None)).
  { unfold headerloader.parseProcessed. rewrite Scanner_headerText by assumption.
    eexists. reflexivity. }
  destruct E as [h E]. exists h. split; [assumption|].
  pose proof (fun key => headerloader_lookup _ _ _ key E) as Hlook.
  unfold regularKeys in Hlook.
  rewrite (headerLines_headerText _ _ Hn Hlen Hw) in Hlook.
  rewrite (regularKeysOf_plain _ Hplain), (pseudoKeys_plain _ Hplain) in Hlook.
  rewrite orderOf_no_cookie in Hlook
    by (apply Forall_fmap; eapply Forall_impl; [exact Hns | now intros kv [? _]]).
  split; [|split].
  - rewrite Hlook. now destruct (decide (HeaderOrderKey = HeaderOrderKey)).
  - rewrite Hlook. destruct (decide (PHeaderOrderKey = HeaderOrderKey)); [discriminate|].
    now destruct (decide (PHeaderOrderKey = PHeaderOrderKey)).
  - intros key H1 H2. rewrite Hlook.
    destruct (decide (key = HeaderOrderKey)); [contradiction|].
    destruct (decide (key = PHeaderOrderKey)); [contradiction|].
    unfold expectedValues.
    destruct (isPseudo key || suppressedTwo key) eqn:Hs;
      [|now destruct (valuesOf key headers)].
    rewrite valuesOf_absent; [reflexivity|].
    intros Hin. apply list_elem_of_fmap in Hin as ([k v] & -> & Hin). simpl in Hs.
    rewrite Forall_forall in Hplain, Hns.
    destruct (Hplain _ Hin) as (Hk & _). apply plainName_regular in Hk.
    destruct (Hns _ Hin) as [Hc Hl]. simpl in *.
    unfold suppressedTwo in Hs. now rewrite Hk, Hc, Hl in Hs.
Qed.

(** X11: a text made of a request line and of lines "name: value" or
    ":name: value", cookie and content-length headers allowed, with
    trimmed values and each line within the scanner's buffer, is read by
    template.go without error: the names of the pseudo headers are
    listed, as written and in order, under the pseudo-order key and
    their values are dropped; the other names are listed under the
    regular-order key, a cookie name only the first time; and a key is
    bound, to the values written for it, exactly when it is a written
    regular name that is neither a cookie nor a content-length key. *)
Theorem written_lines_read_back tpl data request headers :
  Renders tpl data (headerText request headers) ->
  newline ∉ bytes request -> len request < MaxScanTokenSize ->
  Forall writtenHeader headers ->
  exists h,
    headerloader.ParseHeaderTemplate tpl data = (Some h, None)
    /\ h !! PHeaderOrderKey = stored (filter (fun k => isPseudo k = true) headers.*1)
    /\ h !! HeaderOrderKey = stored (orderOf false (regularKeysOf headers))
    /\ (forall key, key <> HeaderOrderKey -> key <> PHeaderOrderKey ->
          h !! key = if isPseudo key || (isCookie key || isContentLength key) then None
                     else stored (valuesOf key headers)).
Proof.
  intros Hr Hn Hlen Hw. rewrite (headerloader_renders _ _ _ Hr).
  assert (E : exists h, headerloader.parseProcessed (headerText request headers)
                        = (Some h, None)).
  { unfold headerloader.parseProcessed. rewrite Scanner_headerText by assumption.
    eexists. reflexivity. }
  destruct E as [h E]. exists h. split; [assumption|].
  pose proof (fun key => headerloader_lookup _ _ _ key E) as Hlook.
  unfold regularKeys in Hlook.
  rewrite (headerLines_headerText _ _ Hn Hlen Hw) in Hlook.
  split; [|split].
  - rewrite Hlook. destruct (decide (PHeaderOrderKey = HeaderOrderKey)); [discriminate|].
    now destruct (decide (PHeaderOrderKey = PHeaderOrderKey)).
  - rewrite Hlook. now destruct (decide (HeaderOrderKey = HeaderOrderKey)).
  - intros key H1 H2. rewrite Hlook.
    destruct (decide (key = HeaderOrderKey)); [contradiction|].
    destruct (decide (key = PHeaderOrderKey)); [contradiction|].
    unfold expectedValues, suppressedTwo.
    destruct (isPseudo key || (isCookie key || isContentLength key)); [reflexivity|].
    now destruct (valuesOf key headers).
Qed.

End ReadBack.

(** * Further properties: what names and values can hold *)

Lemma sliceTo_subset s i c : c ∉ bytes s -> c ∉ bytes (sliceTo s i).
Proof.
  intros Hn Hin. apply Hn. rewrite bytes_sliceTo in Hin.
  rewrite <- (take_drop (Z.to_nat i) (bytes s)). apply elem_of_app. now left.
Qed.

Lemma sliceFrom_subset s i c : c ∉ bytes s -> c ∉ bytes (sliceFrom s i).
Proof.
  intros Hn Hin. apply Hn. rewrite bytes_sliceFrom in Hin.
  rewrite <- (take_drop (Z.to_nat i) (bytes s)). apply elem_of_app. now right.
Qed.

(** The key and the value of a line are trimmed and made of bytes of the
    line. *)
Lemma lineKeyValue_clean line k v :
  headerloader.lineKeyValue line = Some (k, v) ->
  TrimSpace k = k /\ TrimSpace v = v
  /\ (forall c, c ∉ bytes line -> (c ∉ bytes k) /\ (c ∉ bytes v)).
Proof.
  unfold headerloader.lineKeyValue.
  set (t := TrimSpace line). set (i := IndexByte t ":").
  set (pvp := if i <? len t - 1 then sliceFrom t (i + 1) else ""%string).
  destruct (t =? "")%string; [discriminate|].
  destruct (Z.eqb_spec i (-1)) as [|Hi]; [discriminate|].
  assert (Ht : forall c, c ∉ bytes line -> c ∉ bytes t)
    by (intros c; apply TrimSpace_not_elem).
  assert (Hpvp : forall c, c ∉ bytes line -> c ∉ bytes pvp).
  { intros c Hc. unfold pvp. destruct (i <? len t - 1);
      [apply sliceFrom_subset; auto | apply not_elem_of_nil]. }
  assert (Hcolon : forall c, c ∉ bytes line -> c ∉ bytes ":").
  { intros c Hc Hin. apply list_elem_of_singleton in Hin as ->.
    apply Ht in Hc. apply indexByte_none in Hc. contradiction. }
  assert (Hname : forall x c, c ∉ bytes x -> c ∉ bytes ":" ->
                    c ∉ bytes (String ":" (TrimSpace x))).
  { intros x c Hx Hc. simpl. apply not_elem_of_cons. split.
    - intros ->. apply Hc. simpl. left.
    - now apply TrimSpace_not_elem. }
  destruct ((TrimSpace (sliceTo t i) =? "")%string && HasPrefix t ":").
  - destruct (IndexByte pvp ":" =? -1).
    + destruct (TrimSpace pvp =? "")%string; simpl; intros E; injection E as <- <-.
      * repeat split; auto using not_elem_of_nil.
      * change (":" +:+ TrimSpace pvp)%string with (String ":" (TrimSpace pvp)).
        repeat split; auto using not_elem_of_nil, TrimSpace_colon_name, TrimSpace_idem.
    + set (w := if IndexByte pvp ":" <? len pvp - 1
                then TrimSpace (sliceFrom pvp (IndexByte pvp ":" + 1)) else ""%string).
      assert (Hw : TrimSpace w = w /\ forall c, c ∉ bytes line -> c ∉ bytes w).
      { unfold w. destruct (IndexByte pvp ":" <? len pvp - 1).
        - split; [apply TrimSpace_idem|]. intros c Hc.
          apply TrimSpace_not_elem, sliceFrom_subset. auto.
        - split; [reflexivity|]. intros c _. apply not_elem_of_nil. }
      destruct Hw as [Hw1 Hw2].
      destruct (TrimSpace (sliceTo pvp (IndexByte pvp ":")) =? "")%string; simpl;
        intros E; injection E as <- <-.
      * repeat split; auto.
      * change (":" +:+ ?x)%string with (String ":" x).
        repeat split; auto using TrimSpace_colon_name, TrimSpace_idem.
        apply Hname; auto. apply sliceTo_subset. auto.
  - destruct (TrimSpace (sliceTo t i) =? "")%string; [discriminate|].
    intros E. injection E as <- <-.
    repeat split; auto using TrimSpace_idem.
    + apply TrimSpace_not_elem, sliceTo_subset. auto.
    + apply TrimSpace_not_elem. auto.
Qed.

Lemma splitNL_no_line_feed l :
  (newline ∉ (splitNL l).1) /\ Forall (fun seg => newline ∉ seg) (splitNL l).2.
Proof.
  induction l as [|c l [IH1 IH2]]; simpl.
  - split; [apply not_elem_of_nil | constructor].
  - destruct (splitNL l) as [seg segs]. simpl in *.
    destruct (Ascii.eqb_spec c newline) as [->|Hc]; simpl.
    + split; [apply not_elem_of_nil | now constructor].
    + split; [|assumption]. apply not_elem_of_cons. split; [congruence | assumption].
Qed.

Lemma segments_no_line_feed text : Forall (fun seg => newline ∉ seg) (segments text).
Proof.
  unfold segments. pose proof (splitNL_no_line_feed (bytes text)) as [H1 H2].
  destruct (splitNL (bytes text)). now constructor.
Qed.

Lemma rawLines_subset segs seg : seg ∈ rawLines segs -> seg ∈ segs.
Proof.
  destruct (rawLines_last segs) as [->|E]; [auto|].
  intros Hin. rewrite E. apply elem_of_app. now left.
Qed.

Lemma dropCR_subset l c : c ∉ l -> c ∉ dropCR l.
Proof.
  unfold dropCR. destruct (rev l) as [|x r] eqn:E; [auto|].
  destruct (Ascii.eqb x cr); [|auto].
  intros Hn Hin. apply Hn. rewrite <- (rev_involutive l), E. simpl.
  apply elem_of_app. now left.
Qed.

Lemma scanTokens_subset ls t :
  t ∈ (scanTokens ls).1 -> exists l, l ∈ ls /\ t = str (dropCR l).
Proof.
  induction ls as [|l ls IH]; simpl.
  - intros Hin. now apply elem_of_nil in Hin.
  - destruct (MaxScanTokenSize <=? Z.of_nat (length l)); simpl.
    + intros Hin. now apply elem_of_nil in Hin.
    + destruct (scanTokens ls) as [ts e]. simpl in *.
      intros [->|Hin]%elem_of_cons.
      * exists l. split; [left | reflexivity].
      * destruct (IH Hin) as (l' & Hl & ->). exists l'. split; [now right | reflexivity].
Qed.

(** No line that the scanner delivers holds a line feed. *)
Lemma Scanner_no_line_feed text t : t ∈ (Scanner text).1 -> newline ∉ bytes t.
Proof.
  intros Hin. apply scanTokens_subset in Hin as (l & Hl & ->).
  rewrite bytes_str. apply dropCR_subset.
  apply rawLines_subset in Hl. pose proof (segments_no_line_feed text) as Hs.
  rewrite Forall_forall in Hs. now apply Hs.
Qed.

Section Clean.
Context `{UnicodeTables, TextTemplate}.

Lemma orderOf_subset seen ks (k : string) : k ∈ orderOf seen ks -> k ∈ ks.
Proof.
  revert seen. induction ks as [|k0 ks IH]; intros seen; simpl; [auto|].
  destruct (isCookie k0).
  - destruct seen.
    + intros Hin. right. eauto.
    + intros [->|Hin]%elem_of_cons; [left | right; eauto].
  - intros [->|Hin]%elem_of_cons; [left | right; eauto].
Qed.

Lemma headerLines_clean text k v :
  (k, v) ∈ headerLines text -> clean k /\ clean v.
Proof.
  unfold headerLines. intros Hin. apply list_elem_of_omap in Hin as (line & Hl & E).
  assert (Hn : newline ∉ bytes line).
  { apply (Scanner_no_line_feed text). unfold bodyLines in Hl.
    destruct (Scanner text).1; [now apply elem_of_nil in Hl | now right]. }
  destruct (lineKeyValue_clean _ _ _ E) as (Hk & Hv & Hb).
  destruct (Hb _ Hn). now repeat split.
Qed.

Lemma headerLines_key_clean text k : k ∈ (headerLines text).*1 -> clean k.
Proof.
  intros ([k' v] & -> & Hin)%list_elem_of_fmap. now apply headerLines_clean in Hin.
Qed.

Lemma headerloader_success tpl data h err :
  headerloader.ParseHeaderTemplate tpl data = (Some h, err) ->
  exists text, Renders tpl data text.
Proof.
  unfold headerloader.ParseHeaderTemplate, Renders.
  destruct (Parse tpl) as [tmpl|e]; [|discriminate].
  destruct (Execute tmpl data) as [text [e|]] eqn:E; [discriminate|]. eauto.
Qed.

Lemma http_template_success tpl data h err :
  http_template.ParseHeaderTemplate tpl data = (Some h, err) ->
  exists text, Renders tpl data text.
Proof.
  unfold http_template.ParseHeaderTemplate, Renders.
  destruct (Parse tpl) as [tmpl|e]; [|discriminate].
  destruct (Execute tmpl data) as [text [e|]] eqn:E; [discriminate|]. eauto.
Qed.

(** X12: every string in a structure that either file returns, a name
    in an order list or a value of a header, has no white space at
    either end and holds no line feed; so does every key besides the two
    magic keys. *)
Theorem stored_strings_clean tpl data h key values :
  headerloader.ParseHeaderTemplate tpl data = (Some h, None)
  \/ http_template.ParseHeaderTemplate tpl data = (Some h, None) ->
  h !! key = Some values ->
  Forall clean values
  /\ (key <> HeaderOrderKey -> key <> PHeaderOrderKey -> clean key).
Proof.
  intros E Hv.
  assert (exists text suppressed,
    h !! key
    = if decide (key = HeaderOrderKey) then stored (orderOf false (regularKeys text))
      else if decide (key = PHeaderOrderKey)
           then stored (filter (fun k => isPseudo k = true) (headerLines text).*1)
           else expectedValues suppressed key (headerLines text)) as (text & S & Hl).
  { destruct E as [E|E].
    - destruct (headerloader_success _ _ _ _ E) as [text Hr].
      rewrite (headerloader_renders _ _ _ Hr) in E.
      exists text, suppressedTwo. exact (headerloader_lookup _ _ _ key E).
    - destruct (http_template_success _ _ _ _ E) as [text Hr].
      rewrite (http_template_renders _ _ _ Hr) in E.
      exists text, suppressedOne. exact (http_template_lookup _ _ _ key E). }
  rewrite Hv in Hl. clear E Hv.
  assert (Hst : forall l : list string, Some values = stored l -> values = l).
  { intros [|x l]; simpl; [discriminate | congruence]. }
  destruct (decide (key = HeaderOrderKey)) as [->|H1].
  { split; [|congruence]. apply Hst in Hl as ->. apply Forall_forall. intros k Hk.
    apply orderOf_subset in Hk. unfold regularKeys, regularKeysOf in Hk.
    apply list_elem_of_filter in Hk as [_ Hk]. now apply (headerLines_key_clean text). }
  destruct (decide (key = PHeaderOrderKey)) as [->|H2].
  { split; [|congruence]. apply Hst in Hl as ->. apply Forall_forall. intros k Hk.
    apply list_elem_of_filter in Hk as [_ Hk]. now apply (headerLines_key_clean text). }
  unfold expectedValues in Hl. destruct (isPseudo key || S key); [discriminate|].
  assert (values = valuesOf key (headerLines text) /\ values <> []) as [-> Hne]
    by (destruct (valuesOf key (headerLines text)); [discriminate | split; congruence]).
  assert (Hall : forall v, v ∈ valuesOf key (headerLines text) -> clean key /\ clean v).
  { intros v Hin. unfold valuesOf in Hin.
    apply list_elem_of_fmap in Hin as ([k v'] & -> & Hin).
    apply list_elem_of_filter in Hin as [Hk Hin]. simpl in Hk. subst k.
    now apply headerLines_clean in Hin. }
  split.
  - apply Forall_forall. intros v Hin. now apply Hall.
  - intros _ _. destruct (valuesOf key (headerLines text)) as [|v vs]; [contradiction|].
    apply (Hall v). left.
Qed.

End Clean.

(** * Further properties: results, pseudo lines, and longer texts *)

(** Whether the key of a line is a pseudo key is decided by the first
    byte of the trimmed line. *)
Lemma lineKeyValue_pseudo line :
  match headerloader.lineKeyValue line with
  | Some (k, _) => HasPrefix k ":"
  | None => false
  end = startsWithColon line.
Proof.
  unfold startsWithColon, headerloader.lineKeyValue.
  set (t := TrimSpace line).
  destruct (HasPrefix t ":") eqn:Hp.
  - apply HasPrefix_colon in Hp as [t' Ht]. rewrite Ht.
    change (String ":" t' =? "")%string with false.
    change (IndexByte (String ":" t') ":") with 0.
    change (sliceTo (String ":" t') 0) with ""%string.
    change ((TrimSpace "" =? "")%string && true) with true. cbn [Z.eqb].
    set (pvp := if 0 <? len (String ":" t') - 1
                then sliceFrom (String ":" t') (0 + 1) else ""%string).
    destruct (IndexByte pvp ":" =? -1).
    + destruct (TrimSpace pvp =? "")%string;
        repeat change (":" +:+ ?x)%string with (String ":" x);
        cbn [String.eqb]; apply HasPrefix_colon; eauto.
    + destruct (TrimSpace (sliceTo pvp (IndexByte pvp ":")) =? "")%string;
        repeat change (":" +:+ ?x)%string with (String ":" x);
        cbn [String.eqb]; apply HasPrefix_colon; eauto.
  - destruct (t =? "")%string; [reflexivity|].
    destruct (Z.eqb_spec (IndexByte t ":") (-1)) as [|Hi]; [reflexivity|].
    rewrite andb_false_r.
    destruct (TrimSpace (sliceTo t (IndexByte t ":")) =? "")%string; [reflexivity|].
    destruct (HasPrefix (TrimSpace (sliceTo t (IndexByte t ":"))) ":") eqn:E; [|reflexivity].
    apply HasPrefix_colon in E as [k E]. exfalso.
    apply (TrimSpace_not_elem ":" _ (sliceTo_no_byte t ":" Hi)). rewrite E. left.
Qed.

Lemma orderOf_app seen (ks1 ks2 : list string) `{UnicodeTables} :
  orderOf seen (ks1 ++ ks2)
  = orderOf seen ks1 ++ orderOf (seen || existsb isCookie ks1) ks2.
Proof.
  revert seen. induction ks1 as [|k ks1 IH]; intros seen; simpl.
  - now rewrite orb_false_r.
  - destruct (isCookie k); simpl.
    + destruct seen; rewrite IH; simpl; rewrite ?orb_true_r; reflexivity.
    + now rewrite IH.
Qed.

(** The scanner on a text that goes on after a line feed. *)
Lemma Scanner_more a b :
  (Scanner (a +:+ nl)).2 = false ->
  exists t ts,
    (Scanner (a +:+ nl)).1 = t :: ts
    /\ Scanner (a +:+ nl +:+ b)
       = (t :: ts ++ (Scanner b).1, (Scanner b).2).
Proof.
  unfold Scanner. rewrite segments_app, segments_line_feed, rawLines_snoc_empty.
  destruct (segments_not_nil b) as (seg & segs & Eb).
  rewrite (rawLines_app (segments a) (segments b)) by (rewrite Eb; discriminate).
  rewrite scanTokens_app. intros Hf. rewrite Hf.
  destruct (segments_not_nil a) as (s0 & ss & Ea). rewrite Ea in *. simpl in *.
  destruct (MaxScanTokenSize <=? Z.of_nat (length s0)); [discriminate|].
  destruct (scanTokens ss) as [ts e]. simpl. eauto.
Qed.

Section Results.
Context `{UnicodeTables, TextTemplate}.

(** X13: either file returns a structure and no error, or no structure
    and an error: never both, never neither. *)
Theorem structure_or_error tpl data :
  ((exists h, headerloader.ParseHeaderTemplate tpl data = (Some h, None))
   \/ (exists err, headerloader.ParseHeaderTemplate tpl data = (None, Some err)))
  /\ ((exists h, http_template.ParseHeaderTemplate tpl data = (Some h, None))
      \/ (exists err, http_template.ParseHeaderTemplate tpl data = (None, Some err))).
Proof.
  unfold headerloader.ParseHeaderTemplate, http_template.ParseHeaderTemplate.
  destruct (Parse tpl) as [tmpl|e]; [|split; right; eauto].
  destruct (Execute tmpl data) as [text [e|]]; [split; right; eauto|].
  unfold headerloader.parseProcessed, http_template.parseProcessed.
  rewrite (surjective_pairing (Scanner text)).
  rewrite headerloader_parseLines_cases, http_template_parseLines_cases.
  destruct (Scanner text).2; split; eauto.
Qed.

Lemma pseudoKeys_count lines :
  length (filter (fun k => isPseudo k = true) (omap headerloader.lineKeyValue lines).*1)
  = length (filter (fun line => startsWithColon line = true) lines).
Proof.
  induction lines as [|line lines IH]; [reflexivity|].
  rewrite (filter_cons _ line). pose proof (lineKeyValue_pseudo line) as Hp.
  cbn [omap list_omap]. destruct (headerloader.lineKeyValue line) as [[k v]|].
  - cbn [fmap list_fmap fst]. rewrite filter_cons.
    destruct (decide (isPseudo k = true)) as [E|E],
             (decide (startsWithColon line = true)) as [E'|E'];
      unfold isPseudo in E; rewrite Hp in E; try contradiction.
    + simpl. f_equal. exact IH.
    + exact IH.
  - destruct (decide (startsWithColon line = true)) as [E|E]; [|exact IH].
    rewrite <- Hp in E. discriminate.
Qed.

(** X14: the pseudo-order list has one entry for every line after the
    first whose trimmed text starts with a colon, whatever follows the
    colon: no such line is skipped, and no other line is counted.
    Both files. *)
Theorem pseudo_lines_counted tpl data text h :
  Renders tpl data text ->
  headerloader.ParseHeaderTemplate tpl data = (Some h, None)
  \/ http_template.ParseHeaderTemplate tpl data = (Some h, None) ->
  length (pseudoOrder h)
  = length (filter (fun line => startsWithColon line = true) (bodyLines text)).
Proof.
  intros Hr E.
  assert (Hl : h !! PHeaderOrderKey
               = stored (filter (fun k => isPseudo k = true) (headerLines text).*1)).
  { destruct E as [E|E].
    - rewrite (headerloader_renders _ _ _ Hr) in E.
      now rewrite (headerloader_lookup _ _ _ PHeaderOrderKey E).
    - rewrite (http_template_renders _ _ _ Hr) in E.
      now rewrite (http_template_lookup _ _ _ PHeaderOrderKey E). }
  unfold pseudoOrder. rewrite Hl, stored_default. apply pseudoKeys_count.
Qed.

Lemma headerLines_more a b :
  (Scanner (a +:+ nl)).2 = false ->
  headerLines (a +:+ nl +:+ b)
  = headerLines (a +:+ nl) ++ omap headerloader.lineKeyValue (Scanner b).1.
Proof.
  intros Hf. destruct (Scanner_more a b Hf) as (t & ts & E1 & E2).
  unfold headerLines, bodyLines. rewrite E1, E2. cbn [fst tail]. apply omap_app.
Qed.

Lemma stored_more (l more : list string) values :
  stored l = Some values -> stored (l ++ more) = Some (values ++ more).
Proof. destruct l; simpl; [discriminate | now intros [= <-]]. Qed.

Lemma lookup_more suppressed a b key values :
  (Scanner (a +:+ nl)).2 = false ->
  (if decide (key = HeaderOrderKey)
   then stored (orderOf false (regularKeys (a +:+ nl)))
   else if decide (key = PHeaderOrderKey)
        then stored (filter (fun k => isPseudo k = true) (headerLines (a +:+ nl)).*1)
        else expectedValues suppressed key (headerLines (a +:+ nl))) = Some values ->
  exists more,
    (if decide (key = HeaderOrderKey)
     then stored (orderOf false (regularKeys (a +:+ nl +:+ b)))
     else if decide (key = PHeaderOrderKey)
          then stored (filter (fun k => isPseudo k = true)
                         (headerLines (a +:+ nl +:+ b)).*1)
          else expectedValues suppressed key (headerLines (a +:+ nl +:+ b)))
    = Some (values ++ more).
Proof.
  intros Hf. unfold regularKeys, regularKeysOf. rewrite (headerLines_more a b Hf).
  set (kvs := headerLines (a +:+ nl)). set (kvs' := omap _ _).
  rewrite fmap_app, !filter_app, orderOf_app.
  destruct (decide (key = HeaderOrderKey)); [eauto using stored_more|].
  destruct (decide (key = PHeaderOrderKey)); [eauto using stored_more|].
  unfold expectedValues, valuesOf. rewrite filter_app, fmap_app.
  destruct (isPseudo key || suppressed key); [discriminate|].
  destruct (filter (fun kv => kv.1 = key) kvs).*2 as [|v vs]; [discriminate|].
  intros [= <-]. eexists. reflexivity.
Qed.

(** X15: lines added at the end of a text only extend what is returned:
    every list of the structure for the text, an order list or the
    values of a key, begins the list that the structure for the longer
    text holds under the same key.  Both files. *)
Theorem more_lines_extend tpl1 data1 tpl2 data2 a b h1 h2 key values :
  Renders tpl1 data1 (a +:+ nl) ->
  Renders tpl2 data2 (a +:+ nl +:+ b) ->
  (headerloader.ParseHeaderTemplate tpl1 data1 = (Some h1, None)
   /\ headerloader.ParseHeaderTemplate tpl2 data2 = (Some h2, None))
  \/ (http_template.ParseHeaderTemplate tpl1 data1 = (Some h1, None)
      /\ http_template.ParseHeaderTemplate tpl2 data2 = (Some h2, None)) ->
  h1 !! key = Some values ->
  exists more, h2 !! key = Some (values ++ more).
Proof.
  intros Hr1 Hr2 E Hv.
  assert (Hf : (Scanner (a +:+ nl)).2 = false).
  { destruct E as [[E _]|[E _]].
    - rewrite (headerloader_renders _ _ _ Hr1) in E.
      unfold headerloader.parseProcessed in E.
      rewrite (surjective_pairing (Scanner _)), headerloader_parseLines_cases in E.
      now destruct (Scanner (a +:+ nl)).2.
    - rewrite (http_template_renders _ _ _ Hr1) in E.
      unfold http_template.parseProcessed in E.
      rewrite (surjective_pairing (Scanner _)), http_template_parseLines_cases in E.
      now destruct (Scanner (a +:+ nl)).2. }
  destruct E as [[E1 E2]|[E1 E2]].
  - rewrite (headerloader_renders _ _ _ Hr1) in E1.
    rewrite (headerloader_renders _ _ _ Hr2) in E2.
    rewrite (headerloader_lookup _ _ _ key E1) in Hv.
    rewrite (headerloader_lookup _ _ _ key E2).
    now apply (lookup_more suppressedTwo).
  - rewrite (http_template_renders _ _ _ Hr1) in E1.
    rewrite (http_template_renders _ _ _ Hr2) in E2.
    rewrite (http_template_lookup _ _ _ key E1) in Hv.
    rewrite (http_template_lookup _ _ _ key E2).
    now apply (lookup_more suppressedOne).
Qed.

End Results.

(** * The further properties on examples *)
Section MoreExamples.
#[local] Existing Instance noTables.
#[local] Existing Instance smallTemplates.

Lemma blank_and_colonless_lines_skipped_witness :
  ((TrimSpace "   " = ""%string \/ IndexByte (TrimSpace "   ") ":" = -1)
   /\ (forall st, headerloader.loopBody st "   " = st)
   /\ (forall first lines1 lines2 flag,
         headerloader.parseLines (first :: lines1 ++ "   "%string :: lines2, flag)
         = headerloader.parseLines (first :: lines1 ++ lines2, flag))
   /\ (newline ∉ bytes "   ")
   /\ Renders ("REQ" +:+ nl +:+ "   " +:+ nl +:+ "X-A: 1") tt
        ("REQ" +:+ nl +:+ "   " +:+ nl +:+ "X-A: 1")
   /\ Renders ("REQ" +:+ nl +:+ "X-A: 1") tt ("REQ" +:+ nl +:+ "X-A: 1")
   /\ headerloader.ParseHeaderTemplate ("REQ" +:+ nl +:+ "   " +:+ nl +:+ "X-A: 1") tt
      = (if (len "   " <? MaxScanTokenSize) || existsb tooLong (segments "REQ")
         then headerloader.ParseHeaderTemplate ("REQ" +:+ nl +:+ "X-A: 1") tt
         else (None, Some (Errorf "error scanning lines from processed template: %w"
                             ErrTooLong)))
   /\ (len "   " <? MaxScanTokenSize) || existsb tooLong (segments "REQ") = true)
  /\ ((TrimSpace (longLine 65536) = ""%string
       \/ IndexByte (TrimSpace (longLine 65536)) ":" = -1)
      /\ (newline ∉ bytes (longLine 65536))
      /\ Renders ("REQ" +:+ nl +:+ longLine 65536 +:+ nl +:+ "X-A: 1") tt
           ("REQ" +:+ nl +:+ longLine 65536 +:+ nl +:+ "X-A: 1")
      /\ Renders ("REQ" +:+ nl +:+ "X-A: 1") tt ("REQ" +:+ nl +:+ "X-A: 1")
      /\ headerloader.ParseHeaderTemplate
           ("REQ" +:+ nl +:+ longLine 65536 +:+ nl +:+ "X-A: 1") tt
         = (if (len (longLine 65536) <? MaxScanTokenSize)
               || existsb tooLong (segments "REQ")
            then headerloader.ParseHeaderTemplate ("REQ" +:+ nl +:+ "X-A: 1") tt
            else (None, Some (Errorf "error scanning lines from processed template: %w"
                                ErrTooLong)))
      /\ (len (longLine 65536) <? MaxScanTokenSize) || existsb tooLong (segments "REQ")
         = false).
Proof.
  assert (Hb : TrimSpace "   " = ""%string \/ IndexByte (TrimSpace "   ") ":" = -1)
    by (left; reflexivity).
  assert (Hc : TrimSpace (longLine 65536) = ""%string
               \/ IndexByte (TrimSpace (longLine 65536)) ":" = -1)
    by (right; apply indexByte_none, TrimSpace_not_elem, indexByte_none;
        vm_compute; reflexivity).
  assert (Hnb : newline ∉ bytes "   ")
    by (apply indexByte_none; vm_compute; reflexivity).
  assert (Hnc : newline ∉ bytes (longLine 65536))
    by (apply indexByte_none; vm_compute; reflexivity).
  assert (Hr1 : Renders ("REQ" +:+ nl +:+ "   " +:+ nl +:+ "X-A: 1") tt
                  ("REQ" +:+ nl +:+ "   " +:+ nl +:+ "X-A: 1"))
    by (apply smallTemplates_renders; vm_compute; reflexivity).
  assert (Hr2 : Renders ("REQ" +:+ nl +:+ "X-A: 1") tt ("REQ" +:+ nl +:+ "X-A: 1"))
    by (apply smallTemplates_renders; vm_compute; reflexivity).
  assert (Hr3 : Renders ("REQ" +:+ nl +:+ longLine 65536 +:+ nl +:+ "X-A: 1") tt
                  ("REQ" +:+ nl +:+ longLine 65536 +:+ nl +:+ "X-A: 1"))
    by (apply smallTemplates_renders; vm_compute; reflexivity).
  split.
  - split; [exact Hb|].
    destruct (blank_and_colonless_lines_skipped "   " Hb) as (H1 & H2 & H3).
    split; [exact H1|]. split; [exact H2|]. split; [exact Hnb|].
    split; [exact Hr1|]. split; [exact Hr2|].
    split; [exact (H3 _ _ _ _ _ _ Hnb Hr1 Hr2) | vm_compute; reflexivity].
  - split; [exact Hc|]. split; [exact Hnc|]. split; [exact Hr3|]. split; [exact Hr2|].
    split; [|vm_compute; reflexivity].
    exact (proj2 (proj2 (blank_and_colonless_lines_skipped (longLine 65536) Hc))
             _ _ _ _ _ _ Hnc Hr3 Hr2).
Defined.

(** C8 as stated fails: a line after the first that holds no colon and
    has 65536 bytes is not skipped; ParseHeaderTemplate returns nil and
    the scanner's error for the text, and a structure for the text
    without the line. *)
Lemma long_colonless_line_is_an_error :
  Renders ("REQ" +:+ nl +:+ longLine 65536 +:+ nl +:+ "X-A: 1") tt
    ("REQ" +:+ nl +:+ longLine 65536 +:+ nl +:+ "X-A: 1")
  /\ (newline ∉ bytes (longLine 65536))
  /\ IndexByte (TrimSpace (longLine 65536)) ":" = -1
  /\ headerloader.ParseHeaderTemplate
       ("REQ" +:+ nl +:+ longLine 65536 +:+ nl +:+ "X-A: 1") tt
     = (None, Some (Errorf "error scanning lines from processed template: %w" ErrTooLong))
  /\ headerloader.ParseHeaderTemplate ("REQ" +:+ nl +:+ "X-A: 1") tt
     = (Some headerOnce, None)
  /\ headerloader.ParseHeaderTemplate
       ("REQ" +:+ nl +:+ longLine 65536 +:+ nl +:+ "X-A: 1") tt
     <> headerloader.ParseHeaderTemplate ("REQ" +:+ nl +:+ "X-A: 1") tt.
Proof.
  assert (Hp : headerloader.ParseHeaderTemplate
                 ("REQ" +:+ nl +:+ longLine 65536 +:+ nl +:+ "X-A: 1") tt
               = (None, Some (Errorf "error scanning lines from processed template: %w"
                                ErrTooLong)))
    by (vm_compute; reflexivity).
  assert (Hq : headerloader.ParseHeaderTemplate ("REQ" +:+ nl +:+ "X-A: 1") tt
               = (Some headerOnce, None))
    by (vm_compute; reflexivity).
  split; [|split; [|split; [|split; [|split]]]].
  - apply smallTemplates_renders; vm_compute; reflexivity.
  - apply indexByte_none. vm_compute. reflexivity.
  - apply indexByte_none, TrimSpace_not_elem, indexByte_none. vm_compute. reflexivity.
  - exact Hp.
  - exact Hq.
  - rewrite Hp, Hq. discriminate.
Qed.

Lemma pseudo_order_exact_witness :
  Renders textPlain tt textPlain
  /\ (headerloader.ParseHeaderTemplate textPlain tt = (Some headerPlain, None)
      \/ http_template.ParseHeaderTemplate textPlain tt = (Some headerPlain, None))
  /\ headerPlain !! PHeaderOrderKey
     = stored (filter (fun k => isPseudo k = true) (headerLines textPlain).*1).
Proof.
  assert (Hr : Renders textPlain tt textPlain)
    by (exists textPlain; split; reflexivity).
  assert (Hp : headerloader.ParseHeaderTemplate textPlain tt = (Some headerPlain, None))
    by (vm_compute; reflexivity).
  split; [exact Hr|]. split; [left; exact Hp|].
  exact (pseudo_order_exact _ _ _ _ Hr (or_introl Hp)).
Defined.

Lemma regular_order_exact_witness :
  Renders textCookies tt textCookies
  /\ (headerloader.ParseHeaderTemplate textCookies tt = (Some headerCookies, None)
      \/ http_template.ParseHeaderTemplate textCookies tt = (Some headerCookies, None))
  /\ headerCookies !! HeaderOrderKey = stored (orderOf false (regularKeys textCookies)).
Proof.
  assert (Hr : Renders textCookies tt textCookies)
    by (exists textCookies; split; reflexivity).
  assert (Hp : http_template.ParseHeaderTemplate textCookies tt = (Some headerCookies, None))
    by (vm_compute; reflexivity).
  split; [exact Hr|]. split; [right; exact Hp|].
  exact (regular_order_exact _ _ _ _ Hr (or_intror Hp)).
Defined.

Lemma values_align_with_order_witness :
  Renders textRepeated tt textRepeated
  /\ headerloader.ParseHeaderTemplate textRepeated tt = (Some headerRepeated, None)
  /\ "X-A"%string <> HeaderOrderKey /\ "X-A"%string <> PHeaderOrderKey
  /\ headerRepeated !! "X-A"%string = Some ["1"; "2"]%string
  /\ length ["1"; "2"]%string
     = length (filter (fun k => k = "X-A"%string) (regularOrder headerRepeated)).
Proof.
  assert (Hr : Renders textRepeated tt textRepeated)
    by (exists textRepeated; split; reflexivity).
  assert (Hp : headerloader.ParseHeaderTemplate textRepeated tt
               = (Some headerRepeated, None))
    by (vm_compute; reflexivity).
  assert (H1 : "X-A"%string <> HeaderOrderKey) by discriminate.
  assert (H2 : "X-A"%string <> PHeaderOrderKey) by discriminate.
  assert (Hv : headerRepeated !! "X-A"%string = Some ["1"; "2"]%string)
    by (vm_compute; reflexivity).
  split; [exact Hr|]. split; [exact Hp|]. split; [exact H1|]. split; [exact H2|].
  split; [exact Hv|].
  exact (values_align_with_order _ _ _ _ _ _ Hr Hp H1 H2 Hv).
Defined.

Lemma bound_keys_witness :
  Renders textContentLength tt textContentLength
  /\ headerloader.ParseHeaderTemplate textContentLength tt
     = (Some headerContentLength, None)
  /\ "X-A"%string <> HeaderOrderKey
  /\ "X-A"%string <> PHeaderOrderKey
  /\ (is_Some (headerContentLength !! "X-A"%string)
      <-> "X-A"%string ∈ regularKeys textContentLength
          /\ isCookie "X-A" = false
          /\ isContentLength "X-A" = false).
Proof.
  assert (Hr : Renders textContentLength tt textContentLength)
    by (exists textContentLength; split; reflexivity).
  assert (Hp : headerloader.ParseHeaderTemplate textContentLength tt
               = (Some headerContentLength, None))
    by (vm_compute; reflexivity).
  assert (H1 : "X-A"%string <> HeaderOrderKey) by discriminate.
  assert (H2 : "X-A"%string <> PHeaderOrderKey) by discriminate.
  split; [exact Hr|]. split; [exact Hp|]. split; [exact H1|]. split; [exact H2|].
  exact (bound_keys _ _ _ _ _ Hr Hp H1 H2).
Defined.

Lemma parser_binds_all_but_cookie_witness :
  Renders textOnlyContentLength tt textOnlyContentLength
  /\ http_template.ParseHeaderTemplate textOnlyContentLength tt
     = (Some headerOnlyContentLength, None)
  /\ "Content-Length"%string ∈ regularKeys textOnlyContentLength
  /\ isCookie "Content-Length" = false
  /\ headerOnlyContentLength !! "Content-Length"%string
     = Some (valuesOf "Content-Length" (headerLines textOnlyContentLength)).
Proof.
  assert (Hr : Renders textOnlyContentLength tt textOnlyContentLength)
    by (exists textOnlyContentLength; split; reflexivity).
  assert (Hp : http_template.ParseHeaderTemplate textOnlyContentLength tt
               = (Some headerOnlyContentLength, None))
    by (vm_compute; reflexivity).
  assert (Hin : "Content-Length"%string ∈ regularKeys textOnlyContentLength)
    by (vm_compute; constructor).
  assert (Hc : isCookie "Content-Length" = false) by reflexivity.
  split; [exact Hr|]. split; [exact Hp|]. split; [exact Hin|]. split; [exact Hc|].
  exact (parser_binds_all_but_cookie _ _ _ _ _ Hr Hp Hin Hc).
Defined.

Lemma scan_failure_exact_witness :
  Renders ("REQ" +:+ nl +:+ longLine 65536) tt ("REQ" +:+ nl +:+ longLine 65536)
  /\ headerloader.ParseHeaderTemplate ("REQ" +:+ nl +:+ longLine 65536) tt
     = (if existsb tooLong (segments ("REQ" +:+ nl +:+ longLine 65536))
        then (None, Some (Errorf (if tooLong (firstSegment ("REQ" +:+ nl +:+ longLine 65536))
                                  then "error reading the first line: %w"
                                  else "error scanning lines from processed template: %w")%string
                            ErrTooLong))
        else (Some (attachOrders
                      (foldl headerloader.loopBody initialState
                         (bodyLines ("REQ" +:+ nl +:+ longLine 65536)))), None))
  /\ existsb tooLong (segments ("REQ" +:+ nl +:+ longLine 65536)) = true
  /\ tooLong (firstSegment ("REQ" +:+ nl +:+ longLine 65536)) = false.
Proof.
  assert (Hr : Renders ("REQ" +:+ nl +:+ longLine 65536) tt
                 ("REQ" +:+ nl +:+ longLine 65536))
    by (apply smallTemplates_renders; vm_compute; reflexivity).
  split; [exact Hr|].
  split; [exact (proj1 (scan_failure_exact _ _ _ Hr))|].
  split; vm_compute; reflexivity.
Defined.

Lemma final_line_feed_irrelevant_witness :
  Renders ("REQ" +:+ nl +:+ "Host: a") tt ("REQ" +:+ nl +:+ "Host: a")
  /\ Renders (("REQ" +:+ nl +:+ "Host: a") +:+ nl) tt (("REQ" +:+ nl +:+ "Host: a") +:+ nl)
  /\ headerloader.ParseHeaderTemplate (("REQ" +:+ nl +:+ "Host: a") +:+ nl) tt
     = headerloader.ParseHeaderTemplate ("REQ" +:+ nl +:+ "Host: a") tt
  /\ http_template.ParseHeaderTemplate (("REQ" +:+ nl +:+ "Host: a") +:+ nl) tt
     = http_template.ParseHeaderTemplate ("REQ" +:+ nl +:+ "Host: a") tt.
Proof.
  assert (Hr1 : Renders ("REQ" +:+ nl +:+ "Host: a") tt ("REQ" +:+ nl +:+ "Host: a"))
    by (apply smallTemplates_renders; vm_compute; reflexivity).
  assert (Hr2 : Renders (("REQ" +:+ nl +:+ "Host: a") +:+ nl) tt
                  (("REQ" +:+ nl +:+ "Host: a") +:+ nl))
    by (apply smallTemplates_renders; vm_compute; reflexivity).
  split; [exact Hr1|]. split; [exact Hr2|].
  exact (final_line_feed_irrelevant _ _ _ _ _ Hr1 Hr2).
Defined.

Lemma crlf_line_ending_witness :
  Z.of_nat (length (lastSegment ("REQ" +:+ crlf +:+ "Host: a"))) + 1 < MaxScanTokenSize
  /\ Renders (("REQ" +:+ crlf +:+ "Host: a") +:+ crlf +:+ "X-A: 1") tt
       (("REQ" +:+ crlf +:+ "Host: a") +:+ crlf +:+ "X-A: 1")
  /\ Renders (("REQ" +:+ crlf +:+ "Host: a") +:+ nl +:+ "X-A: 1") tt
       (("REQ" +:+ crlf +:+ "Host: a") +:+ nl +:+ "X-A: 1")
  /\ headerloader.ParseHeaderTemplate
       (("REQ" +:+ crlf +:+ "Host: a") +:+ crlf +:+ "X-A: 1") tt
     = headerloader.ParseHeaderTemplate
         (("REQ" +:+ crlf +:+ "Host: a") +:+ nl +:+ "X-A: 1") tt
  /\ http_template.ParseHeaderTemplate
       (("REQ" +:+ crlf +:+ "Host: a") +:+ crlf +:+ "X-A: 1") tt
     = http_template.ParseHeaderTemplate
         (("REQ" +:+ crlf +:+ "Host: a") +:+ nl +:+ "X-A: 1") tt.
Proof.
  assert (Hl : Z.of_nat (length (lastSegment ("REQ" +:+ crlf +:+ "Host: a"))) + 1
               < MaxScanTokenSize) by (vm_compute; reflexivity).
  assert (Hr1 : Renders (("REQ" +:+ crlf +:+ "Host: a") +:+ crlf +:+ "X-A: 1") tt
                  (("REQ" +:+ crlf +:+ "Host: a") +:+ crlf +:+ "X-A: 1"))
    by (apply smallTemplates_renders; vm_compute; reflexivity).
  assert (Hr2 : Renders (("REQ" +:+ crlf +:+ "Host: a") +:+ nl +:+ "X-A: 1") tt
                  (("REQ" +:+ crlf +:+ "Host: a") +:+ nl +:+ "X-A: 1"))
    by (apply smallTemplates_renders; vm_compute; reflexivity).
  split; [exact Hl|]. split; [exact Hr1|]. split; [exact Hr2|].
  exact (crlf_line_ending _ _ _ _ _ _ Hl Hr1 Hr2).
Defined.

Lemma plainName_example key :
  key <> ""%string -> TrimSpace key = key ->
  indexByte (bytes key) ":" = -1 -> indexByte (bytes key) newline = -1 ->
  plainName key.
Proof. intros H1 H2 H3 H4. repeat split; try assumption; now apply indexByte_none. Qed.

Lemma clean_example s : TrimSpace s = s -> indexByte (bytes s) newline = -1 -> clean s.
Proof. intros H1 H2. split; [assumption | now apply indexByte_none]. Qed.

Lemma written_headers_read_back_witness :
  Renders (headerText "GET / HTTP/2" [("Host", "example.com:8080"); ("Accept", "")]%string)
    tt (headerText "GET / HTTP/2" [("Host", "example.com:8080"); ("Accept", "")]%string)
  /\ (newline ∉ bytes "GET / HTTP/2")
  /\ len "GET / HTTP/2" < MaxScanTokenSize
  /\ Forall plainHeader [("Host", "example.com:8080"); ("Accept", "")]%string
  /\ Forall (fun kv => isCookie kv.1 = false /\ isContentLength kv.1 = false)
       [("Host", "example.com:8080"); ("Accept", "")]%string
  /\ exists h,
       headerloader.ParseHeaderTemplate
         (headerText "GET / HTTP/2" [("Host", "example.com:8080"); ("Accept", "")]%string) tt
       = (Some h, None)
       /\ h !! HeaderOrderKey
          = stored [("Host", "example.com:8080"); ("Accept", "")]%string.*1
       /\ h !! PHeaderOrderKey = None
       /\ (forall key, key <> HeaderOrderKey -> key <> PHeaderOrderKey ->
             h !! key
             = stored (valuesOf key [("Host", "example.com:8080"); ("Accept", "")]%string)).
Proof.
  set (headers := [("Host", "example.com:8080"); ("Accept", "")]%string).
  assert (Hr : Renders (headerText "GET / HTTP/2" headers) tt
                 (headerText "GET / HTTP/2" headers))
    by (apply smallTemplates_renders; vm_compute; reflexivity).
  assert (Hn : newline ∉ bytes "GET / HTTP/2")
    by (apply indexByte_none; vm_compute; reflexivity).
  assert (Hl : len "GET / HTTP/2" < MaxScanTokenSize) by (vm_compute; reflexivity).
  assert (Hp : Forall plainHeader headers).
  { repeat (constructor;
            [split; [apply plainName_example; [discriminate | vm_compute; reflexivity ..]
                    | split; [apply clean_example; vm_compute; reflexivity
                             | vm_compute; reflexivity]] |]).
    constructor. }
  assert (Hs : Forall (fun kv => isCookie kv.1 = false /\ isContentLength kv.1 = false)
                 headers)
    by (repeat constructor).
  split; [exact Hr|]. split; [exact Hn|]. split; [exact Hl|]. split; [exact Hp|].
  split; [exact Hs|].
  exact (written_headers_read_back _ _ _ _ Hr Hn Hl Hp Hs).
Defined.

Lemma stored_strings_clean_witness :
  (headerloader.ParseHeaderTemplate textPlain tt = (Some headerPlain, None)
   \/ http_template.ParseHeaderTemplate textPlain tt = (Some headerPlain, None))
  /\ headerPlain !! "Host"%string = Some ["example.com"%string]
  /\ Forall clean ["example.com"%string]
  /\ ("Host"%string <> HeaderOrderKey -> "Host"%string <> PHeaderOrderKey -> clean "Host").
Proof.
  assert (Hp : headerloader.ParseHeaderTemplate textPlain tt = (Some headerPlain, None))
    by (vm_compute; reflexivity).
  assert (Hv : headerPlain !! "Host"%string = Some ["example.com"%string])
    by (vm_compute; reflexivity).
  split; [left; exact Hp|]. split; [exact Hv|].
  exact (stored_strings_clean _ _ _ _ _ (or_introl Hp) Hv).
Defined.

Lemma written_lines_read_back_witness :
  Renders (headerText "GET / HTTP/2"
             [(":method", "GET"); ("Cookie", "a=1"); ("Host", "h"); ("cookie", "b=2")]%string)
    tt (headerText "GET / HTTP/2"
          [(":method", "GET"); ("Cookie", "a=1"); ("Host", "h"); ("cookie", "b=2")]%string)
  /\ (newline ∉ bytes "GET / HTTP/2")
  /\ len "GET / HTTP/2" < MaxScanTokenSize
  /\ Forall writtenHeader
       [(":method", "GET"); ("Cookie", "a=1"); ("Host", "h"); ("cookie", "b=2")]%string
  /\ exists h,
       headerloader.ParseHeaderTemplate
         (headerText "GET / HTTP/2"
            [(":method", "GET"); ("Cookie", "a=1"); ("Host", "h"); ("cookie", "b=2")]%string)
         tt
       = (Some h, None)
       /\ h !! PHeaderOrderKey
          = stored (filter (fun k => isPseudo k = true)
                      [(":method", "GET"); ("Cookie", "a=1"); ("Host", "h");
                       ("cookie", "b=2")]%string.*1)
       /\ h !! HeaderOrderKey
          = stored (orderOf false
                      (regularKeysOf
                         [(":method", "GET"); ("Cookie", "a=1"); ("Host", "h");
                          ("cookie", "b=2")]%string))
       /\ (forall key, key <> HeaderOrderKey -> key <> PHeaderOrderKey ->
             h !! key
             = if isPseudo key || (isCookie key || isContentLength key) then None
               else stored (valuesOf key
                              [(":method", "GET"); ("Cookie", "a=1"); ("Host", "h");
                               ("cookie", "b=2")]%string)).
Proof.
  set (headers := [(":method", "GET"); ("Cookie", "a=1"); ("Host", "h");
                   ("cookie", "b=2")]%string).
  assert (Hr : Renders (headerText "GET / HTTP/2" headers) tt
                 (headerText "GET / HTTP/2" headers))
    by (apply smallTemplates_renders; vm_compute; reflexivity).
  assert (Hn : newline ∉ bytes "GET / HTTP/2")
    by (apply indexByte_none; vm_compute; reflexivity).
  assert (Hl : len "GET / HTTP/2" < MaxScanTokenSize) by (vm_compute; reflexivity).
  assert (Hw : Forall writtenHeader headers).
  { repeat (constructor;
            [split; [first [left; apply plainName_example;
                              [discriminate | vm_compute; reflexivity ..]
                           | right; eexists; split; [reflexivity|];
                             apply plainName_example;
                               [discriminate | vm_compute; reflexivity ..]]
                    | split; [apply clean_example; vm_compute; reflexivity
                             | vm_compute; reflexivity]] |]).
    constructor. }
  split; [exact Hr|]. split; [exact Hn|]. split; [exact Hl|]. split; [exact Hw|].
  exact (written_lines_read_back _ _ _ _ Hr Hn Hl Hw).
Defined.

Lemma pseudo_lines_counted_witness :
  Renders textPlain tt textPlain
  /\ (headerloader.ParseHeaderTemplate textPlain tt = (Some headerPlain, None)
      \/ http_template.ParseHeaderTemplate textPlain tt = (Some headerPlain, None))
  /\ length (pseudoOrder headerPlain)
     = length (filter (fun line => startsWithColon line = true) (bodyLines textPlain)).
Proof.
  assert (Hr : Renders textPlain tt textPlain)
    by (exists textPlain; split; reflexivity).
  assert (Hp : http_template.ParseHeaderTemplate textPlain tt = (Some headerPlain, None))
    by (vm_compute; reflexivity).
  split; [exact Hr|]. split; [right; exact Hp|].
  exact (pseudo_lines_counted _ _ _ _ Hr (or_intror Hp)).
Defined.

Lemma more_lines_extend_witness :
  Renders (("REQ" +:+ nl +:+ "X-A: 1") +:+ nl) tt (("REQ" +:+ nl +:+ "X-A: 1") +:+ nl)
  /\ Renders (("REQ" +:+ nl +:+ "X-A: 1") +:+ nl +:+ "X-A: 2") tt
       (("REQ" +:+ nl +:+ "X-A: 1") +:+ nl +:+ "X-A: 2")
  /\ ((headerloader.ParseHeaderTemplate (("REQ" +:+ nl +:+ "X-A: 1") +:+ nl) tt
       = (Some headerOnce, None)
       /\ headerloader.ParseHeaderTemplate
            (("REQ" +:+ nl +:+ "X-A: 1") +:+ nl +:+ "X-A: 2") tt
          = (Some headerRepeated, None))
      \/ (http_template.ParseHeaderTemplate (("REQ" +:+ nl +:+ "X-A: 1") +:+ nl) tt
          = (Some headerOnce, None)
          /\ http_template.ParseHeaderTemplate
               (("REQ" +:+ nl +:+ "X-A: 1") +:+ nl +:+ "X-A: 2") tt
             = (Some headerRepeated, None)))
  /\ headerOnce !! "X-A"%string = Some ["1"%string]
  /\ exists more, headerRepeated !! "X-A"%string = Some (["1"%string] ++ more).
Proof.
  assert (Hr1 : Renders (("REQ" +:+ nl +:+ "X-A: 1") +:+ nl) tt
                  (("REQ" +:+ nl +:+ "X-A: 1") +:+ nl))
    by (apply smallTemplates_renders; vm_compute; reflexivity).
  assert (Hr2 : Renders (("REQ" +:+ nl +:+ "X-A: 1") +:+ nl +:+ "X-A: 2") tt
                  (("REQ" +:+ nl +:+ "X-A: 1") +:+ nl +:+ "X-A: 2"))
    by (apply smallTemplates_renders; vm_compute; reflexivity).
  assert (Hp1 : headerloader.ParseHeaderTemplate (("REQ" +:+ nl +:+ "X-A: 1") +:+ nl) tt
                = (Some headerOnce, None))
    by (vm_compute; reflexivity).
  assert (Hp2 : headerloader.ParseHeaderTemplate
                  (("REQ" +:+ nl +:+ "X-A: 1") +:+ nl +:+ "X-A: 2") tt
                = (Some headerRepeated, None))
    by (vm_compute; reflexivity).
  assert (Hv : headerOnce !! "X-A"%string = Some ["1"%string])
    by (vm_compute; reflexivity).
  split; [exact Hr1|]. split; [exact Hr2|]. split; [left; split; [exact Hp1 | exact Hp2]|].
  split; [exact Hv|].
  exact (more_lines_extend _ _ _ _ _ _ _ _ _ _ Hr1 Hr2 (or_introl (conj Hp1 Hp2)) Hv).
Defined.

End MoreExamples.
